(** * Minesweeper: a shallow embedding of [wp-proj06.py]

    The Python classes [Board] and [Game] are embedded as functions over a
    [Board] record.  Python integers are [Z], Python lists are [list] with
    stdpp's lookup and insert, one-character strings are [ascii], the cell
    strings ("0H", "*S", ...) are [string].  Exceptions are an explicit
    [outcome]; methods that assign to [self] live in the state monad [M].
    The game loop [Game.run] and [main] take what is typed as a list of
    lines and give what they print, prompt and write as a list of events. *)

From Stdlib Require Import ZArith String Ascii DecimalString.
From stdpp Require Import base tactics option list list_numbers strings relations.

Open Scope Z_scope.

(** ** Enumerations and exceptions *)

Inductive GameStatus := NotStarted | InProgress | Win | Lose.

Inductive RippleTypes := Simple | Recursive | Queue.

Inductive exn :=
  | SizeOutOfBoundException
  | ScatterException
  | BoardFormatException
  | DimensionsMismatchException
  | IllegalIndicesException
  | IllegalMoveException
  | IndexError
  | IOError.

(** The result of running a piece of Python code: a value, a raised
    exception, or [Stuck] when the embedding's loop budget (or the tape of
    random draws) ends before the loop does. *)
Inductive outcome (A : Type) : Type :=
  | Ok (a : A)
  | Raise (e : exn)
  | Stuck.
Arguments Ok {A} a.
Arguments Raise {A} e.
Arguments Stuck {A}.

Definition obind {A B} (o : outcome A) (k : A → outcome B) : outcome B :=
  match o with
  | Ok a => k a
  | Raise e => Raise e
  | Stuck => Stuck
  end.

Notation "'let!' x ':=' e 'in' k" := (obind e (λ x, k))
  (at level 10, x pattern, e at level 100, k at level 200,
   format "'[v' 'let!'  x  ':='  e  'in' '/' k ']'").

(** ** Python indexing *)

(** [l[i]]: negative indices count from the end, anything else out of
    range raises [IndexError]. *)
Definition py_pos {A} (l : list A) (i : Z) : option nat :=
  let n := Z.of_nat (length l) in
  let k := if bool_decide (i < 0) then i + n else i in
  if bool_decide (0 ≤ k < n) then Some (Z.to_nat k) else None.

Definition py_index {A} (l : list A) (i : Z) : outcome A :=
  match py_pos l i with
  | Some k => match l !! k with Some x => Ok x | None => Raise IndexError end
  | None => Raise IndexError
  end.

(** [l[i] = v] *)
Definition py_setitem {A} (l : list A) (i : Z) (v : A) : outcome (list A) :=
  match py_pos l i with
  | Some k => Ok (<[k:=v]> l)
  | None => Raise IndexError
  end.

(** [s[i]] on a string, for the literal indices 0 and 1 of the source. *)
Definition str_index (s : string) (i : nat) : outcome ascii :=
  match String.get i s with
  | Some ch => Ok ch
  | None => Raise IndexError
  end.

(** [range(n)] *)
Definition range (n : Z) : list Z := seqZ 0 n.

(** ** class Board *)

Record Board := mkBoard {
  rows : Z;
  columns : Z;
  board : list (list string)
}.

(** The state monad of the methods that alter [self]; the state reached
    when an exception is raised is kept, as Python keeps the object. *)
Definition M (A : Type) : Type := Board → outcome A * Board.

Definition ret {A} (a : A) : M A := λ self, (Ok a, self).

Definition raise {A} (e : exn) : M A := λ self, (Raise e, self).

Definition bind {A B} (m : M A) (k : A → M B) : M B := λ self,
  match m self with
  | (Ok a, self') => k a self'
  | (Raise e, self') => (Raise e, self')
  | (Stuck, self') => (Stuck, self')
  end.

(** A method that only reads [self]. *)
Definition query {A} (f : Board → outcome A) : M A := λ self, (f self, self).

Notation "'do!' x '<-' e ';' k" := (bind e (λ x, k))
  (at level 10, x pattern, e at level 100, k at level 200,
   format "'[v' 'do!'  x  '<-'  e ';' '/' k ']'").

(** [for x in l: body x] *)
Fixpoint for_each {A} (l : list A) (body : A → M unit) : M unit :=
  match l with
  | [] => ret tt
  | x :: l' => do! _ <- body x; for_each l' body
  end.

(** The same loop for a body that only reads. *)
Fixpoint for_each_o {A} (l : list A) (body : A → outcome unit) : outcome unit :=
  match l with
  | [] => Ok tt
  | x :: l' => let! _ := body x in for_each_o l' body
  end.

(** [[x for x in l if p x]] where [p] may raise. *)
Fixpoint filter_o {A} (p : A → outcome bool) (l : list A) : outcome (list A) :=
  match l with
  | [] => Ok []
  | x :: l' =>
      let! keep := p x in
      let! rest := filter_o p l' in
      Ok (if keep then x :: rest else rest)
  end.

(** The pairs [(i, j)] visited by
    [for i in range(rows): for j in range(columns)], in that order. *)
Definition grid_cells (nrows ncolumns : Z) : list (Z * Z) :=
  i ← range nrows; j ← range ncolumns; [(i, j)].

(** [Board.__init__] *)
Definition Board_init (nrows ncolumns : Z) : outcome Board :=
  let MIN_ROWS := 1 in
  let MAX_ROWS := 20 in
  let MIN_COLS := 2 in
  let MAX_COLS := 50 in
  if bool_decide (nrows < MIN_ROWS) || bool_decide (MAX_ROWS < nrows)
     || bool_decide (ncolumns < MIN_COLS) || bool_decide (MAX_COLS < ncolumns)
  then Raise SizeOutOfBoundException
  else Ok {| rows := nrows; columns := ncolumns;
             board := (λ _, (λ _, "0H"%string) <$> range ncolumns) <$> range nrows |}.

Definition checkIndices (self : Board) (row column : Z) : outcome unit :=
  if bool_decide (row < 0) || bool_decide (rows self ≤ row)
     || bool_decide (column < 0) || bool_decide (columns self ≤ column)
  then Raise IllegalIndicesException
  else Ok tt.

(** [self.board[row][column]] *)
Definition board_item (self : Board) (row column : Z) : outcome string :=
  let! r := py_index (board self) row in
  py_index r column.

Definition get_value (self : Board) (row column : Z) : outcome ascii :=
  let! _ := checkIndices self row column in
  let! cell := board_item self row column in
  str_index cell 0.

Definition is_hidden (self : Board) (row column : Z) : outcome ascii :=
  let! _ := checkIndices self row column in
  let! cell := board_item self row column in
  let! y := str_index cell 1 in
  if bool_decide (y = "H"%char) then Ok "H"%char else Ok "S"%char.

(** [self.board[row][column] = v] *)
Definition board_setitem (row column : Z) (v : string) : M unit := λ self,
  match py_index (board self) row with
  | Ok r =>
      match py_setitem r column v with
      | Ok r' =>
          match py_setitem (board self) row r' with
          | Ok b' => (Ok tt, {| rows := rows self; columns := columns self; board := b' |})
          | Raise e => (Raise e, self)
          | Stuck => (Stuck, self)
          end
      | Raise e => (Raise e, self)
      | Stuck => (Stuck, self)
      end
  | Raise e => (Raise e, self)
  | Stuck => (Stuck, self)
  end.

Definition uncover (row column : Z) : M unit :=
  do! _ <- query (λ self, checkIndices self row column);
  do! h <- query (λ self, is_hidden self row column);
  if bool_decide (h = "S"%char) then raise IllegalMoveException
  else
    do! cell <- query (λ self, board_item self row column);
    do! x <- query (λ _, str_index cell 0);
    board_setitem row column (String x "S").

Definition get_ripple_type (self : Board) : RippleTypes := Queue.

Definition get_neighbours (self : Board) (cell : Z * Z) : list (Z * Z) :=
  let r := cell.1 in
  let c := cell.2 in
  let all_possible_neighbours :=
    [(r-1, c); (r-1, c+1); (r, c+1); (r+1, c+1);
     (r+1, c); (r+1, c-1); (r, c-1); (r-1, c-1)] in
  filter (λ p, 0 ≤ p.1 ∧ p.1 < rows self ∧ 0 ≤ p.2 ∧ p.2 < columns self)
         all_possible_neighbours.

(** The [while len(queue) != 0] loop of [ripple_sequence]; [fuel] bounds the
    number of iterations. *)
Fixpoint ripple_loop (fuel : nat) (self : Board)
    (ripple_seq queue : list (Z * Z)) : outcome (list (Z * Z)) :=
  match fuel with
  | O => Stuck
  | S fuel' =>
      match queue with
      | [] => Ok ripple_seq
      | current_cell :: queue =>
          let ripple_seq := ripple_seq ++ [current_cell] in
          let! v := get_value self current_cell.1 current_cell.2 in
          if bool_decide (v ≠ "0"%char) then
            ripple_loop fuel' self ripple_seq queue
          else
            let neighbours := get_neighbours self current_cell in
            let! hidden_neighbours :=
              filter_o (λ x, obind (is_hidden self x.1 x.2)
                               (λ h, Ok (bool_decide (h = "H"%char))))
                       neighbours in
            let new_neighbours :=
              filter (λ x, (x ∉ ripple_seq) ∧ (x ∉ queue)) hidden_neighbours in
            ripple_loop fuel' self ripple_seq (queue ++ new_neighbours)
      end
  end.

(** Every iteration moves one cell into [ripple_seq] and no cell enters it
    twice, so one more iteration than there are cells is a sufficient budget
    (proved below for well-formed boards). *)
Definition ripple_fuel (self : Board) : nat :=
  S (Z.to_nat (rows self * columns self)).

Definition ripple_sequence (self : Board) (row column : Z) : outcome (list (Z * Z)) :=
  let! _ := checkIndices self row column in
  let! ripple_seq := ripple_loop (ripple_fuel self) self [] [(row, column)] in
  Ok (drop 1 ripple_seq).

(** [str(n)] and ['%d' % n] for an integer [n]. *)
Definition str_Z (n : Z) : string := NilZero.string_of_int (Z.to_int n).

(** The loop of [put_mines] that checks the board is in its start state;
    Python's [or] does not call [is_hidden] when the value is not '0'. *)
Definition check_start_state (self : Board) : outcome unit :=
  for_each_o (grid_cells (rows self) (columns self)) (λ ij,
    let! v := get_value self ij.1 ij.2 in
    if negb (bool_decide (v = "0"%char)) then Raise ScatterException
    else
      let! h := is_hidden self ij.1 ij.2 in
      if negb (bool_decide (h = "H"%char)) then Raise ScatterException
      else Ok tt).

(** The [while mines_placed < mines] loop.  [tape] lists the successive
    results [(i, j)] of the two [random.randint] calls of an iteration;
    when the tape ends before the loop does the run is [Stuck]. *)
Fixpoint place_mines_loop (tape : list (Z * Z)) (mines mines_placed : Z) : M unit :=
  match tape with
  | [] =>
      if bool_decide (mines_placed < mines) then (λ self, (Stuck, self))
      else ret tt
  | ij :: tape =>
      if bool_decide (mines_placed < mines) then
        do! v <- query (λ self, get_value self ij.1 ij.2);
        if negb (bool_decide (v = "*"%char)) then
          do! _ <- board_setitem ij.1 ij.2 "*H";
          place_mines_loop tape mines (mines_placed + 1)
        else place_mines_loop tape mines mines_placed
      else ret tt
  end.

(** [for x,y in neighbour_coords: if self.board[x][y][0] == '*': ...] *)
Fixpoint count_touching (self : Board) (neighbour_coords : list (Z * Z))
    (mines_touching : Z) : outcome Z :=
  match neighbour_coords with
  | [] => Ok mines_touching
  | xy :: neighbour_coords =>
      let! cell := board_item self xy.1 xy.2 in
      let! v := str_index cell 0 in
      count_touching self neighbour_coords
        (if bool_decide (v = "*"%char) then mines_touching + 1 else mines_touching)
  end.

(** The body of the "update digits" loops of [put_mines]. *)
Definition update_digit (i j : Z) : M unit :=
  do! cell <- query (λ self, board_item self i j);
  do! v <- query (λ _, str_index cell 0);
  if bool_decide (v ≠ "*"%char) then
    let surrounding_coords :=
      [(i+1, j+1); (i-1, j-1); (i+1, j-1); (i-1, j+1);
       (i+1, j); (i-1, j); (i, j-1); (i, j+1)] in
    do! neighbour_coords <- query (λ self, Ok (
      filter (λ p, 0 ≤ p.1 ∧ 0 ≤ p.2 ∧ p.1 < rows self ∧ p.2 < columns self)
             surrounding_coords));
    do! mines_touching <- query (λ self, count_touching self neighbour_coords 0);
    board_setitem i j (str_Z mines_touching +:+ "H")
  else ret tt.

Definition put_mines (mines : Z) (tape : list (Z * Z)) : M unit := λ self,
  let MIN_MINES := 1 in
  let MAX_MINES := rows self * columns self - 1 in
  if bool_decide (mines < MIN_MINES) || bool_decide (MAX_MINES < mines)
  then (Raise ScatterException, self)
  else
    (do! _ <- query check_start_state;
     do! _ <- place_mines_loop tape mines 0;
     for_each (grid_cells (rows self) (columns self))
              (λ ij, update_digit ij.1 ij.2)) self.

(** *** Text format *)

(** The one-character string ['\n']. *)
Definition newline : string := String "010"%char EmptyString.

(** The characters [str.strip()] removes. *)
Definition is_space (ch : ascii) : bool :=
  bool_decide (ch ∈ [" "; "009"; "010"; "011"; "012"; "013"]%char).

Fixpoint lstrip (s : string) : string :=
  match s with
  | EmptyString => EmptyString
  | String ch s' => if is_space ch then lstrip s' else s
  end.

Fixpoint rstrip (s : string) : string :=
  match s with
  | EmptyString => EmptyString
  | String ch s' =>
      match rstrip s' with
      | EmptyString => if is_space ch then EmptyString else String ch EmptyString
      | t => String ch t
      end
  end.

(** [s.strip()] *)
Definition strip (s : string) : string := rstrip (lstrip s).

(** [s.split(' ')]: every single space separates, so two spaces in a row
    give an empty piece. *)
Fixpoint split_space (s : string) : list string :=
  match s with
  | EmptyString => [EmptyString]
  | String ch s' =>
      if bool_decide (ch = " "%char) then EmptyString :: split_space s'
      else
        match split_space s' with
        | t :: ts => String ch t :: ts
        | [] => [String ch EmptyString]
        end
  end.

(** [[str(x) for x in range(9) + ['*']]] and [['H', 'S']] of [load_board]. *)
Definition validX : list ascii :=
  ["0"; "1"; "2"; "3"; "4"; "5"; "6"; "7"; "8"; "*"]%char.

Definition validY : list ascii := ["H"; "S"]%char.

(** The checks [load_board] makes on one cell of a row. *)
Definition check_cell (cell : string) : outcome unit :=
  if bool_decide (String.length cell ≠ 2%nat) then Raise BoardFormatException
  else
    let! x := str_index cell 0 in
    let! y := str_index cell 1 in
    if bool_decide (x ∉ validX) || bool_decide (y ∉ validY)
    then Raise BoardFormatException
    else Ok tt.

(** [self.board = v] and [self.board.append(row)] *)
Definition set_board (v : list (list string)) : M unit := λ self,
  (Ok tt, {| rows := rows self; columns := columns self; board := v |}).

Definition board_append (row : list string) : M unit := λ self,
  (Ok tt, {| rows := rows self; columns := columns self;
             board := board self ++ [row] |}).

(** The [for line in lines] loop of [load_board]; returns [nRows]. *)
Fixpoint load_lines (lines : list string) (nRows : Z) : M Z :=
  match lines with
  | [] => ret nRows
  | line :: lines =>
      let l := strip line in
      if bool_decide (String.length l = 0%nat) then load_lines lines nRows
      else
        let row := split_space l in
        do! _ <- query (λ _, for_each_o row check_cell);
        do! ncolumns <- query (λ self, Ok (columns self));
        if bool_decide (Z.of_nat (length row) ≠ ncolumns)
        then raise DimensionsMismatchException
        else
          do! _ <- board_append row;
          load_lines lines (nRows + 1)
  end.

Definition load_board (lines : list string) : M unit :=
  do! _ <- set_board [];
  do! nRows <- load_lines lines 0;
  if bool_decide (nRows = 0) then raise BoardFormatException
  else
    do! nrows <- query (λ self, Ok (rows self));
    if bool_decide (nRows ≠ nrows) then raise DimensionsMismatchException
    else ret tt.

(** The text [save_board] builds in [output]; the row loops index
    [self.board] directly. *)
Fixpoint save_cells (self : Board) (i : Z) (js : list Z) (output : string)
    : outcome string :=
  match js with
  | [] => Ok output
  | j :: js =>
      let! cell := board_item self i j in
      save_cells self i js (output +:+ (cell +:+ " "))
  end.

Fixpoint save_rows (self : Board) (ks : list Z) (output : string) : outcome string :=
  match ks with
  | [] => Ok output
  | i :: ks =>
      let! output := save_cells self i (range (columns self)) output in
      save_rows self ks (output +:+ newline)
  end.

Definition save_text (self : Board) : outcome string :=
  let output := EmptyString in
  let output := output +:+ (str_Z (rows self) +:+ newline) in
  let output := output +:+ (str_Z (columns self) +:+ newline) in
  save_rows self (range (rows self)) output.

(** [save_board]: the result is the text written to the file; whatever is
    raised on the way becomes [IOError] ([except: raise IOError]). *)
Definition save_board (self : Board) : outcome string :=
  match save_text self with
  | Ok output => Ok output
  | Raise _ => Raise IOError
  | Stuck => Stuck
  end.

(** The lines a Python file object yields for a text: each ends with its
    newline, except possibly the last. *)
Fixpoint file_lines (text : string) : list string :=
  match text with
  | EmptyString => []
  | String ch text' =>
      if bool_decide (ch = "010"%char) then String ch EmptyString :: file_lines text'
      else
        match file_lines text' with
        | l :: ls => String ch l :: ls
        | [] => [String ch EmptyString]
        end
  end.

(** ** class Game

    A [Game] holds nothing but a reference to its [Board], so its methods are
    embedded on the board state itself. *)

(** The nested loops of [get_status] with their early [return]. *)
Fixpoint status_scan (self : Board) (cells : list (Z * Z))
    (containsUncoveredCell containsCoveredNonMineCell : bool) : outcome GameStatus :=
  match cells with
  | [] =>
      if negb containsUncoveredCell then Ok NotStarted
      else if negb containsCoveredNonMineCell then Ok Win
      else Ok InProgress
  | (i, j) :: cells =>
      let! value := get_value self i j in
      let! h := is_hidden self i j in
      let hidden := bool_decide (h = "H"%char) in
      if negb hidden && bool_decide (value = "*"%char) then Ok Lose
      else
        status_scan self cells
          (if negb hidden then true else containsUncoveredCell)
          (if bool_decide (value ≠ "*"%char) && hidden then true
           else containsCoveredNonMineCell)
  end.

Definition get_status (self : Board) : outcome GameStatus :=
  status_scan self (grid_cells (rows self) (columns self)) false false.

Definition make_move (row column : Z) : M ascii :=
  do! _ <- uncover row column;
  do! cell_value <- query (λ self, get_value self row column);
  if bool_decide (cell_value ≠ "0"%char) then ret cell_value
  else
    do! ripple_seq <- query (λ self, ripple_sequence self row column);
    do! _ <- for_each ripple_seq (λ xy, uncover xy.1 xy.2);
    ret cell_value.

(** ** Well-formed boards

    The boards that [Board_init], [put_mines], [load_board] and [uncover]
    produce: [rows] lists of [columns] two-character cells, the first
    character in [validX], the second in [validY]. *)

Definition cell_ok (cell : string) : bool :=
  match cell with
  | String x (String y EmptyString) =>
      bool_decide (x ∈ validX) && bool_decide (y ∈ validY)
  | _ => false
  end.

Definition board_ok (b : Board) : bool :=
  bool_decide (length (board b) = Z.to_nat (rows b))
  && forallb (λ r, bool_decide (length r = Z.to_nat (columns b)) && forallb cell_ok r)
             (board b).

Definition valid_board (b : Board) : Prop := board_ok b = true.

Definition in_bounds (b : Board) (i j : Z) : Prop :=
  0 ≤ i < rows b ∧ 0 ≤ j < columns b.

(** The cell string at [(i, j)], read without the bounds checks. *)
Definition cell_at (b : Board) (i j : Z) : option string :=
  r ← board b !! Z.to_nat i; r !! Z.to_nat j.

(** The content and the visibility of a cell as total functions, for the
    proofs; on a well-formed board they are what [get_value] and
    [is_hidden] return (lemmas [get_value_valid], [is_hidden_valid]). *)
Definition value_at (b : Board) (i j : Z) : ascii :=
  match cell_at b i j with
  | Some (String x _) => x
  | _ => "0"%char
  end.

Definition seen_at (b : Board) (i j : Z) : bool :=
  match cell_at b i j with
  | Some (String _ (String y _)) => bool_decide (y ≠ "H"%char)
  | _ => false
  end.

Definition vis (seen : bool) : ascii := if seen then "S"%char else "H"%char.

(** ** Cell updates, for the proofs

    What [self.board[i][j] = s] and a successful [uncover] do to a
    well-formed board (lemmas [board_setitem_valid], [uncover_hidden]). *)
Definition set_cell (b : Board) (i j : Z) (s : string) : Board :=
  {| rows := rows b; columns := columns b;
     board := alter (<[Z.to_nat j := s]>) (Z.to_nat i) (board b) |}.

Definition reveal (b : Board) (i j : Z) : Board :=
  set_cell b i j (String (value_at b i j) "S").

(** ** Game status, as the cells determine it *)

(** What the cells of a board say about the game, in the terms of
    [get_value] and [is_hidden]. *)
Definition mine_revealed (b : Board) : Prop :=
  ∃ i j, in_bounds b i j ∧ get_value b i j = Ok "*"%char
         ∧ is_hidden b i j = Ok "S"%char.

Definition no_cell_revealed (b : Board) : Prop :=
  ∀ i j, in_bounds b i j → is_hidden b i j = Ok "H"%char.

Definition all_safe_revealed (b : Board) : Prop :=
  ∀ i j, in_bounds b i j → get_value b i j ≠ Ok "*"%char →
         is_hidden b i j = Ok "S"%char.

Definition status_of_flags (containsUncoveredCell containsCoveredNonMineCell : bool)
    : GameStatus :=
  if negb containsUncoveredCell then NotStarted
  else if negb containsCoveredNonMineCell then Win
  else InProgress.

(** The three facts the scan of [get_status] collects, on the views. *)
Definition lost_cell (b : Board) (p : Z * Z) : bool :=
  seen_at b p.1 p.2 && bool_decide (value_at b p.1 p.2 = "*"%char).

Definition seen_cell (b : Board) (p : Z * Z) : bool := seen_at b p.1 p.2.

Definition covered_safe_cell (b : Board) (p : Z * Z) : bool :=
  bool_decide (value_at b p.1 p.2 ≠ "*"%char) && negb (seen_at b p.1 p.2).

(** ** The cascade, as the specification words it

    A breadth-first traversal kept as a pair (visited cells, queue).  A
    dequeued cell is expanded only if its value is '0'; its neighbours are
    taken clockwise starting above and clipped to the grid; only hidden
    cells that are neither visited nor queued are enqueued.  The result is
    the visiting order without the start cell. *)

#[global] Instance exn_eq_dec : EqDecision exn.
Proof. solve_decision. Defined.

#[global] Instance outcome_eq_dec {A} `{EqDecision A} : EqDecision (outcome A).
Proof. solve_decision. Defined.

#[global] Instance in_bounds_dec b i j : Decision (in_bounds b i j).
Proof. unfold in_bounds. apply _. Defined.

Definition clockwise_offsets : list (Z * Z) :=
  [(-1, 0); (-1, 1); (0, 1); (1, 1); (1, 0); (1, -1); (0, -1); (-1, -1)].

Definition clockwise_neighbours (b : Board) (cell : Z * Z) : list (Z * Z) :=
  filter (λ p, in_bounds b p.1 p.2)
         ((λ d, (cell.1 + d.1, cell.2 + d.2)) <$> clockwise_offsets).

Definition enqueued (b : Board) (visited queue : list (Z * Z)) (cell : Z * Z)
    : list (Z * Z) :=
  filter (λ n, is_hidden b n.1 n.2 = Ok "H"%char ∧ (n ∉ visited) ∧ (n ∉ queue))
         (clockwise_neighbours b cell).

Inductive cascade_step (b : Board)
    : relation (list (Z * Z) * list (Z * Z)) :=
  | cascade_expand cell visited queue :
      get_value b cell.1 cell.2 = Ok "0"%char →
      cascade_step b (visited, cell :: queue)
        (visited ++ [cell], queue ++ enqueued b (visited ++ [cell]) queue cell)
  | cascade_stop cell visited queue :
      get_value b cell.1 cell.2 ≠ Ok "0"%char →
      cascade_step b (visited, cell :: queue) (visited ++ [cell], queue).

Definition cascade_of (b : Board) (start : Z * Z) (seq : list (Z * Z)) : Prop :=
  ∃ visited, rtc (cascade_step b) ([], [start]) (visited, []) ∧ seq = drop 1 visited.

(** The loop invariant: no cell is twice among the visited and queued
    cells, and all of them are on the grid. *)
Definition ripple_inv (b : Board) (seq queue : list (Z * Z)) : Prop :=
  NoDup (seq ++ queue) ∧ Forall (λ p, in_bounds b p.1 p.2) (seq ++ queue).

(** Two calls of [ripple_sequence] in a row, on the state monad. *)
Definition ripple_twice (row column : Z) : M (list (Z * Z) * list (Z * Z)) :=
  do! first <- query (λ self, ripple_sequence self row column);
  do! second <- query (λ self, ripple_sequence self row column);
  ret (first, second).

(** ** Moves *)

(** [uncover] called on the cells of [cells] one after the other, each call
    returning normally; the run takes the board [b] to [b']. *)
Inductive uncovered_in_order : list (Z * Z) → Board → Board → Prop :=
  | uncovered_nil b : uncovered_in_order [] b b
  | uncovered_cons p cells b b1 b2 :
      uncover p.1 p.2 b = (Ok tt, b1) →
      uncovered_in_order cells b1 b2 →
      uncovered_in_order (p :: cells) b b2.


Definition reveal_all (b : Board) (cells : list (Z * Z)) : Board :=
  foldl (λ b p, reveal b p.1 p.2) b cells.

(** The property that no move changes the status of a finished game; it
    does not hold (lemma [finished_status_is_final_fails]). *)
Definition finished_status_is_final : Prop :=
  ∀ b r c, valid_board b →
    get_status b = Ok Lose ∨ get_status b = Ok Win →
    (∃ e, (make_move r c b).1 = Raise e)
    ∨ get_status (make_move r c b).2 = get_status b.

(** ** Loading, for the proofs *)

(** What [load_board] sees of a line: nothing when the stripped line is
    empty, its pieces otherwise. *)
Definition line_row (line : string) : option (list string) :=
  if bool_decide (String.length (strip line) = 0%nat) then None
  else Some (split_space (strip line)).

(** A line that [load_board] skips or accepts as a row of [ncolumns] cells. *)
Definition line_accepted (ncolumns : Z) (line : string) : Prop :=
  match line_row line with
  | None => True
  | Some row => forallb cell_ok row = true ∧ Z.of_nat (length row) = ncolumns
  end.

(** ** Saving, for the proofs *)

(** The text [save_board] writes for one row: every cell is followed by a
    space, the line by a newline. *)
Fixpoint row_text (r : list string) : string :=
  match r with
  | [] => EmptyString
  | cell :: r => cell +:+ (" " +:+ row_text r)
  end.

Definition row_line (r : list string) : string := row_text r +:+ newline.

Fixpoint concat_text (lines : list string) : string :=
  match lines with
  | [] => EmptyString
  | l :: lines => l +:+ concat_text lines
  end.

(** The cells of a row separated by single spaces: a row line stripped. *)
Fixpoint join_cells (r : list string) : string :=
  match r with
  | [] => EmptyString
  | [cell] => cell
  | cell :: r => cell +:+ (" " +:+ join_cells r)
  end.

Fixpoint newline_free (s : string) : bool :=
  match s with
  | EmptyString => true
  | String ch s => negb (bool_decide (ch = "010"%char)) && newline_free s
  end.

(** *** Display *)

(** ['%-2s' % s]: [s] left-justified in at least two characters. *)
Definition pad2 (s : string) : string :=
  match s with
  | EmptyString => "  "
  | String ch EmptyString => String ch " "
  | _ => s
  end.

(** [s[:-2]] *)
Definition drop_last2 (s : string) : string :=
  string_of_list_ascii
    (take (String.length s - 2) (list_ascii_of_string s)).

(** The inner loop of [__str__] over the columns of row [i]; [text] is the
    variable [string] of the source. *)
Fixpoint str_cells (self : Board) (i : Z) (js : list Z) (text : string)
    : outcome string :=
  match js with
  | [] => Ok text
  | j :: js =>
      let! h := is_hidden self i j in
      if bool_decide (h = "H"%char) then
        str_cells self i js (text +:+ pad2 "H")
      else
        let! v := get_value self i j in
        str_cells self i js (text +:+ pad2 (String v EmptyString))
  end.

(** The outer loop of [__str__] over the rows. *)
Fixpoint str_rows (self : Board) (ks : list Z) (text : string) : outcome string :=
  match ks with
  | [] => Ok text
  | i :: ks =>
      let text := text +:+ pad2 (str_Z i) in
      let! text := str_cells self i (range (columns self)) text in
      str_rows self ks (text +:+ newline)
  end.

(** [Board.__str__]; the first line joins the padded empty string and the
    padded numbers of [range(self.rows)]. *)
Definition Board_str (self : Board) : outcome string :=
  let text := EmptyString in
  let text :=
    text +:+ concat_text (pad2 EmptyString :: (pad2 ∘ str_Z <$> range (rows self))) in
  let text := text +:+ newline in
  let! text := str_rows self (range (rows self)) text in
  Ok (drop_last2 text).

(** ** The game loop and the program

    Input and output are explicit.  [raw_input] takes the next of the lines
    typed, and raises EOFError, which nothing catches, when there is none.
    What is printed, prompted and written to a file is recorded as a list
    of events.  Two things come from outside the program and are
    parameters: [py_int], the built-in [int] on a string ([None] when it
    raises ValueError), and [can_write], whether the file of that name can
    be opened and written. *)

Inductive event :=
  | Print (text : string)
  | Prompt (text : string)
  | FileWrite (filename text : string).

(** How a call ends: it returns, [raw_input] meets the end of the input
    (EOFError, which nothing catches), another exception escapes, or the
    embedding's loop budget ends. *)
Inductive run_end :=
  | Returned
  | EndOfInput
  | Escaped (e : exn)
  | Unfinished.

(** How a [try] block ends: normally, with an exception (all are caught
    alike), or with the end of the embedding's loop budget. *)
Inductive attempt := Done | Failed | NoResult.

Definition attempt_of {A} (o : outcome A) : attempt :=
  match o with
  | Ok _ => Done
  | Raise _ => Failed
  | Stuck => NoResult
  end.

Definition status_name (status : GameStatus) : string :=
  match status with
  | NotStarted => "NotStarted"
  | InProgress => "InProgress"
  | Win => "Win"
  | Lose => "Lose"
  end.

(** [status == GameStatus.NotStarted or status == GameStatus.InProgress] *)
Definition can_move (status : GameStatus) : bool :=
  match status with
  | NotStarted | InProgress => true
  | Win | Lose => false
  end.

(** Events of the rest of the run after the events [evs]. *)
Definition after (evs : list event) (rest : list event * Board * run_end)
    : list event * Board * run_end :=
  (evs ++ rest.1.1, rest.1.2, rest.2).

Section Interaction.
Context (py_int : string → option Z) (can_write : string → bool).

(** [save_board] with its file.  The file is opened first: when that
    fails nothing is written; when building the text fails the file is left
    open and empty. *)
Definition save_to_file (self : Board) (filename : string)
    : outcome unit * list event :=
  if can_write filename then
    match save_board self with
    | Ok output => (Ok tt, [FileWrite filename output])
    | Raise e => (Raise e, [FileWrite filename EmptyString])
    | Stuck => (Stuck, [])
    end
  else (Raise IOError, []).

(** The [try] block of choice 3:
    [r, c = move.split(' ')] then [self.make_move(int(r), int(c))]. *)
Definition try_move (move : string) (self : Board) : attempt * Board :=
  match split_space move with
  | [r; c] =>
      match py_int r with
      | Some row =>
          match py_int c with
          | Some column =>
              let result := make_move row column self in
              (attempt_of result.1, result.2)
          | None => (Failed, self)
          end
      | None => (Failed, self)
      end
  | _ => (Failed, self)
  end.

(** [Game.run]: one iteration of [while True] for every choice typed. *)
Fixpoint run (inputs : list string) (self : Board)
    : list event * Board * run_end :=
  match Board_str self with
  | Raise e => ([], self, Escaped e)
  | Stuck => ([], self, Unfinished)
  | Ok shown =>
      match get_status self with
      | Raise e => ([Print shown], self, Escaped e)
      | Stuck => ([Print shown], self, Unfinished)
      | Ok status =>
          let head :=
            [Print shown;
             Print ("Game status: " +:+ status_name status);
             Print (if can_move status
                    then "Available actions: (1) Save | (2) Exit | (3) Move"
                    else "Available actions: (1) Save | (2) Exit");
             Prompt "Enter selection: "] in
          match inputs with
          | [] => (head, self, EndOfInput)
          | ch :: inputs =>
              if bool_decide (ch = "1") then
                match inputs with
                | [] => (head ++ [Prompt "Enter filename: "], self, EndOfInput)
                | filename :: inputs =>
                    let saved := save_to_file self filename in
                    match attempt_of saved.1 with
                    | Done =>
                        after (head ++ [Prompt "Enter filename: "] ++ saved.2
                               ++ [Print "Save operation done"])
                              (run inputs self)
                    | Failed =>
                        after (head ++ [Prompt "Enter filename: "] ++ saved.2
                               ++ [Print "Save operation failed";
                                   Print "Save operation done"])
                              (run inputs self)
                    | NoResult =>
                        (head ++ [Prompt "Enter filename: "], self, Unfinished)
                    end
                end
              else if bool_decide (ch = "2") then
                (head ++ [Print "Goodbye :)"], self, Returned)
              else if bool_decide (ch = "3") then
                if can_move status then
                  match inputs with
                  | [] =>
                      (head ++ [Prompt "Enter row then column (space separated): "],
                       self, EndOfInput)
                  | move :: inputs =>
                      let tried := try_move move self in
                      match tried.1 with
                      | Done =>
                          after (head ++ [Prompt "Enter row then column (space separated): "])
                                (run inputs tried.2)
                      | Failed =>
                          after (head ++ [Prompt "Enter row then column (space separated): ";
                                          Print "Illegal move values"])
                                (run inputs tried.2)
                      | NoResult =>
                          (head ++ [Prompt "Enter row then column (space separated): "],
                           tried.2, Unfinished)
                      end
                  end
                else after (head ++ [Print "Illegal choice"]) (run inputs self)
              else after (head ++ [Print "Illegal choice"]) (run inputs self)
          end
      end
  end.

(** The dimension lines as [main] reads them: blank lines are skipped, the
    first number is [rows] unless it is 0 ([if not rows]), the next is
    [columns].  Returns [rows], [columns] and the lines not yet read;
    [None] when [int] raises. *)
Fixpoint read_dimensions (lines : list string) (nrows : option Z)
    : option (option Z * option Z * list string) :=
  match lines with
  | [] => Some (nrows, None, [])
  | line :: lines =>
      let l := strip line in
      if bool_decide (String.length l = 0%nat) then read_dimensions lines nrows
      else
        match nrows with
        | Some (Zpos _ as n) | Some (Zneg _ as n) =>
            match py_int l with
            | Some ncolumns => Some (Some n, Some ncolumns, lines)
            | None => None
            end
        | Some Z0 | None =>
            match py_int l with
            | Some n => read_dimensions lines (Some n)
            | None => None
            end
        end
  end.

(** The [try] block of [main] that loads the input file.  With [rows] or
    [columns] still [None], [Board(rows, columns)] raises: Python 2 orders
    [None] below every number. *)
Definition load_file (lines : list string) : option Board :=
  match read_dimensions lines None with
  | Some (Some nrows, Some ncolumns, rest) =>
      match Board_init nrows ncolumns with
      | Ok board =>
          match load_board rest board with
          | (Ok _, board) => Some board
          | _ => None
          end
      | _ => None
      end
  | _ => None
  end.

(** The arguments as [argparse] hands them over. *)
Record arguments := {
  arg_input : option (list string);
  arg_rows : Z;
  arg_columns : Z;
  arg_mines : Z
}.

(** [main], after the arguments are parsed; [tape] holds the random draws
    of [put_mines]. *)
Definition main (args : arguments) (tape : list (Z * Z)) (inputs : list string)
    : list event * option Board * run_end :=
  match arg_input args with
  | Some lines =>
      match load_file lines with
      | Some board =>
          let played := run inputs board in
          (played.1.1, Some played.1.2, played.2)
      | None => ([Print "Badly-formatted input file"], None, Returned)
      end
  | None =>
      match Board_init (arg_rows args) (arg_columns args) with
      | Ok board =>
          match put_mines (arg_mines args) tape board with
          | (Ok _, board) =>
              let played := run inputs board in
              (played.1.1, Some played.1.2, played.2)
          | (Raise _, _) =>
              ([Print "Illegal rows/columns/mines values"], None, Returned)
          | (Stuck, _) => ([], None, Unfinished)
          end
      | Raise _ => ([Print "Illegal rows/columns/mines values"], None, Returned)
      | Stuck => ([], None, Unfinished)
      end
  end.
End Interaction.

(** The built-in [int] on a string holding a numeral in base ten: white
    space around it is dropped, a sign may come first, and there is at
    least one digit; everything else raises ValueError. *)
Definition decimal_int (s : string) : option Z :=
  match strip s with
  | EmptyString => None
  | String "-" EmptyString | String "+" EmptyString => None
  | String "-" digits => (λ n, - Z.of_uint n) <$> NilZero.uint_of_string digits
  | String "+" digits => Z.of_uint <$> NilZero.uint_of_string digits
  | digits => Z.of_uint <$> NilZero.uint_of_string digits
  end.

(** The prompt of a move. *)
Definition move_prompt : event :=
  Prompt "Enter row then column (space separated): ".

(** How a run on a well-formed board ends, and what it leaves. *)
Definition run_ends_well (b : Board) (played : list event * Board * run_end)
    : Prop :=
  (∃ cells, Forall (λ p, in_bounds b p.1 p.2) cells
            ∧ played.1.2 = reveal_all b cells)
  ∧ (played.2 = Returned ∧ last played.1.1 = Some (Print "Goodbye :)")
     ∨ played.2 = EndOfInput ∧ ∃ text, last played.1.1 = Some (Prompt text)).

(** *** What the display shows *)

(** The character shown for the cell [(i, j)]: 'H', or the value of a cell
    that is seen. *)
Definition shown_cell (b : Board) (i j : Z) : ascii :=
  if seen_at b i j then value_at b i j else "H"%char.

(** The line of row [i], with its newline: the number of the row, then
    every cell followed by a space. *)
Definition shown_row (b : Board) (i : Z) : string :=
  pad2 (str_Z i)
  +:+ concat_text ((λ j, String (shown_cell b i j) " ") <$> range (columns b))
  +:+ newline.

(** The first line, with its newline: two spaces, then the numbers of the
    rows. *)
Definition shown_header (b : Board) : string :=
  "  " +:+ concat_text (pad2 ∘ str_Z <$> range (rows b)) +:+ newline.

(** The lines of the file [save_board] writes. *)
Definition saved_lines (b : Board) : list string :=
  (str_Z (rows b) +:+ newline) :: (str_Z (columns b) +:+ newline)
  :: (row_line <$> board b).

(** ** Mines, as the specification counts them *)

(** The board is in its start state: every cell is '0' and hidden. *)
Definition start_state (b : Board) : Prop :=
  ∀ i j, in_bounds b i j →
    get_value b i j = Ok "0"%char ∧ is_hidden b i j = Ok "H"%char.

(** The cells of the grid that hold a mine. *)
Definition mine_cells (b : Board) : list (Z * Z) :=
  filter (λ p, get_value b p.1 p.2 = Ok "*"%char) (grid_cells (rows b) (columns b)).

(** The number of mines among the up to eight neighbours of [(i, j)]. *)
Definition adjacent_mines (b : Board) (i j : Z) : nat :=
  length (filter (λ p, get_value b p.1 p.2 = Ok "*"%char)
                 (clockwise_neighbours b (i, j))).

(** The character of a decimal digit. *)
Definition digit_char (n : nat) : ascii := ascii_of_nat (48 + n).

(** The same counts on the views, and with the neighbours in the order of
    [put_mines], for the proofs. *)
Definition mine_at (b : Board) (p : Z * Z) : Prop := value_at b p.1 p.2 = "*"%char.

#[global] Instance mine_at_dec b p : Decision (mine_at b p).
Proof. unfold mine_at. apply _. Defined.

Definition mines_on (b : Board) : nat :=
  length (filter (mine_at b) (grid_cells (rows b) (columns b))).

Definition surrounding (b : Board) (i j : Z) : list (Z * Z) :=
  filter (λ p, 0 ≤ p.1 ∧ 0 ≤ p.2 ∧ p.1 < rows b ∧ p.2 < columns b)
    [(i+1, j+1); (i-1, j-1); (i+1, j-1); (i-1, j+1);
     (i+1, j); (i-1, j); (i, j-1); (i, j+1)].

Definition touching (b : Board) (i j : Z) : nat :=
  length (filter (mine_at b) (surrounding b i j)).

(** The cell [update_digit] leaves at [(i, j)]. *)
Definition digit_cell (b : Board) (i j : Z) : string :=
  str_Z (Z.of_nat (touching b i j)) +:+ "H".

(** ** Flooding *)

(** The ripple goes from [p] to [q]: [p] holds '0' and [q] is a hidden
    neighbour of [p]. *)
Definition ripples_to (b : Board) (p q : Z * Z) : Prop :=
  get_value b p.1 p.2 = Ok "0"%char
  ∧ q ∈ get_neighbours b p
  ∧ is_hidden b q.1 q.2 = Ok "H"%char.

(** ** Boards with the right counts *)

(** Every cell that is not a mine holds the digit of the number of mines
    among its neighbours, as [put_mines] leaves it. *)
Definition counts_right (b : Board) : Prop :=
  ∀ i j, in_bounds b i j → get_value b i j ≠ Ok "*"%char →
    get_value b i j = Ok (digit_char (adjacent_mines b i j)).

(** No cell of the grid is seen, on the views. *)
Definition all_hidden (b : Board) : Prop :=
  ∀ i j, in_bounds b i j → seen_at b i j = false.

(** ** Sample boards *)

(** An empty board of 2 rows and 2 columns, as [Board_init 2 2] builds it. *)
Definition empty_2x2 : Board :=
  {| rows := 2; columns := 2; board := [["0H"; "0H"]; ["0H"; "0H"]]%string |}.

(** A 1x2 board that is won: the only safe cell is uncovered. *)
Definition won_1x2 : Board :=
  {| rows := 1; columns := 2; board := [["1S"; "*H"]%string] |}.

(** The board [put_mines 1] leaves when the draw is (0, 1). *)
Definition one_mine_2x2 : Board :=
  {| rows := 2; columns := 2; board := [["1H"; "*H"]; ["1H"; "1H"]]%string |}.

(** A 3x3 board with one mine in a corner, nothing uncovered. *)
Definition corner_3x3 : Board :=
  {| rows := 3; columns := 3;
     board := [["*H"; "1H"; "0H"]; ["1H"; "1H"; "0H"]; ["0H"; "0H"; "0H"]]%string |}.

(** * Lemmas *)

Section Reading.
Context (b : Board).

Lemma checkIndices_ok i j : in_bounds b i j → checkIndices b i j = Ok tt.
Proof.
  intros [Hi Hj]. unfold checkIndices.
  rewrite !bool_decide_eq_false_2 by lia. done.
Qed.

Lemma checkIndices_raise i j :
  ¬ in_bounds b i j → checkIndices b i j = Raise IllegalIndicesException.
Proof.
  intros Hn. unfold checkIndices, in_bounds in *.
  repeat case_bool_decide; simpl; try done. lia.
Qed.

Lemma py_index_lookup {A} (l : list A) (i : Z) (x : A) :
  0 ≤ i → l !! Z.to_nat i = Some x → py_index l i = Ok x.
Proof.
  intros Hi Hl. pose proof (lookup_lt_Some _ _ _ Hl) as Hlt.
  unfold py_index, py_pos. cbv zeta.
  rewrite (bool_decide_eq_false_2 (i < 0)) by lia.
  rewrite bool_decide_eq_true_2 by lia. by rewrite Hl.
Qed.

Lemma py_setitem_insert {A} (l : list A) (i : Z) (v : A) :
  0 ≤ i → (Z.to_nat i < length l)%nat →
  py_setitem l i v = Ok (<[Z.to_nat i := v]> l).
Proof.
  intros Hi Hlt. unfold py_setitem, py_pos. cbv zeta.
  rewrite (bool_decide_eq_false_2 (i < 0)) by lia.
  by rewrite bool_decide_eq_true_2 by lia.
Qed.

Lemma board_item_lookup i j s :
  0 ≤ i → 0 ≤ j → cell_at b i j = Some s → board_item b i j = Ok s.
Proof.
  intros Hi Hj. unfold cell_at, board_item.
  destruct (board b !! Z.to_nat i) as [r|] eqn:Hr; simpl; [|done].
  intros Hs. rewrite (py_index_lookup _ _ r) by done. simpl.
  by apply py_index_lookup.
Qed.

Lemma valid_board_length : valid_board b → length (board b) = Z.to_nat (rows b).
Proof.
  unfold valid_board, board_ok. intros H.
  apply andb_prop in H as [H _]. by apply bool_decide_eq_true in H.
Qed.

Lemma valid_board_row i r :
  valid_board b → board b !! i = Some r →
  length r = Z.to_nat (columns b) ∧ Forall (λ s, cell_ok s = true) r.
Proof.
  unfold valid_board, board_ok. intros H Hr.
  apply andb_prop in H as [_ H]. rewrite forallb_forall in H.
  specialize (H r). rewrite <- list_elem_of_In in H.
  specialize (H (list_elem_of_lookup_2 _ _ _ Hr)).
  apply andb_prop in H as [H1 H2]. apply bool_decide_eq_true in H1.
  split; [done|]. rewrite forallb_forall in H2. apply Forall_forall.
  intros s Hs. apply H2. by apply list_elem_of_In.
Qed.

Lemma cell_ok_inv s :
  cell_ok s = true →
  ∃ x y, s = String x (String y EmptyString) ∧ x ∈ validX ∧ y ∈ validY.
Proof.
  destruct s as [|x [|y [|]]]; simpl; try done.
  intros H. apply andb_prop in H as [H1 H2].
  apply bool_decide_eq_true in H1, H2. eauto.
Qed.

Lemma valid_board_cell i j :
  valid_board b → in_bounds b i j →
  ∃ x y, cell_at b i j = Some (String x (String y EmptyString))
         ∧ x ∈ validX ∧ y ∈ validY.
Proof.
  intros Hv [Hi Hj]. unfold cell_at.
  destruct (lookup_lt_is_Some_2 (board b) (Z.to_nat i)) as [r Hr].
  { rewrite valid_board_length by done. lia. }
  rewrite Hr. simpl.
  destruct (valid_board_row _ _ Hv Hr) as [Hlen Hcells].
  destruct (lookup_lt_is_Some_2 r (Z.to_nat j)) as [s Hs]; [lia|].
  rewrite Hs. rewrite Forall_forall in Hcells.
  destruct (cell_ok_inv s) as (x & y & -> & Hx & Hy); [|by eauto].
  apply Hcells. by eapply list_elem_of_lookup_2.
Qed.

Lemma get_value_valid i j :
  valid_board b → in_bounds b i j → get_value b i j = Ok (value_at b i j).
Proof.
  intros Hv Hb. destruct (valid_board_cell i j Hv Hb) as (x & y & Hc & _).
  unfold get_value, value_at. rewrite checkIndices_ok by done. simpl.
  destruct Hb as [? ?].
  rewrite (board_item_lookup i j _ ltac:(lia) ltac:(lia) Hc). by rewrite Hc.
Qed.

Lemma is_hidden_valid i j :
  valid_board b → in_bounds b i j → is_hidden b i j = Ok (vis (seen_at b i j)).
Proof.
  intros Hv Hb. destruct (valid_board_cell i j Hv Hb) as (x & y & Hc & _).
  unfold is_hidden, seen_at. rewrite checkIndices_ok by done. simpl.
  destruct Hb as [? ?].
  rewrite (board_item_lookup i j _ ltac:(lia) ltac:(lia) Hc). rewrite Hc. simpl.
  unfold str_index. simpl. by repeat case_bool_decide.
Qed.

Lemma get_value_out i j :
  ¬ in_bounds b i j → get_value b i j = Raise IllegalIndicesException.
Proof. intros H. unfold get_value. by rewrite checkIndices_raise. Qed.

Lemma is_hidden_out i j :
  ¬ in_bounds b i j → is_hidden b i j = Raise IllegalIndicesException.
Proof. intros H. unfold is_hidden. by rewrite checkIndices_raise. Qed.

Lemma value_at_validX i j :
  valid_board b → in_bounds b i j → value_at b i j ∈ validX.
Proof.
  intros Hv Hb. destruct (valid_board_cell i j Hv Hb) as (x & y & Hc & Hx & _).
  unfold value_at. by rewrite Hc.
Qed.

Lemma elem_of_grid_cells nr nc i j :
  (i, j) ∈ grid_cells nr nc ↔ 0 ≤ i < nr ∧ 0 ≤ j < nc.
Proof.
  unfold grid_cells, range. rewrite list_elem_of_bind. split.
  - intros (i' & Hj & Hi). apply list_elem_of_bind in Hj as (j' & Hp & Hj).
    apply list_elem_of_singleton in Hp. simplify_eq.
    apply elem_of_seqZ in Hi, Hj. lia.
  - intros [Hi Hj]. exists i. split; [|apply elem_of_seqZ; lia].
    apply list_elem_of_bind. exists j. split; [by apply list_elem_of_singleton|].
    apply elem_of_seqZ; lia.
Qed.
End Reading.

(** ** Updating a cell *)

Lemma valid_board_Forall b :
  valid_board b ↔
  length (board b) = Z.to_nat (rows b)
  ∧ Forall (λ r, length r = Z.to_nat (columns b) ∧ Forall (λ s, cell_ok s = true) r)
           (board b).
Proof.
  unfold valid_board, board_ok. rewrite andb_true_iff, bool_decide_eq_true.
  apply and_iff_compat_l. rewrite forallb_forall, Forall_forall.
  setoid_rewrite <- list_elem_of_In.
  apply forall_proper; intros r. apply forall_proper; intros _.
  rewrite andb_true_iff, bool_decide_eq_true. apply and_iff_compat_l.
  rewrite forallb_forall, Forall_forall. by setoid_rewrite <- list_elem_of_In.
Qed.

Lemma valid_board_set_cell b i j s :
  valid_board b → cell_ok s = true → valid_board (set_cell b i j s).
Proof.
  rewrite !valid_board_Forall. intros [Hlen Hrows] Hs. simpl. split.
  - by rewrite length_alter.
  - apply Forall_alter; [done|]. intros r _ [Hr Hcells]. split.
    + by rewrite length_insert.
    + by apply Forall_insert.
Qed.

Lemma set_cell_rows b i j s : rows (set_cell b i j s) = rows b.
Proof. done. Qed.

Lemma set_cell_columns b i j s : columns (set_cell b i j s) = columns b.
Proof. done. Qed.

Lemma in_bounds_set_cell b i j s i' j' :
  in_bounds (set_cell b i j s) i' j' ↔ in_bounds b i' j'.
Proof. done. Qed.

Lemma cell_at_set_cell_eq b i j s :
  valid_board b → in_bounds b i j → cell_at (set_cell b i j s) i j = Some s.
Proof.
  intros Hv Hb. destruct (valid_board_cell b i j Hv Hb) as (x & y & Hc & _).
  unfold cell_at in *. simpl. rewrite list_lookup_alter_eq.
  destruct (board b !! Z.to_nat i) as [r|]; simpl in *; [|done].
  apply list_lookup_insert_eq. by eapply lookup_lt_Some.
Qed.

Lemma cell_at_set_cell_ne b i j s i' j' :
  0 ≤ i → 0 ≤ j → 0 ≤ i' → 0 ≤ j' → (i, j) ≠ (i', j') →
  cell_at (set_cell b i j s) i' j' = cell_at b i' j'.
Proof.
  intros ???? Hne. unfold cell_at. simpl.
  destruct (decide (Z.to_nat i = Z.to_nat i')) as [Hi|Hi].
  - rewrite <- Hi, list_lookup_alter_eq.
    destruct (board b !! Z.to_nat i) as [r|]; simpl; [|done].
    apply list_lookup_insert_ne. intros Hj. apply Hne. f_equal; lia.
  - by rewrite list_lookup_alter_ne.
Qed.

Lemma board_setitem_valid b i j s :
  valid_board b → in_bounds b i j →
  board_setitem i j s b = (Ok tt, set_cell b i j s).
Proof.
  intros Hv Hb. pose proof Hb as [Hi Hj].
  destruct (lookup_lt_is_Some_2 (board b) (Z.to_nat i)) as [r Hr].
  { rewrite valid_board_length by done. lia. }
  destruct (valid_board_row b _ _ Hv Hr) as [Hlen _].
  unfold board_setitem. rewrite (py_index_lookup _ _ r) by (done || lia).
  rewrite py_setitem_insert by lia.
  rewrite py_setitem_insert by (apply lookup_lt_Some in Hr; lia).
  unfold set_cell. do 2 f_equal. apply list_eq. intros k.
  destruct (decide (k = Z.to_nat i)) as [->|Hk].
  - rewrite list_lookup_insert_eq by (by eapply lookup_lt_Some).
    by rewrite list_lookup_alter_eq, Hr.
  - by rewrite list_lookup_insert_ne, list_lookup_alter_ne.
Qed.

(** ** Uncovering a cell *)

Section Uncover.
Context (b : Board) (Hvalid : valid_board b).

Lemma uncover_out i j :
  ¬ in_bounds b i j → uncover i j b = (Raise IllegalIndicesException, b).
Proof.
  intros Hn. unfold uncover, bind, query. by rewrite checkIndices_raise.
Qed.

Lemma uncover_seen i j :
  in_bounds b i j → seen_at b i j = true →
  uncover i j b = (Raise IllegalMoveException, b).
Proof.
  intros Hb Hs. unfold uncover, bind, query.
  rewrite checkIndices_ok, is_hidden_valid, Hs by done. done.
Qed.

Lemma uncover_hidden i j :
  in_bounds b i j → seen_at b i j = false →
  uncover i j b = (Ok tt, reveal b i j).
Proof.
  intros Hb Hs. unfold uncover, bind, query.
  rewrite checkIndices_ok, is_hidden_valid, Hs by done. simpl.
  destruct (valid_board_cell b i j Hvalid Hb) as (x & y & Hc & _).
  destruct Hb as [Hi Hj].
  rewrite (board_item_lookup b i j _ ltac:(lia) ltac:(lia) Hc). simpl.
  rewrite board_setitem_valid by done.
  unfold reveal, value_at. by rewrite Hc.
Qed.

Lemma valid_board_reveal i j : in_bounds b i j → valid_board (reveal b i j).
Proof.
  intros Hb. apply valid_board_set_cell; [done|].
  pose proof (value_at_validX b i j Hvalid Hb) as Hx. simpl.
  rewrite bool_decide_eq_true_2 by done. done.
Qed.

Lemma value_at_reveal i j i' j' :
  in_bounds b i j → 0 ≤ i' → 0 ≤ j' →
  value_at (reveal b i j) i' j' = value_at b i' j'.
Proof.
  intros Hb Hi' Hj'. unfold value_at at 1, reveal.
  destruct (decide ((i, j) = (i', j'))) as [Heq|Hne].
  - inversion Heq; subst. by rewrite cell_at_set_cell_eq.
  - destruct Hb as [? ?]. by rewrite cell_at_set_cell_ne by (done || lia).
Qed.

Lemma seen_at_reveal_eq i j : in_bounds b i j → seen_at (reveal b i j) i j = true.
Proof.
  intros Hb. unfold seen_at, reveal. by rewrite cell_at_set_cell_eq.
Qed.

Lemma seen_at_reveal_ne i j i' j' :
  in_bounds b i j → 0 ≤ i' → 0 ≤ j' → (i, j) ≠ (i', j') →
  seen_at (reveal b i j) i' j' = seen_at b i' j'.
Proof.
  intros [? ?] Hi' Hj' Hne. unfold seen_at, reveal.
  by rewrite cell_at_set_cell_ne by (done || lia).
Qed.

Lemma seen_at_reveal i j i' j' :
  in_bounds b i j → 0 ≤ i' → 0 ≤ j' →
  seen_at (reveal b i j) i' j' =
    if decide ((i, j) = (i', j')) then true else seen_at b i' j'.
Proof.
  intros Hb Hi' Hj'. case_decide as Heq.
  - inversion Heq; subst. by apply seen_at_reveal_eq.
  - by apply seen_at_reveal_ne.
Qed.
End Uncover.

(** ** The status scan *)

Section Status.
Context (b : Board) (Hvalid : valid_board b).

Lemma status_scan_views cells u c :
  Forall (λ p, in_bounds b p.1 p.2) cells →
  status_scan b cells u c =
    if existsb (lost_cell b) cells then Ok Lose
    else Ok (status_of_flags (u || existsb (seen_cell b) cells)
                             (c || existsb (covered_safe_cell b) cells)).
Proof.
  intros Hin. revert u c.
  induction Hin as [|[i j] cells Hij Hin IH]; intros u c; simpl.
  - rewrite !orb_false_r. unfold status_of_flags.
    destruct u, c; done.
  - simpl in Hij. rewrite get_value_valid, is_hidden_valid by done. simpl.
    rewrite IH. unfold lost_cell, seen_cell, covered_safe_cell. simpl.
    destruct (seen_at b i j), (bool_decide (value_at b i j = "*"%char)),
      (bool_decide (value_at b i j ≠ "*"%char)), u, c; simpl;
      by rewrite ?orb_true_r.
Qed.

Lemma is_hidden_S i j :
  in_bounds b i j → is_hidden b i j = Ok "S"%char ↔ seen_at b i j = true.
Proof.
  intros Hb. rewrite is_hidden_valid by done.
  destruct (seen_at b i j); simpl; naive_solver.
Qed.

Lemma is_hidden_H i j :
  in_bounds b i j → is_hidden b i j = Ok "H"%char ↔ seen_at b i j = false.
Proof.
  intros Hb. rewrite is_hidden_valid by done.
  destruct (seen_at b i j); simpl; naive_solver.
Qed.

Lemma get_value_eq i j x :
  in_bounds b i j → get_value b i j = Ok x ↔ value_at b i j = x.
Proof. intros Hb. rewrite get_value_valid by done. naive_solver. Qed.

Lemma grid_cells_in_bounds :
  Forall (λ p, in_bounds b p.1 p.2) (grid_cells (rows b) (columns b)).
Proof.
  apply Forall_forall. intros [i j] H. by apply elem_of_grid_cells in H.
Qed.

Lemma existsb_grid (f : Z * Z → bool) :
  existsb f (grid_cells (rows b) (columns b)) = true
  ↔ ∃ i j, in_bounds b i j ∧ f (i, j) = true.
Proof.
  rewrite existsb_exists. split.
  - intros ([i j] & Hin & Hf). exists i, j. split; [|done].
    by apply elem_of_grid_cells, list_elem_of_In.
  - intros (i & j & Hb & Hf). exists (i, j). split; [|done].
    by apply list_elem_of_In, elem_of_grid_cells.
Qed.

Lemma lost_cell_grid :
  existsb (lost_cell b) (grid_cells (rows b) (columns b)) = true ↔ mine_revealed b.
Proof.
  rewrite existsb_grid. unfold mine_revealed, lost_cell. simpl.
  split; intros (i & j & Hb & H); exists i, j; (split; [done|]).
  - apply andb_prop in H as [H1 H2]. apply bool_decide_eq_true in H2.
    by rewrite is_hidden_S, get_value_eq.
  - destruct H as [H1 H2]. apply is_hidden_S in H2; [|done].
    apply get_value_eq in H1; [|done].
    rewrite H2. simpl. by apply bool_decide_eq_true.
Qed.

Lemma seen_cell_grid :
  existsb (seen_cell b) (grid_cells (rows b) (columns b)) = false ↔ no_cell_revealed b.
Proof.
  rewrite <- not_true_iff_false, existsb_grid. unfold no_cell_revealed, seen_cell.
  simpl. split.
  - intros Hn i j Hb. apply is_hidden_H; [done|].
    destruct (seen_at b i j) eqn:E; [|done]. destruct Hn; eauto.
  - intros Hall (i & j & Hb & Hs). pose proof (Hall i j Hb) as Hh.
    apply is_hidden_H in Hh; [|done]. congruence.
Qed.

Lemma covered_safe_cell_grid :
  existsb (covered_safe_cell b) (grid_cells (rows b) (columns b)) = false
  ↔ all_safe_revealed b.
Proof.
  rewrite <- not_true_iff_false, existsb_grid.
  unfold all_safe_revealed, covered_safe_cell. simpl. split.
  - intros Hn i j Hb Hv. apply is_hidden_S; [done|].
    destruct (seen_at b i j) eqn:E; [done|]. destruct Hn. exists i, j.
    split; [done|]. rewrite E, andb_true_r. apply bool_decide_eq_true.
    intros Hx. apply Hv. by apply get_value_eq.
  - intros Hall (i & j & Hb & Hs). apply andb_prop in Hs as [H1 H2].
    apply bool_decide_eq_true in H1. apply negb_true_iff in H2.
    rewrite <- is_hidden_H in H2 by done.
    rewrite Hall in H2; [done|done|]. intros Hx. by apply H1, get_value_eq.
Qed.

Lemma get_status_views :
  get_status b =
    if existsb (lost_cell b) (grid_cells (rows b) (columns b)) then Ok Lose
    else Ok (status_of_flags
               (existsb (seen_cell b) (grid_cells (rows b) (columns b)))
               (existsb (covered_safe_cell b) (grid_cells (rows b) (columns b)))).
Proof. unfold get_status. by rewrite status_scan_views by apply grid_cells_in_bounds. Qed.

Lemma get_status_Lose : get_status b = Ok Lose ↔ mine_revealed b.
Proof.
  rewrite get_status_views, <- lost_cell_grid.
  destruct (existsb (lost_cell b) _); [done|]. unfold status_of_flags.
  split; [|done]. by repeat case_match.
Qed.

Lemma get_status_Win :
  get_status b = Ok Win
  ↔ ¬ mine_revealed b ∧ ¬ no_cell_revealed b ∧ all_safe_revealed b.
Proof.
  rewrite get_status_views, <- lost_cell_grid, <- seen_cell_grid,
    <- covered_safe_cell_grid.
  destruct (existsb (lost_cell b) _), (existsb (seen_cell b) _),
    (existsb (covered_safe_cell b) _); unfold status_of_flags; simpl;
    intuition congruence.
Qed.

Lemma get_status_total : ∃ st, get_status b = Ok st.
Proof. rewrite get_status_views. destruct (existsb (lost_cell b) _); eauto. Qed.
End Status.

(** C4. On a well-formed board [get_status] answers [Lose] when some mine
    cell is uncovered, whatever the rest of the board; otherwise
    [NotStarted] when no cell is uncovered; otherwise [Win] when every
    cell that is not a mine is uncovered; otherwise [InProgress]. *)
Theorem get_status_decision_order (b : Board) :
  valid_board b →
  (mine_revealed b → get_status b = Ok Lose)
  ∧ (¬ mine_revealed b → no_cell_revealed b → get_status b = Ok NotStarted)
  ∧ (¬ mine_revealed b → ¬ no_cell_revealed b → all_safe_revealed b →
       get_status b = Ok Win)
  ∧ (¬ mine_revealed b → ¬ no_cell_revealed b → ¬ all_safe_revealed b →
       get_status b = Ok InProgress).
Proof.
  intros Hv. rewrite (get_status_views b Hv).
  rewrite <- (lost_cell_grid b Hv), <- (seen_cell_grid b Hv),
    <- (covered_safe_cell_grid b Hv).
  destruct (existsb _ _), (existsb _ _), (existsb _ _);
    unfold status_of_flags; simpl; intuition congruence.
Qed.

Lemma get_status_decision_order_witness :
  valid_board won_1x2
  ∧ (mine_revealed won_1x2 → get_status won_1x2 = Ok Lose)
  ∧ (¬ mine_revealed won_1x2 → no_cell_revealed won_1x2 →
       get_status won_1x2 = Ok NotStarted)
  ∧ (¬ mine_revealed won_1x2 → ¬ no_cell_revealed won_1x2 →
       all_safe_revealed won_1x2 → get_status won_1x2 = Ok Win)
  ∧ (¬ mine_revealed won_1x2 → ¬ no_cell_revealed won_1x2 →
       ¬ all_safe_revealed won_1x2 → get_status won_1x2 = Ok InProgress).
Proof.
  split; [reflexivity|]. apply (get_status_decision_order won_1x2). reflexivity.
Defined.

(** ** The ripple loop *)

Lemma get_neighbours_clockwise b cell : get_neighbours b cell = clockwise_neighbours b cell.
Proof.
  destruct cell as [r c]. unfold get_neighbours, clockwise_neighbours, clockwise_offsets.
  simpl. rewrite !Z.add_0_r.
  replace (r + -1) with (r - 1) by lia. replace (c + -1) with (c - 1) by lia.
  apply list_filter_iff. intros [x y]. unfold in_bounds. simpl. lia.
Qed.

Lemma clockwise_neighbours_in_bounds b cell :
  Forall (λ p, in_bounds b p.1 p.2) (clockwise_neighbours b cell).
Proof.
  apply Forall_forall. intros p Hp.
  by apply list_elem_of_filter in Hp as [Hp _].
Qed.

Lemma clockwise_neighbours_NoDup b cell : NoDup (clockwise_neighbours b cell).
Proof.
  apply NoDup_filter. destruct cell as [r c]. unfold clockwise_offsets. simpl.
  rewrite !NoDup_cons, !not_elem_of_cons.
  repeat split; try (intros Heq; inversion Heq; lia);
    try apply not_elem_of_nil. apply NoDup_nil_2.
Qed.

Lemma filter_o_hidden b l :
  valid_board b → Forall (λ p, in_bounds b p.1 p.2) l →
  filter_o (λ x, obind (is_hidden b x.1 x.2)
                   (λ h, Ok (bool_decide (h = "H"%char)))) l
  = Ok (filter (λ x, is_hidden b x.1 x.2 = Ok "H"%char) l).
Proof.
  intros Hv Hl. induction Hl as [|x l Hx Hl IH]; [done|].
  simpl. rewrite IH. rewrite filter_cons.
  rewrite is_hidden_valid by done. simpl.
  destruct (seen_at b x.1 x.2); unfold vis.
  - by rewrite bool_decide_eq_false_2, decide_False by done.
  - by rewrite bool_decide_eq_true_2, decide_True by done.
Qed.

Lemma ripple_loop_step n b seq cell q :
  valid_board b → in_bounds b cell.1 cell.2 →
  ripple_loop (S n) b seq (cell :: q) =
    ripple_loop n b (seq ++ [cell])
      (q ++ (if decide (get_value b cell.1 cell.2 = Ok "0"%char)
             then enqueued b (seq ++ [cell]) q cell else [])).
Proof.
  intros Hv Hb. simpl. rewrite get_value_valid by done. simpl.
  case_bool_decide as Hval; case_decide as Hval'; simplify_eq.
  - by rewrite app_nil_r.
  - rewrite get_neighbours_clockwise.
    rewrite filter_o_hidden by (done || apply clockwise_neighbours_in_bounds).
    simpl. do 2 f_equal. unfold enqueued. rewrite list_filter_filter.
    apply list_filter_iff. intros x. tauto.
  - by rewrite Hval in Hval'.
Qed.

Lemma ripple_inv_step b seq cell q :
  ripple_inv b seq (cell :: q) →
  ripple_inv b (seq ++ [cell])
    (q ++ (if decide (get_value b cell.1 cell.2 = Ok "0"%char)
           then enqueued b (seq ++ [cell]) q cell else [])).
Proof.
  intros [Hnd Hin].
  assert (Hbase : NoDup ((seq ++ [cell]) ++ q)
                  ∧ Forall (λ p, in_bounds b p.1 p.2) ((seq ++ [cell]) ++ q)).
  { by rewrite <- !(assoc_L (++)). }
  destruct Hbase as [Hnd' Hin']. case_decide; [|by rewrite app_nil_r].
  split.
  - rewrite (assoc_L (++)). apply NoDup_app. split_and!; [done| |].
    + intros x Hx Hx'. apply list_elem_of_filter in Hx' as [(_ & Hn1 & Hn2) _].
      apply elem_of_app in Hx as [Hx|Hx]; done.
    + apply NoDup_filter, clockwise_neighbours_NoDup.
  - rewrite (assoc_L (++)). apply Forall_app. split; [done|].
    apply Forall_forall. intros x Hx. apply list_elem_of_filter in Hx as [_ Hx].
    by apply list_elem_of_filter in Hx as [Hx _].
Qed.

Lemma length_grid_cells nr nc :
  length (grid_cells nr nc) = (Z.to_nat nr * Z.to_nat nc)%nat.
Proof.
  unfold grid_cells, range.
  assert (Hrow : ∀ (i : Z) (l : list Z), length (l ≫= λ j, [(i, j)]) = length l).
  { intros i l. induction l as [|j l IH]; [done|].
    rewrite bind_cons, length_app, IH. done. }
  assert (Hin : ∀ l : list Z,
    length (l ≫= λ i, seqZ 0 nc ≫= λ j, [(i, j)]) = (length l * Z.to_nat nc)%nat).
  { induction l as [|i l IH]; [done|].
    rewrite bind_cons, length_app, IH, Hrow, length_seqZ. done. }
  by rewrite Hin, length_seqZ.
Qed.

Lemma ripple_inv_length b seq queue :
  ripple_inv b seq queue →
  (length (seq ++ queue) ≤ length (grid_cells (rows b) (columns b)))%nat.
Proof.
  intros [Hnd Hin]. apply submseteq_length, NoDup_submseteq; [done|].
  intros [i j] Hx. rewrite Forall_forall in Hin.
  apply elem_of_grid_cells. by apply (Hin (i, j)).
Qed.

Lemma ripple_inv_head b seq cell q :
  ripple_inv b seq (cell :: q) → in_bounds b cell.1 cell.2.
Proof.
  intros [_ Hin]. rewrite Forall_forall in Hin. apply Hin.
  apply elem_of_app. right. apply list_elem_of_here.
Qed.

Lemma cascade_step_of_loop b seq cell q :
  cascade_step b (seq, cell :: q)
    (seq ++ [cell],
     q ++ (if decide (get_value b cell.1 cell.2 = Ok "0"%char)
           then enqueued b (seq ++ [cell]) q cell else [])).
Proof.
  case_decide.
  - by apply cascade_expand.
  - rewrite app_nil_r. by apply cascade_stop.
Qed.

(** With a budget larger than the number of cells not yet visited the loop
    ends, and its run is a run of the cascade. *)
Lemma ripple_loop_runs b :
  valid_board b →
  ∀ fuel seq queue,
    ripple_inv b seq queue →
    (length (grid_cells (rows b) (columns b)) < fuel + length seq)%nat →
    ∃ res, ripple_loop fuel b seq queue = Ok res
           ∧ rtc (cascade_step b) (seq, queue) (res, [])
           ∧ NoDup res.
Proof.
  intros Hv fuel. induction fuel as [|fuel IH]; intros seq queue Hinv Hfuel.
  - apply ripple_inv_length in Hinv. rewrite length_app in Hinv. lia.
  - destruct queue as [|cell q].
    + exists seq. split_and!; [done|done|].
      destruct Hinv as [Hnd _]. by rewrite app_nil_r in Hnd.
    + rewrite ripple_loop_step by (done || by eapply ripple_inv_head).
      destruct (IH _ _ (ripple_inv_step _ _ _ _ Hinv)) as (res & Hres & Hrtc & Hnd).
      { rewrite length_app. simpl. lia. }
      exists res. split_and!; [done| |done].
      eapply rtc_l; [apply cascade_step_of_loop|done].
Qed.

Lemma cascade_step_det b s s1 s2 :
  cascade_step b s s1 → cascade_step b s s2 → s1 = s2.
Proof. intros H1 H2. inversion H1; subst; inversion H2; subst; done. Qed.

Lemma cascade_final_stuck b visited s : ¬ cascade_step b (visited, []) s.
Proof. intros H. inversion H. Qed.

Lemma cascade_final_unique b s v v' :
  rtc (cascade_step b) s (v, []) → rtc (cascade_step b) s (v', []) → v = v'.
Proof.
  intros H1. revert v'. remember (v, @nil (Z * Z)) as fin eqn:Hfin.
  induction H1 as [s|s s1 fin Hstep Hrtc IH]; intros v' H2; subst.
  - apply rtc_inv in H2 as [Heq|(s' & Hstep & _)]; [by simplify_eq|].
    by apply cascade_final_stuck in Hstep.
  - apply rtc_inv in H2 as [Heq|(s' & Hstep' & Hrtc')].
    + subst. by apply cascade_final_stuck in Hstep.
    + rewrite (cascade_step_det _ _ _ _ Hstep' Hstep) in Hrtc'. by apply IH.
Qed.

Lemma ripple_fuel_enough b r c :
  in_bounds b r c →
  (length (grid_cells (rows b) (columns b)) < ripple_fuel b + 0)%nat.
Proof.
  intros [Hr Hc]. rewrite length_grid_cells. unfold ripple_fuel.
  rewrite Z2Nat.inj_mul by lia. lia.
Qed.

Lemma ripple_inv_start b r c : in_bounds b r c → ripple_inv b [] [(r, c)].
Proof.
  intros Hb. split; simpl.
  - apply NoDup_singleton.
  - by apply Forall_singleton.
Qed.

Lemma ripple_sequence_runs b r c :
  valid_board b → in_bounds b r c →
  ∃ visited, ripple_sequence b r c = Ok (drop 1 visited)
             ∧ rtc (cascade_step b) ([], [(r, c)]) (visited, [])
             ∧ NoDup visited.
Proof.
  intros Hv Hb.
  destruct (ripple_loop_runs b Hv (ripple_fuel b) [] [(r, c)])
    as (res & Hres & Hrtc & Hnd).
  { by apply ripple_inv_start. }
  { by eapply ripple_fuel_enough. }
  exists res. unfold ripple_sequence.
  rewrite checkIndices_ok, Hres by done. done.
Qed.

Lemma NoDup_drop {A} (n : nat) (l : list A) : NoDup l → NoDup (drop n l).
Proof. intros Hl. apply (sublist_NoDup _ l Hl), sublist_drop. Qed.

(** C3. On a well-formed board and for a start cell on the grid,
    [ripple_sequence] returns, and what it returns is the sequence of the
    breadth-first cascade of the specification: the cascade has exactly
    this one result, and it is empty when the start cell is not '0'. *)
Theorem ripple_sequence_is_cascade (b : Board) (r c : Z) :
  valid_board b → in_bounds b r c →
  ∃ seq, ripple_sequence b r c = Ok seq
         ∧ cascade_of b (r, c) seq
         ∧ (∀ seq', cascade_of b (r, c) seq' → seq' = seq)
         ∧ (get_value b r c ≠ Ok "0"%char → seq = []).
Proof.
  intros Hv Hb.
  destruct (ripple_sequence_runs b r c Hv Hb) as (visited & Hrun & Hrtc & _).
  assert (Huniq : ∀ seq', cascade_of b (r, c) seq' → seq' = drop 1 visited).
  { intros seq' (visited' & Hrtc' & ->).
    by rewrite (cascade_final_unique _ _ _ _ Hrtc' Hrtc). }
  exists (drop 1 visited). split_and!; [done| |done|].
  - by exists visited.
  - intros Hval. symmetry. apply Huniq. exists [(r, c)]. split; [|done].
    apply rtc_once. by apply (cascade_stop b (r, c) [] []).
Qed.

Lemma ripple_sequence_is_cascade_witness :
  valid_board corner_3x3 ∧ in_bounds corner_3x3 2 2
  ∧ ∃ seq, ripple_sequence corner_3x3 2 2 = Ok seq
           ∧ cascade_of corner_3x3 (2, 2) seq
           ∧ (∀ seq', cascade_of corner_3x3 (2, 2) seq' → seq' = seq)
           ∧ (get_value corner_3x3 2 2 ≠ Ok "0"%char → seq = []).
Proof.
  assert (Hb : in_bounds corner_3x3 2 2) by (unfold in_bounds; simpl; lia).
  split; [reflexivity|]. split; [exact Hb|].
  apply (ripple_sequence_is_cascade corner_3x3 2 2); [reflexivity|exact Hb].
Defined.

Example ripple_sequence_corner :
  ripple_sequence corner_3x3 2 2
  = Ok [(1, 2); (2, 1); (1, 1); (0, 2); (0, 1); (2, 0); (1, 0)].
Proof. reflexivity. Qed.

Example ripple_sequence_on_count : ripple_sequence corner_3x3 1 1 = Ok [].
Proof. reflexivity. Qed.

(** C9. [ripple_sequence] leaves the board as it is, so two calls in a row
    on a well-formed board, from the same cell on the grid, return the same
    sequence; no cell is twice in it. *)
Theorem ripple_sequence_repeatable (b : Board) (r c : Z) :
  valid_board b → in_bounds b r c →
  ∃ seq, ripple_twice r c b = (Ok (seq, seq), b) ∧ NoDup seq.
Proof.
  intros Hv Hb.
  destruct (ripple_sequence_runs b r c Hv Hb) as (visited & Hrun & _ & Hnd).
  exists (drop 1 visited). split; [|by apply NoDup_drop].
  unfold ripple_twice, bind, query, ret. by rewrite Hrun.
Qed.

Lemma ripple_sequence_repeatable_witness :
  valid_board corner_3x3 ∧ in_bounds corner_3x3 2 2
  ∧ ∃ seq, ripple_twice 2 2 corner_3x3 = (Ok (seq, seq), corner_3x3) ∧ NoDup seq.
Proof.
  assert (Hb : in_bounds corner_3x3 2 2) by (unfold in_bounds; simpl; lia).
  split; [reflexivity|]. split; [exact Hb|].
  apply (ripple_sequence_repeatable corner_3x3 2 2); [reflexivity|exact Hb].
Defined.

(** ** Cells of a cascade *)

Lemma cascade_step_Forall b (P : Z * Z → Prop) s s' :
  (∀ n cell, n ∈ clockwise_neighbours b cell →
             is_hidden b n.1 n.2 = Ok "H"%char → P n) →
  cascade_step b s s' → Forall P (s.1 ++ s.2) → Forall P (s'.1 ++ s'.2).
Proof.
  intros HP Hstep. inversion Hstep as [cell v q Hval|cell v q Hval]; subst; simpl.
  - intros Hall. rewrite (assoc_L (++)). apply Forall_app. split.
    + by rewrite <- (assoc_L (++)).
    + apply Forall_forall. intros n Hn.
      apply list_elem_of_filter in Hn as [(Hh & _) Hn]. by eapply HP.
  - by rewrite <- !(assoc_L (++)).
Qed.

Lemma cascade_rtc_Forall b (P : Z * Z → Prop) s s' :
  (∀ n cell, n ∈ clockwise_neighbours b cell →
             is_hidden b n.1 n.2 = Ok "H"%char → P n) →
  rtc (cascade_step b) s s' → Forall P (s.1 ++ s.2) → Forall P (s'.1 ++ s'.2).
Proof.
  intros HP Hrtc. induction Hrtc as [|s s1 s2 Hstep _ IH]; [done|].
  intros Hall. by eapply IH, cascade_step_Forall.
Qed.

Lemma cascade_step_prefix b s s' :
  cascade_step b s s' → s.1 `prefix_of` s'.1.
Proof. intros Hstep. inversion Hstep; subst; simpl; by apply prefix_app_r. Qed.

Lemma cascade_rtc_prefix b s s' :
  rtc (cascade_step b) s s' → s.1 `prefix_of` s'.1.
Proof.
  induction 1 as [|s s1 s2 Hstep _ IH]; [done|].
  etrans; [by eapply cascade_step_prefix|done].
Qed.

Lemma cascade_visits_start_first b start visited :
  rtc (cascade_step b) ([], [start]) (visited, []) →
  ∃ rest, visited = start :: rest.
Proof.
  intros Hrtc. apply rtc_inv in Hrtc as [Heq|(s1 & Hstep & Hrtc)]; [done|].
  apply cascade_rtc_prefix in Hrtc.
  inversion Hstep; subst; simpl in *; destruct Hrtc as [rest ->]; by exists rest.
Qed.

(** The cells of a cascade are on the grid, hidden, pairwise different and
    different from the start cell. *)
Lemma ripple_sequence_cells b r c :
  valid_board b → in_bounds b r c →
  ∃ seq, ripple_sequence b r c = Ok seq
         ∧ NoDup seq ∧ ((r, c) ∉ seq)
         ∧ Forall (λ p, in_bounds b p.1 p.2 ∧ seen_at b p.1 p.2 = false) seq.
Proof.
  intros Hv Hb.
  destruct (ripple_sequence_runs b r c Hv Hb) as (visited & Hrun & Hrtc & Hnd).
  destruct (cascade_visits_start_first _ _ _ Hrtc) as [rest ->].
  apply NoDup_cons in Hnd as [Hstart Hnd].
  exists rest. split_and!; [done|done|done|].
  set (P := λ p : Z * Z,
    p = (r, c) ∨ (in_bounds b p.1 p.2 ∧ seen_at b p.1 p.2 = false)).
  assert (Hall : Forall P ((r, c) :: rest)).
  { assert (HP : ∀ n cell, n ∈ clockwise_neighbours b cell →
                           is_hidden b n.1 n.2 = Ok "H"%char → P n).
    { intros n cell Hn Hh. right.
      apply list_elem_of_filter in Hn as [Hn _]. split; [done|].
      by apply is_hidden_H in Hh. }
    pose proof (cascade_rtc_Forall b P _ _ HP Hrtc) as Hfin. simpl in Hfin.
    rewrite app_nil_r in Hfin. apply Hfin. apply Forall_singleton. by left. }
  apply Forall_cons in Hall as [_ Hall].
  rewrite Forall_forall in Hall. apply Forall_forall. intros p Hp.
  destruct (Hall p Hp) as [->|?]; done.
Qed.

(** ** Uncovering the cells of a list *)

Lemma reveal_all_rows b cells : rows (reveal_all b cells) = rows b.
Proof. revert b. induction cells as [|p cells IH]; intros b; [done|]. simpl. by rewrite IH. Qed.

Lemma reveal_all_columns b cells : columns (reveal_all b cells) = columns b.
Proof. revert b. induction cells as [|p cells IH]; intros b; [done|]. simpl. by rewrite IH. Qed.

Lemma in_bounds_reveal_all b cells i j :
  in_bounds (reveal_all b cells) i j ↔ in_bounds b i j.
Proof. unfold in_bounds. by rewrite reveal_all_rows, reveal_all_columns. Qed.

Lemma valid_board_reveal_all b cells :
  valid_board b → Forall (λ p, in_bounds b p.1 p.2) cells →
  valid_board (reveal_all b cells).
Proof.
  intros Hv Hin. revert b Hv Hin.
  induction cells as [|p cells IH]; intros b Hv Hin; [done|].
  apply Forall_cons in Hin as [Hp Hin]. simpl. apply IH.
  - by apply valid_board_reveal.
  - done.
Qed.

Lemma value_at_reveal_all b cells i j :
  valid_board b → Forall (λ p, in_bounds b p.1 p.2) cells → 0 ≤ i → 0 ≤ j →
  value_at (reveal_all b cells) i j = value_at b i j.
Proof.
  intros Hv Hin Hi Hj. revert b Hv Hin.
  induction cells as [|p cells IH]; intros b Hv Hin; [done|].
  apply Forall_cons in Hin as [Hp Hin]. simpl.
  rewrite IH by (done || by apply valid_board_reveal).
  by apply value_at_reveal.
Qed.

Lemma seen_at_reveal_all b cells i j :
  valid_board b → Forall (λ p, in_bounds b p.1 p.2) cells → 0 ≤ i → 0 ≤ j →
  seen_at (reveal_all b cells) i j = true
  ↔ seen_at b i j = true ∨ (i, j) ∈ cells.
Proof.
  intros Hv Hin Hi Hj. revert b Hv Hin.
  induction cells as [|p cells IH]; intros b Hv Hin.
  - simpl. rewrite elem_of_nil. tauto.
  - apply Forall_cons in Hin as [Hp Hin]. simpl.
    rewrite IH by (done || by apply valid_board_reveal).
    rewrite seen_at_reveal by done. rewrite elem_of_cons.
    destruct p as [x y]. simpl. case_decide as Heq.
    + inversion Heq; subst. tauto.
    + split; [tauto|]. intros [?|[Hxy|?]]; [tauto| |tauto].
      by destruct Heq.
Qed.

Lemma uncover_each b cells :
  valid_board b → NoDup cells →
  Forall (λ p, in_bounds b p.1 p.2 ∧ seen_at b p.1 p.2 = false) cells →
  for_each cells (λ xy, uncover xy.1 xy.2) b = (Ok tt, reveal_all b cells)
  ∧ uncovered_in_order cells b (reveal_all b cells).
Proof.
  intros Hv Hnd Hall. revert b Hv Hall.
  induction Hnd as [|p cells Hp Hnd IH]; intros b Hv Hall.
  - split; [done|constructor].
  - apply Forall_cons in Hall as [[Hin Hhid] Hall].
    destruct (IH (reveal b p.1 p.2)) as [Hfor Hord].
    { by apply valid_board_reveal. }
    { rewrite Forall_forall in Hall. apply Forall_forall. intros q Hq.
      destruct (Hall q Hq) as [Hqin Hqhid]. split; [done|].
      destruct Hqin as [? ?].
      rewrite (seen_at_reveal_ne b p.1 p.2 q.1 q.2) by
        (done || lia || (destruct p, q; simpl; intros Heq; apply Hp; by rewrite Heq)).
      done. }
    split.
    + simpl. unfold bind at 1. by rewrite uncover_hidden.
    + econstructor; [by apply uncover_hidden|done].
Qed.

(** ** Moves *)

Section MakeMove.
Context (b : Board) (Hvalid : valid_board b) (r c : Z).

Lemma make_move_out :
  ¬ in_bounds b r c → make_move r c b = (Raise IllegalIndicesException, b).
Proof. intros Hn. unfold make_move, bind. by rewrite uncover_out. Qed.

Lemma make_move_seen :
  in_bounds b r c → seen_at b r c = true →
  make_move r c b = (Raise IllegalMoveException, b).
Proof. intros Hb Hs. unfold make_move, bind. by rewrite uncover_seen. Qed.

Lemma make_move_count :
  in_bounds b r c → seen_at b r c = false → value_at b r c ≠ "0"%char →
  make_move r c b = (Ok (value_at b r c), reveal b r c).
Proof.
  intros Hb Hs Hval. pose proof Hb as [? ?]. unfold make_move, bind, query.
  rewrite uncover_hidden by done.
  rewrite get_value_valid by (done || by apply valid_board_reveal).
  rewrite value_at_reveal by (done || lia).
  by rewrite bool_decide_eq_true_2 by done.
Qed.

Lemma make_move_zero :
  in_bounds b r c → seen_at b r c = false → value_at b r c = "0"%char →
  ∃ seq, ripple_sequence (reveal b r c) r c = Ok seq
         ∧ Forall (λ p, in_bounds b p.1 p.2) seq
         ∧ uncovered_in_order seq (reveal b r c) (reveal_all (reveal b r c) seq)
         ∧ make_move r c b = (Ok "0"%char, reveal_all (reveal b r c) seq).
Proof.
  intros Hb Hs Hval. pose proof Hb as [? ?].
  pose proof (valid_board_reveal b Hvalid r c Hb) as Hv1.
  destruct (ripple_sequence_cells (reveal b r c) r c Hv1 Hb)
    as (seq & Hseq & Hnd & _ & Hcells).
  destruct (uncover_each _ seq Hv1 Hnd Hcells) as [Hfor Hord].
  exists seq. split_and!; [done| |done|].
  - eapply Forall_impl; [exact Hcells|]. by intros p [Hp _].
  - unfold make_move, bind, query. rewrite uncover_hidden by done.
    rewrite get_value_valid by done.
    rewrite value_at_reveal by (done || lia). rewrite Hval.
    rewrite bool_decide_eq_false_2 by (by intros []).
    by rewrite Hseq, Hfor.
Qed.

(** Whatever the outcome of a move, the board it leaves is the old one
    with some cells of the grid uncovered. *)
Lemma make_move_board :
  ∃ cells, Forall (λ p, in_bounds b p.1 p.2) cells
           ∧ (make_move r c b).2 = reveal_all b cells.
Proof.
  destruct (decide (in_bounds b r c)) as [Hb|Hn];
    [|exists []; by rewrite make_move_out].
  destruct (seen_at b r c) eqn:Hs; [exists []; by rewrite make_move_seen|].
  destruct (decide (value_at b r c = "0"%char)) as [Hval|Hval].
  - destruct (make_move_zero Hb Hs Hval) as (seq & _ & Hin & _ & ->).
    exists ((r, c) :: seq). split; [by apply Forall_cons|done].
  - exists [(r, c)]. rewrite make_move_count by done.
    split; [by apply Forall_singleton|done].
Qed.
End MakeMove.




Example make_move_corner :
  make_move 2 2 corner_3x3
  = (Ok "0"%char,
     {| rows := 3; columns := 3;
        board := [["*H"; "1S"; "0S"]; ["1S"; "1S"; "0S"]; ["0S"; "0S"; "0S"]]%string |}).
Proof. reflexivity. Qed.

(** ** Moves in a finished game *)

Lemma mine_revealed_views b :
  valid_board b →
  mine_revealed b
  ↔ ∃ i j, in_bounds b i j ∧ value_at b i j = "*"%char ∧ seen_at b i j = true.
Proof.
  intros Hv. unfold mine_revealed.
  split; intros (i & j & Hb & Hval & Hs); exists i, j; (split; [done|]).
  - by rewrite <- get_value_eq, <- is_hidden_S.
  - by rewrite get_value_eq, is_hidden_S.
Qed.

Lemma mine_revealed_reveal_all b cells :
  valid_board b → Forall (λ p, in_bounds b p.1 p.2) cells →
  mine_revealed b → mine_revealed (reveal_all b cells).
Proof.
  intros Hv Hin. pose proof (valid_board_reveal_all b cells Hv Hin) as Hv'.
  rewrite !mine_revealed_views by done.
  intros (i & j & Hb & Hval & Hs). exists i, j. pose proof Hb as [? ?].
  split_and!.
  - by apply in_bounds_reveal_all.
  - by rewrite value_at_reveal_all by (done || lia).
  - apply seen_at_reveal_all; [done|done|lia|lia|by left].
Qed.

Lemma make_move_valid b r c : valid_board b → valid_board (make_move r c b).2.
Proof.
  intros Hv. destruct (make_move_board b Hv r c) as (cells & Hin & ->).
  by apply valid_board_reveal_all.
Qed.

Lemma make_move_keeps_Lose b r c :
  valid_board b → get_status b = Ok Lose → get_status (make_move r c b).2 = Ok Lose.
Proof.
  intros Hv Hst. apply get_status_Lose; [by apply make_move_valid|].
  apply get_status_Lose in Hst; [|done].
  destruct (make_move_board b Hv r c) as (cells & Hin & ->).
  by apply mine_revealed_reveal_all.
Qed.

Lemma mine_revealed_reveal b i j :
  valid_board b → in_bounds b i j → value_at b i j = "*"%char →
  mine_revealed (reveal b i j).
Proof.
  intros Hv Hb Hval. apply mine_revealed_views; [by apply valid_board_reveal|].
  exists i, j. pose proof Hb as [? ?]. split_and!; [done| |].
  - by rewrite value_at_reveal by (done || lia).
  - by apply seen_at_reveal_eq.
Qed.

(** C2, as the code has it: on the won board [won_1x2] the move on the
    hidden mine returns normally and the status becomes [Lose]. *)
Lemma won_game_move_loses :
  valid_board won_1x2
  ∧ get_status won_1x2 = Ok Win
  ∧ make_move 0 1 won_1x2
    = (Ok "*"%char,
       {| rows := 1; columns := 2; board := [["1S"; "*S"]%string] |})
  ∧ get_status (make_move 0 1 won_1x2).2 = Ok Lose.
Proof. repeat split. Qed.

Lemma finished_status_is_final_fails : ¬ finished_status_is_final.
Proof.
  intros Hclaim.
  destruct (Hclaim won_1x2 0 1 eq_refl (or_intror eq_refl)) as [[e He]|Hst].
  - vm_compute in He. discriminate He.
  - vm_compute in Hst. discriminate Hst.
Qed.

(** C2, amended.  Once the status is [Lose] it stays [Lose] whatever
    [make_move] does.  When the status is [Win], a move off the grid raises
    the illegal-indices exception and a move on an uncovered cell raises the
    illegal-move exception, both leaving the board as it is; a move on a
    hidden cell, which is then a mine, returns and the status becomes
    [Lose].  In any state a move on an uncovered cell of the grid raises the
    illegal-move exception and leaves the board as it is. *)
Theorem finished_game_moves (b : Board) (r c : Z) :
  valid_board b →
  (get_status b = Ok Lose → get_status (make_move r c b).2 = Ok Lose)
  ∧ (get_status b = Ok Win →
       (¬ in_bounds b r c
        ∧ make_move r c b = (Raise IllegalIndicesException, b))
       ∨ (in_bounds b r c ∧ is_hidden b r c = Ok "S"%char
          ∧ make_move r c b = (Raise IllegalMoveException, b))
       ∨ (in_bounds b r c ∧ is_hidden b r c = Ok "H"%char
          ∧ get_value b r c = Ok "*"%char
          ∧ ∃ b', make_move r c b = (Ok "*"%char, b') ∧ get_status b' = Ok Lose))
  ∧ (in_bounds b r c → is_hidden b r c = Ok "S"%char →
       make_move r c b = (Raise IllegalMoveException, b)).
Proof.
  intros Hv. split_and!.
  - by apply make_move_keeps_Lose.
  - intros Hwin. apply get_status_Win in Hwin as (_ & _ & Hsafe); [|done].
    destruct (decide (in_bounds b r c)) as [Hb|Hn];
      [|left; split; [done|by apply make_move_out]].
    right. destruct (seen_at b r c) eqn:Hs.
    + left. split_and!; [done|by apply is_hidden_S|by apply make_move_seen].
    + right. assert (Hmine : value_at b r c = "*"%char).
      { destruct (decide (value_at b r c = "*"%char)) as [|Hne]; [done|].
        assert (Hrev : is_hidden b r c = Ok "S"%char).
        { apply Hsafe; [done|]. by rewrite get_value_eq. }
        apply is_hidden_S in Hrev; [|done|done]. congruence. }
      split_and!; [done|by apply is_hidden_H|by apply get_value_eq|].
      exists (reveal b r c). split.
      * rewrite make_move_count by (done || by rewrite Hmine). by rewrite Hmine.
      * apply get_status_Lose; [by apply valid_board_reveal|].
        by apply mine_revealed_reveal.
  - intros Hb Hs. apply make_move_seen; [done|done|]. by apply is_hidden_S.
Qed.

Lemma finished_game_moves_witness :
  valid_board won_1x2
  ∧ (get_status won_1x2 = Ok Lose →
       get_status (make_move 0 1 won_1x2).2 = Ok Lose)
  ∧ (get_status won_1x2 = Ok Win →
       (¬ in_bounds won_1x2 0 1
        ∧ make_move 0 1 won_1x2 = (Raise IllegalIndicesException, won_1x2))
       ∨ (in_bounds won_1x2 0 1 ∧ is_hidden won_1x2 0 1 = Ok "S"%char
          ∧ make_move 0 1 won_1x2 = (Raise IllegalMoveException, won_1x2))
       ∨ (in_bounds won_1x2 0 1 ∧ is_hidden won_1x2 0 1 = Ok "H"%char
          ∧ get_value won_1x2 0 1 = Ok "*"%char
          ∧ ∃ b', make_move 0 1 won_1x2 = (Ok "*"%char, b')
                  ∧ get_status b' = Ok Lose))
  ∧ (in_bounds won_1x2 0 1 → is_hidden won_1x2 0 1 = Ok "S"%char →
       make_move 0 1 won_1x2 = (Raise IllegalMoveException, won_1x2)).
Proof.
  split; [reflexivity|]. apply (finished_game_moves won_1x2 0 1). reflexivity.
Defined.

(** ** Loading a board *)

Lemma check_cell_cell_ok cell :
  check_cell cell = if cell_ok cell then Ok tt else Raise BoardFormatException.
Proof.
  destruct cell as [|x [|y [|z s]]]; try done.
  unfold check_cell, cell_ok. simpl.
  destruct (decide (x ∈ validX)), (decide (y ∈ validY));
    rewrite ?(bool_decide_eq_true_2 (x ∈ validX)),
      ?(bool_decide_eq_false_2 (x ∈ validX)),
      ?(bool_decide_eq_true_2 (y ∈ validY)),
      ?(bool_decide_eq_false_2 (y ∈ validY)),
      ?(bool_decide_eq_true_2 (x ∉ validX)),
      ?(bool_decide_eq_false_2 (x ∉ validX)),
      ?(bool_decide_eq_true_2 (y ∉ validY)),
      ?(bool_decide_eq_false_2 (y ∉ validY)) by tauto; done.
Qed.

Lemma check_cells_forallb row :
  for_each_o row check_cell
  = if forallb cell_ok row then Ok tt else Raise BoardFormatException.
Proof.
  induction row as [|cell row IH]; [done|]. simpl.
  rewrite check_cell_cell_ok. destruct (cell_ok cell); simpl; done.
Qed.

(** One iteration of the loop over the lines. *)
Lemma load_lines_cons line lines nRows b :
  load_lines (line :: lines) nRows b =
    match line_row line with
    | None => load_lines lines nRows b
    | Some row =>
        if negb (forallb cell_ok row) then (Raise BoardFormatException, b)
        else if bool_decide (Z.of_nat (length row) ≠ columns b)
             then (Raise DimensionsMismatchException, b)
             else load_lines lines (nRows + 1)
                    {| rows := rows b; columns := columns b;
                       board := board b ++ [row] |}
    end.
Proof.
  simpl. unfold line_row. case_bool_decide; [done|].
  unfold bind at 1, query at 1. rewrite check_cells_forallb.
  destruct (forallb cell_ok _); simpl; [|done].
  unfold bind at 1, query at 1. case_bool_decide; done.
Qed.

(** Accepted lines are appended in order and counted. *)
Lemma load_lines_accepted lines nRows b :
  Forall (line_accepted (columns b)) lines →
  load_lines lines nRows b =
    (Ok (nRows + Z.of_nat (length (omap line_row lines))),
     {| rows := rows b; columns := columns b;
        board := board b ++ omap line_row lines |}).
Proof.
  intros Hall. revert nRows b Hall.
  induction lines as [|line lines IH]; intros nRows b Hall.
  - simpl. unfold ret. rewrite app_nil_r, Z.add_0_r. by destruct b.
  - apply Forall_cons in Hall as [Hline Hall]. rewrite load_lines_cons.
    unfold line_accepted in Hline. simpl.
    destruct (line_row line) as [row|]; [|by apply IH].
    destruct Hline as [Hcells Hlen]. rewrite Hcells. simpl.
    rewrite bool_decide_eq_false_2 by (by intros []).
    rewrite IH by done. simpl. rewrite <- (assoc_L (++)). simpl.
    f_equal. f_equal. unfold omap. lia.
Qed.

(** The first line that is not accepted decides the exception: a bad cell
    on it raises the format exception, before the width is looked at. *)
Lemma load_lines_bad_cell pre line row post nRows b :
  Forall (line_accepted (columns b)) pre →
  line_row line = Some row → forallb cell_ok row = false →
  (load_lines (pre ++ line :: post) nRows b).1 = Raise BoardFormatException.
Proof.
  intros Hpre Hrow Hbad. revert nRows b Hpre.
  induction pre as [|l pre IH]; intros nRows b Hpre; simpl app.
  - rewrite load_lines_cons, Hrow, Hbad. done.
  - apply Forall_cons in Hpre as [Hl Hpre]. rewrite load_lines_cons.
    unfold line_accepted in Hl. destruct (line_row l) as [row'|]; [|by apply IH].
    destruct Hl as [Hcells Hlen]. rewrite Hcells. simpl.
    rewrite bool_decide_eq_false_2 by (by intros []). by apply IH.
Qed.

Lemma load_lines_bad_width pre line row post nRows b :
  Forall (line_accepted (columns b)) pre →
  line_row line = Some row → forallb cell_ok row = true →
  Z.of_nat (length row) ≠ columns b →
  (load_lines (pre ++ line :: post) nRows b).1 = Raise DimensionsMismatchException.
Proof.
  intros Hpre Hrow Hok Hlen. revert nRows b Hpre Hlen.
  induction pre as [|l pre IH]; intros nRows b Hpre Hlen; simpl app.
  - rewrite load_lines_cons, Hrow, Hok. simpl.
    by rewrite bool_decide_eq_true_2 by done.
  - apply Forall_cons in Hpre as [Hl Hpre]. rewrite load_lines_cons.
    unfold line_accepted in Hl. destruct (line_row l) as [row'|]; [|by apply IH].
    destruct Hl as [Hcells Hlen']. rewrite Hcells. simpl.
    rewrite bool_decide_eq_false_2 by (by intros []). by apply IH.
Qed.

Lemma load_board_raises lines b e :
  (load_lines lines 0 {| rows := rows b; columns := columns b; board := [] |}).1
    = Raise e →
  (load_board lines b).1 = Raise e.
Proof.
  intros He. unfold load_board, bind, set_board.
  destruct (load_lines lines 0 _) as [[n|e'|] b']; simpl in *; by simplify_eq.
Qed.

(** C1: the lines are judged one after the other, so the too short first
    row raises the dimensions exception although the second line holds
    the malformed cell "0X", for which the docstring of [load_board]
    promises the format exception. *)
Theorem load_board_width_before_later_cell :
  Board_init 2 2 = Ok empty_2x2
  ∧ line_row "0H" = Some ["0H"%string]
  ∧ line_row "0X 1H" = Some ["0X"; "1H"]%string
  ∧ check_cell "0X" = Raise BoardFormatException
  ∧ (load_board ["0H"; "0X 1H"]%string empty_2x2).1
    = Raise DimensionsMismatchException.
Proof. repeat split. Qed.

(** C10: the same order of checks hides a doubled space on a later line. *)
Theorem load_board_width_before_double_space :
  line_row "0H" = Some ["0H"%string]
  ∧ line_row "0H  1H" = Some ["0H"; EmptyString; "1H"]%string
  ∧ check_cell EmptyString = Raise BoardFormatException
  ∧ (load_board ["0H"; "0H  1H"]%string empty_2x2).1
    = Raise DimensionsMismatchException.
Proof. repeat split. Qed.

(** ** Strings *)

#[local] Arguments String.append : simpl nomatch.

Lemma append_nil_r s : s +:+ EmptyString = s.
Proof. induction s as [|ch s IH]; [done|]. simpl. f_equal. exact IH. Qed.

Lemma append_assoc s1 s2 s3 : (s1 +:+ s2) +:+ s3 = s1 +:+ (s2 +:+ s3).
Proof. induction s1 as [|ch s1 IH]; [done|]. simpl. f_equal. exact IH. Qed.

Lemma split_space_nonempty s : split_space s ≠ [].
Proof.
  destruct s as [|ch s]; [done|]. simpl.
  case_bool_decide; [done|]. by destruct (split_space s).
Qed.

Lemma split_space_app s1 s2 :
  split_space (s1 +:+ String " " s2) = split_space s1 ++ split_space s2.
Proof.
  induction s1 as [|ch s1 IH]; [done|]. simpl. rewrite IH.
  case_bool_decide; [done|].
  pose proof (split_space_nonempty s1). by destruct (split_space s1).
Qed.

(** A line with two spaces in a row has an empty piece, which is not a
    cell. *)
Lemma split_space_double_space s1 s2 :
  forallb cell_ok (split_space (s1 +:+ String " " (String " " s2))) = false.
Proof.
  rewrite split_space_app. simpl. rewrite forallb_app. simpl.
  by rewrite andb_false_r.
Qed.

(** When the first line that is not accepted has two spaces in a row
    between its first and last character, [load_board] raises the format
    exception. *)
Lemma load_board_double_space_first pre line s1 s2 post b :
  Forall (line_accepted (columns b)) pre →
  strip line = s1 +:+ String " " (String " " s2) →
  (load_board (pre ++ line :: post) b).1 = Raise BoardFormatException.
Proof.
  intros Hpre Hline. apply load_board_raises.
  apply (load_lines_bad_cell pre line (split_space (strip line))); [done| |].
  - unfold line_row. rewrite Hline.
    rewrite bool_decide_eq_false_2; [done|]. by destruct s1.
  - rewrite Hline. apply split_space_double_space.
Qed.

Lemma validX_plain x :
  x ∈ validX → is_space x = false ∧ x ≠ " "%char ∧ x ≠ "010"%char.
Proof.
  unfold validX. rewrite !elem_of_cons, elem_of_nil.
  intros H. repeat (destruct H as [->|H]; [by repeat split|]). done.
Qed.

Lemma validY_plain y :
  y ∈ validY → is_space y = false ∧ y ≠ " "%char ∧ y ≠ "010"%char.
Proof.
  unfold validY. rewrite !elem_of_cons, elem_of_nil.
  intros H. repeat (destruct H as [->|H]; [by repeat split|]). done.
Qed.

Lemma rstrip_cons_nonempty ch s :
  rstrip s ≠ EmptyString → rstrip (String ch s) = String ch (rstrip s).
Proof. intros Hne. simpl. by destruct (rstrip s). Qed.

Lemma rstrip_cons_empty ch s :
  rstrip s = EmptyString →
  rstrip (String ch s) = if is_space ch then EmptyString else String ch EmptyString.
Proof. intros Heq. simpl. by rewrite Heq. Qed.

Lemma row_line_cons x y r :
  row_line (String x (String y EmptyString) :: r)
  = String x (String y (String " " (row_line r))).
Proof. done. Qed.

Lemma join_cells_nonempty cell r :
  cell_ok cell = true → join_cells (cell :: r) ≠ EmptyString.
Proof.
  intros Hc. apply cell_ok_inv in Hc as (x & y & -> & _). by destruct r.
Qed.

Lemma rstrip_row_line r :
  Forall (λ s, cell_ok s = true) r → rstrip (row_line r) = join_cells r.
Proof.
  induction 1 as [|cell r Hc Hr IH]; [done|].
  pose proof Hc as (x & y & -> & Hx & Hy)%cell_ok_inv.
  apply validX_plain in Hx as (Hx & _). apply validY_plain in Hy as (Hy & _).
  rewrite row_line_cons. cbn [rstrip]. rewrite IH.
  destruct Hr as [|cell' r' Hc' Hr'].
  - simpl. by rewrite Hy.
  - pose proof (join_cells_nonempty cell' r' Hc') as Hne.
    change (join_cells (String x (String y EmptyString) :: cell' :: r'))
      with (String x (String y (String " " (join_cells (cell' :: r'))))).
    by destruct (join_cells (cell' :: r')).
Qed.

Lemma strip_row_line cell r :
  Forall (λ s, cell_ok s = true) (cell :: r) →
  strip (row_line (cell :: r)) = join_cells (cell :: r).
Proof.
  intros Hall. unfold strip. rewrite <- rstrip_row_line by done. f_equal.
  apply Forall_cons in Hall as [(x & y & -> & Hx & _)%cell_ok_inv _].
  apply validX_plain in Hx as (Hx & _). rewrite row_line_cons. simpl. by rewrite Hx.
Qed.

Lemma split_space_cell x y :
  x ≠ " "%char → y ≠ " "%char →
  split_space (String x (String y EmptyString)) = [String x (String y EmptyString)].
Proof. intros Hx Hy. simpl. by rewrite !bool_decide_eq_false_2 by done. Qed.

Lemma split_space_join_cells cell r :
  Forall (λ s, cell_ok s = true) (cell :: r) →
  split_space (join_cells (cell :: r)) = cell :: r.
Proof.
  revert cell. induction r as [|cell' r IH]; intros cell Hall;
    apply Forall_cons in Hall as [Hc Hall];
    apply cell_ok_inv in Hc as (x & y & -> & Hx & Hy);
    apply validX_plain in Hx as (_ & Hx & _);
    apply validY_plain in Hy as (_ & Hy & _).
  - by apply split_space_cell.
  - change (join_cells (String x (String y EmptyString) :: cell' :: r))
      with (String x (String y EmptyString) +:+ String " " (join_cells (cell' :: r))).
    rewrite split_space_app, split_space_cell, IH by done. done.
Qed.

Lemma line_row_row_line cell r :
  Forall (λ s, cell_ok s = true) (cell :: r) →
  line_row (row_line (cell :: r)) = Some (cell :: r).
Proof.
  intros Hall. unfold line_row. rewrite strip_row_line by done.
  rewrite split_space_join_cells by done.
  rewrite bool_decide_eq_false_2; [done|].
  apply Forall_cons in Hall as [Hc _].
  pose proof (join_cells_nonempty cell r Hc). by destruct (join_cells (cell :: r)).
Qed.

Lemma newline_free_app s1 s2 :
  newline_free (s1 +:+ s2) = newline_free s1 && newline_free s2.
Proof.
  induction s1 as [|ch s1 IH]; [done|]. simpl. rewrite IH.
  by rewrite andb_assoc.
Qed.

Lemma newline_free_row_text r :
  Forall (λ s, cell_ok s = true) r → newline_free (row_text r) = true.
Proof.
  induction 1 as [|cell r Hc Hr IH]; [done|].
  apply cell_ok_inv in Hc as (x & y & -> & Hx & Hy).
  apply validX_plain in Hx as (_ & _ & Hx). apply validY_plain in Hy as (_ & _ & Hy).
  simpl. rewrite IH. by rewrite !bool_decide_eq_false_2 by done.
Qed.

Lemma newline_free_str_Z n : newline_free (str_Z n) = true.
Proof.
  assert (Hu : ∀ d, newline_free (NilEmpty.string_of_uint d) = true).
  { induction d; simpl; done. }
  assert (Hz : ∀ d, newline_free (NilZero.string_of_uint d) = true).
  { intros d. destruct d; try done; apply (Hu (_ d)). }
  unfold str_Z. destruct (Z.to_int n) as [d|d]; simpl; by rewrite ?Hz.
Qed.

Lemma file_lines_line body rest :
  newline_free body = true →
  file_lines ((body +:+ newline) +:+ rest) = (body +:+ newline) :: file_lines rest.
Proof.
  induction body as [|ch body IH]; [done|]. simpl.
  intros [Hch Hbody]%andb_prop. rewrite IH by done.
  apply negb_true_iff in Hch. by rewrite Hch.
Qed.

Lemma file_lines_concat_text lines :
  Forall (λ l, ∃ body, l = body +:+ newline ∧ newline_free body = true) lines →
  file_lines (concat_text lines) = lines.
Proof.
  induction 1 as [|l lines (body & -> & Hbody) _ IH]; [done|].
  simpl. by rewrite file_lines_line, IH.
Qed.

(** ** Saving a board *)

Lemma fmap_range_lookup {A} (d : A) (l : list A) (n : Z) :
  Z.to_nat n = length l →
  (λ i, default d (l !! Z.to_nat i)) <$> range n = l.
Proof.
  intros Hn. apply list_eq. intros k. unfold range. rewrite list_lookup_fmap.
  destruct (decide (k < length l)%nat) as [Hk|Hk].
  - rewrite lookup_seqZ_lt by lia. simpl. rewrite Z.add_0_l, Nat2Z.id.
    destruct (lookup_lt_is_Some_2 l k Hk) as [x Hx]. by rewrite Hx.
  - rewrite lookup_seqZ_ge by lia. simpl. symmetry. apply lookup_ge_None. lia.
Qed.

Lemma save_cells_valid b i js output :
  valid_board b → 0 ≤ i < rows b → Forall (λ j, 0 ≤ j < columns b) js →
  save_cells b i js output
  = Ok (output +:+ row_text ((λ j, default EmptyString (cell_at b i j)) <$> js)).
Proof.
  intros Hv Hi Hjs. revert output.
  induction Hjs as [|j js Hj Hjs IH]; intros output.
  - simpl. by rewrite append_nil_r.
  - destruct (valid_board_cell b i j Hv (conj Hi Hj)) as (x & y & Hc & _).
    cbn [save_cells fmap list_fmap row_text].
    rewrite (board_item_lookup b i j _ ltac:(lia) ltac:(lia) Hc). simpl obind.
    rewrite IH, Hc. simpl default. by rewrite !append_assoc.
Qed.

Lemma save_rows_valid b ks output :
  valid_board b → Forall (λ i, 0 ≤ i < rows b) ks →
  save_rows b ks output
  = Ok (output +:+ concat_text
          ((λ i, row_line (default [] (board b !! Z.to_nat i))) <$> ks)).
Proof.
  intros Hv Hks. revert output.
  induction Hks as [|i ks Hi Hks IH]; intros output.
  - simpl. by rewrite append_nil_r.
  - cbn [save_rows fmap list_fmap concat_text].
    rewrite save_cells_valid by (done || apply Forall_seqZ; lia). simpl obind.
    rewrite IH. destruct (lookup_lt_is_Some_2 (board b) (Z.to_nat i)) as [r Hr].
    { rewrite valid_board_length by done. lia. }
    destruct (valid_board_row b _ _ Hv Hr) as [Hlen _].
    assert (Hrow : (λ j, default EmptyString (cell_at b i j)) <$> range (columns b) = r).
    { etrans; [|by apply (fmap_range_lookup EmptyString r (columns b))].
      apply list_fmap_ext. intros _ j _. unfold cell_at. by rewrite Hr. }
    rewrite Hrow, Hr. simpl default. unfold row_line.
    by rewrite !append_assoc.
Qed.

Lemma save_text_valid b :
  valid_board b → save_text b = Ok (concat_text (saved_lines b)).
Proof.
  intros Hv. unfold save_text.
  rewrite save_rows_valid by (done || apply Forall_seqZ; lia).
  assert (Hrows : (λ i, row_line (default [] (board b !! Z.to_nat i)))
                    <$> range (rows b) = row_line <$> board b).
  { pose proof (fmap_range_lookup [] (board b) (rows b)) as Hl.
    rewrite valid_board_length in Hl by done. specialize (Hl eq_refl).
    apply (f_equal (fmap row_line)) in Hl. rewrite <- Hl.
    by rewrite <- list_fmap_compose. }
  rewrite Hrows. unfold saved_lines. cbn [concat_text].
  change (EmptyString +:+ str_Z (rows b) +:+ newline)
    with (str_Z (rows b) +:+ newline).
  by rewrite !append_assoc.
Qed.

Lemma saved_lines_newlines b :
  valid_board b →
  Forall (λ l, ∃ body, l = body +:+ newline ∧ newline_free body = true)
         (saved_lines b).
Proof.
  intros Hv. unfold saved_lines. repeat apply Forall_cons_2.
  - eexists. split; [done|apply newline_free_str_Z].
  - eexists. split; [done|apply newline_free_str_Z].
  - apply Forall_fmap, Forall_forall. intros r Hr. simpl.
    exists (row_text r). split; [done|].
    apply list_elem_of_lookup in Hr as [k Hk].
    apply newline_free_row_text. by eapply valid_board_row.
Qed.

Lemma omap_line_row_row_lines (rws : list (list string)) :
  Forall (λ r, r ≠ [] ∧ Forall (λ s, cell_ok s = true) r) rws →
  omap line_row (row_line <$> rws) = rws.
Proof.
  induction 1 as [|r rws [Hne Hr] _ IH]; [done|].
  destruct r as [|cell r]; [done|]. cbn [fmap list_fmap omap list_omap].
  rewrite line_row_row_line by done. f_equal. exact IH.
Qed.

Lemma row_lines_accepted b :
  valid_board b → 1 ≤ columns b →
  Forall (line_accepted (columns b)) (row_line <$> board b).
Proof.
  intros Hv Hcols. apply Forall_fmap, Forall_forall. intros r Hr. simpl.
  apply list_elem_of_lookup in Hr as [k Hk].
  destruct (valid_board_row b _ _ Hv Hk) as [Hlen Hcells].
  destruct r as [|cell r]; [simpl in Hlen; lia|].
  unfold line_accepted. rewrite line_row_row_line by done. split.
  - apply forallb_forall. intros s Hs. rewrite Forall_forall in Hcells.
    by apply Hcells, list_elem_of_In.
  - lia.
Qed.

(** C6. For a well-formed board [g] with at least one row and one column,
    [save_board] returns a text; read back as a file it gives the two
    dimension lines followed by one line per row, each cell followed by a
    space; [load_board] on these row lines, called on any board of the
    dimensions of [g], returns normally and leaves exactly the board [g]. *)
Theorem save_load_roundtrip (g b0 : Board) :
  valid_board g → 1 ≤ rows g → 1 ≤ columns g →
  rows b0 = rows g → columns b0 = columns g →
  ∃ text, save_board g = Ok text
    ∧ file_lines text
      = (str_Z (rows g) +:+ newline) :: (str_Z (columns g) +:+ newline)
        :: (row_line <$> board g)
    ∧ load_board (drop 2 (file_lines text)) b0 = (Ok tt, g).
Proof.
  intros Hv Hrows Hcols Hr0 Hc0. exists (concat_text (saved_lines g)).
  assert (Hlines : file_lines (concat_text (saved_lines g)) = saved_lines g).
  { by apply file_lines_concat_text, saved_lines_newlines. }
  split_and!.
  - unfold save_board. by rewrite save_text_valid.
  - by rewrite Hlines.
  - rewrite Hlines. unfold saved_lines. cbn [drop]. rewrite drop_0.
    unfold load_board, bind at 1, set_board.
    unfold bind at 1. rewrite load_lines_accepted
      by (simpl; rewrite Hc0; by apply row_lines_accepted).
    simpl. rewrite omap_line_row_row_lines.
    + rewrite valid_board_length by done.
      rewrite bool_decide_eq_false_2 by lia.
      unfold bind, query. cbn [rows].
      rewrite bool_decide_eq_false_2 by lia.
      unfold ret. rewrite Hr0, Hc0. by destruct g.
    + apply Forall_forall. intros r Hr.
      apply list_elem_of_lookup in Hr as [k Hk].
      destruct (valid_board_row g _ _ Hv Hk) as [Hlen Hcells].
      split; [|done]. intros ->. simpl in Hlen. lia.
Qed.

Lemma save_load_roundtrip_witness :
  valid_board corner_3x3 ∧ 1 ≤ rows corner_3x3 ∧ 1 ≤ columns corner_3x3
  ∧ ∃ text, save_board corner_3x3 = Ok text
      ∧ file_lines text
        = (str_Z (rows corner_3x3) +:+ newline)
          :: (str_Z (columns corner_3x3) +:+ newline)
          :: (row_line <$> board corner_3x3)
      ∧ load_board (drop 2 (file_lines text))
          {| rows := 3; columns := 3; board := [] |}
        = (Ok tt, corner_3x3).
Proof.
  split; [reflexivity|]. split; [simpl; lia|]. split; [simpl; lia|].
  apply (save_load_roundtrip corner_3x3 {| rows := 3; columns := 3; board := [] |});
    [reflexivity|simpl; lia|simpl; lia|reflexivity|reflexivity].
Defined.

(** ** Scattering mines *)

Lemma NoDup_grid_cells nr nc : NoDup (grid_cells nr nc).
Proof.
  unfold grid_cells, range. apply NoDup_bind; [| |apply NoDup_seqZ].
  - intros i1 i2 p _ _ Hp1 Hp2.
    apply list_elem_of_bind in Hp1 as (j1 & Hp1 & _).
    apply list_elem_of_bind in Hp2 as (j2 & Hp2 & _).
    apply list_elem_of_singleton in Hp1, Hp2. by simplify_eq.
  - intros i _. apply NoDup_bind; [| |apply NoDup_seqZ].
    + intros j1 j2 p _ _ Hp1 Hp2.
      apply list_elem_of_singleton in Hp1, Hp2. by simplify_eq.
    + intros j _. apply NoDup_singleton.
Qed.

Lemma filter_ext_elem {A} (P Q : A → Prop)
    `{∀ x, Decision (P x)} `{∀ x, Decision (Q x)} (l : list A) :
  (∀ y, y ∈ l → (P y ↔ Q y)) → filter P l = filter Q l.
Proof.
  induction l as [|y l IH]; intros Hext; [done|].
  rewrite !filter_cons, IH by (intros z Hz; by apply Hext, list_elem_of_further).
  pose proof (Hext y (list_elem_of_here _ _)) as Hy.
  destruct (decide (P y)), (decide (Q y)); tauto.
Qed.

(** Changing a predicate at one element of a duplicate-free list changes
    the number of elements that satisfy it by one. *)
Lemma filter_length_add {A} (P Q : A → Prop)
    `{∀ x, Decision (P x)} `{∀ x, Decision (Q x)} (l : list A) (x : A) :
  NoDup l → x ∈ l → ¬ P x → Q x → (∀ y, y ∈ l → y ≠ x → (P y ↔ Q y)) →
  length (filter Q l) = S (length (filter P l)).
Proof.
  intros Hnd Hx HP HQ Hother.
  induction Hnd as [|y l Hy Hnd IH]; [by apply elem_of_nil in Hx|].
  apply elem_of_cons in Hx as [<-|Hx].
  - rewrite filter_cons_True, filter_cons_False by done. simpl. f_equal.
    f_equal. apply filter_ext_elem. intros z Hz.
    symmetry. apply Hother; [by apply list_elem_of_further|]. by intros ->.
  - assert (y ≠ x) as Hne by (by intros ->).
    pose proof (Hother y (list_elem_of_here _ _) Hne) as Hy'.
    assert (IH' : length (filter Q l) = S (length (filter P l))).
    { apply IH; [done|]. intros z Hz. by apply Hother, list_elem_of_further. }
    rewrite !filter_cons. destruct (decide (Q y)) as [Hq|Hq];
      destruct (decide (P y)) as [Hp|Hp]; simpl; rewrite IH'; tauto.
Qed.

Lemma value_at_set_cell_eq b i j x s :
  valid_board b → in_bounds b i j →
  value_at (set_cell b i j (String x s)) i j = x.
Proof. intros Hv Hb. unfold value_at. by rewrite cell_at_set_cell_eq. Qed.

Lemma value_at_set_cell_ne b i j s i' j' :
  0 ≤ i → 0 ≤ j → 0 ≤ i' → 0 ≤ j' → (i, j) ≠ (i', j') →
  value_at (set_cell b i j s) i' j' = value_at b i' j'.
Proof. intros. unfold value_at. by rewrite cell_at_set_cell_ne. Qed.

Lemma seen_at_set_cell_ne b i j s i' j' :
  0 ≤ i → 0 ≤ j → 0 ≤ i' → 0 ≤ j' → (i, j) ≠ (i', j') →
  seen_at (set_cell b i j s) i' j' = seen_at b i' j'.
Proof. intros. unfold seen_at. by rewrite cell_at_set_cell_ne. Qed.

Lemma check_start_loop b cells :
  valid_board b → Forall (λ p, in_bounds b p.1 p.2) cells →
  for_each_o cells (λ ij,
    let! v := get_value b ij.1 ij.2 in
    if negb (bool_decide (v = "0"%char)) then Raise ScatterException
    else
      let! h := is_hidden b ij.1 ij.2 in
      if negb (bool_decide (h = "H"%char)) then Raise ScatterException
      else Ok tt)
  = if forallb (λ p, bool_decide (value_at b p.1 p.2 = "0"%char)
                     && negb (seen_at b p.1 p.2)) cells
    then Ok tt else Raise ScatterException.
Proof.
  intros Hv Hin. induction Hin as [|p cells Hp Hin IH]; [done|].
  cbn [for_each_o forallb]. rewrite IH.
  rewrite get_value_valid, is_hidden_valid by done. simpl.
  destruct (bool_decide (value_at b p.1 p.2 = "0"%char)); simpl; [|done].
  by destruct (seen_at b p.1 p.2).
Qed.

Lemma start_state_forallb b :
  valid_board b →
  forallb (λ p, bool_decide (value_at b p.1 p.2 = "0"%char)
                && negb (seen_at b p.1 p.2))
          (grid_cells (rows b) (columns b)) = true
  ↔ start_state b.
Proof.
  intros Hv. rewrite forallb_forall. unfold start_state. split.
  - intros Hall i j Hb. specialize (Hall (i, j)). simpl in Hall.
    rewrite <- list_elem_of_In, elem_of_grid_cells in Hall.
    destruct (andb_prop _ _ (Hall Hb)) as [Hval Hhid].
    apply bool_decide_eq_true in Hval. apply negb_true_iff in Hhid.
    by rewrite get_value_eq, is_hidden_H.
  - intros Hstart [i j] Hin. simpl.
    apply list_elem_of_In, elem_of_grid_cells in Hin.
    destruct (Hstart i j Hin) as [Hval Hhid].
    apply get_value_eq in Hval; [|done|done].
    apply is_hidden_H in Hhid; [|done|done].
    by rewrite Hval, Hhid.
Qed.

Lemma check_start_state_valid b :
  valid_board b →
  (start_state b → check_start_state b = Ok tt)
  ∧ (¬ start_state b → check_start_state b = Raise ScatterException).
Proof.
  intros Hv. unfold check_start_state.
  rewrite check_start_loop by (done || by apply grid_cells_in_bounds).
  rewrite <- start_state_forallb by done.
  destruct (forallb _ _); split; intros H; done.
Qed.

Lemma mines_on_set_mine b i j :
  valid_board b → in_bounds b i j → value_at b i j ≠ "*"%char →
  mines_on (set_cell b i j "*H") = S (mines_on b).
Proof.
  intros Hv Hb Hval. pose proof Hb as [? ?]. unfold mines_on. simpl.
  apply (filter_length_add _ _ _ (i, j)).
  - apply NoDup_grid_cells.
  - by apply elem_of_grid_cells.
  - done.
  - unfold mine_at. simpl. by rewrite value_at_set_cell_eq.
  - intros [i' j'] [? ?]%elem_of_grid_cells Hne. unfold mine_at. simpl.
    rewrite value_at_set_cell_ne; [done|lia|lia|lia|lia|by intros ?].
Qed.

(** The loop that places the mines: a run that returns has placed exactly
    the mines that were still missing. *)
Lemma place_mines_loop_ok tape k :
  ∀ m b b1,
    valid_board b → m ≤ k →
    place_mines_loop tape k m b = (Ok tt, b1) →
    valid_board b1 ∧ rows b1 = rows b ∧ columns b1 = columns b
    ∧ Z.of_nat (mines_on b1) = Z.of_nat (mines_on b) + (k - m).
Proof.
  induction tape as [|ij tape IH]; intros m b b1 Hv Hm Hrun; simpl in Hrun.
  - case_bool_decide; [done|]. unfold ret in Hrun. simplify_eq.
    split_and!; try done. lia.
  - case_bool_decide as Hlt; [|unfold ret in Hrun; simplify_eq; split_and!; try done; lia].
    unfold bind at 1, query in Hrun.
    destruct (decide (in_bounds b ij.1 ij.2)) as [Hb|Hb];
      [|by rewrite get_value_out in Hrun].
    rewrite get_value_valid in Hrun by done.
    destruct (decide (value_at b ij.1 ij.2 = "*"%char)) as [Hval|Hval].
    + rewrite bool_decide_eq_true_2 in Hrun by done. simpl in Hrun.
      by apply IH in Hrun.
    + rewrite bool_decide_eq_false_2 in Hrun by done. simpl in Hrun.
      unfold bind in Hrun. rewrite board_setitem_valid in Hrun by done.
      apply IH in Hrun as (Hv1 & Hr1 & Hc1 & Hcount);
        [|by apply valid_board_set_cell|lia].
      split_and!; [done|done|done|].
      rewrite Hcount, mines_on_set_mine by done. lia.
Qed.

Lemma count_touching_valid b coords acc :
  valid_board b → Forall (λ p, in_bounds b p.1 p.2) coords →
  count_touching b coords acc
  = Ok (acc + Z.of_nat (length (filter (mine_at b) coords))).
Proof.
  intros Hv Hin. revert acc.
  induction Hin as [|p coords Hp Hin IH]; intros acc.
  - simpl. by rewrite Z.add_0_r.
  - destruct (valid_board_cell b _ _ Hv Hp) as (x & y & Hc & _).
    pose proof Hp as [? ?]. cbn [count_touching].
    rewrite (board_item_lookup b p.1 p.2 _ ltac:(lia) ltac:(lia) Hc). simpl.
    rewrite IH, filter_cons.
    assert (Hm : mine_at b p ↔ x = "*"%char).
    { unfold mine_at, value_at. by rewrite Hc. }
    case_bool_decide; case_decide; try tauto; simpl; f_equal; lia.
Qed.

Lemma surrounding_in_bounds b i j :
  Forall (λ p, in_bounds b p.1 p.2) (surrounding b i j).
Proof.
  apply Forall_forall. intros p Hp.
  apply list_elem_of_filter in Hp as [Hp _]. unfold in_bounds. lia.
Qed.

Lemma surrounding_NoDup b i j : NoDup (surrounding b i j).
Proof.
  apply NoDup_filter. rewrite !NoDup_cons, !not_elem_of_cons.
  repeat split; try (intros Heq; inversion Heq; lia);
    try apply not_elem_of_nil. apply NoDup_nil_2.
Qed.

Lemma touching_le_8 b i j : (touching b i j ≤ 8)%nat.
Proof.
  unfold touching, surrounding.
  etrans; [apply length_filter|]. etrans; [apply length_filter|]. done.
Qed.

Lemma str_Z_digit n : (n ≤ 8)%nat → str_Z (Z.of_nat n) = String (digit_char n) EmptyString.
Proof. intros Hn. do 9 (destruct n as [|n]; [done|]). lia. Qed.

Lemma digit_char_validX n :
  (n ≤ 8)%nat → digit_char n ∈ validX ∧ digit_char n ≠ "*"%char.
Proof.
  intros Hn. do 9 (destruct n as [|n]; [by split; [set_solver|]|]). lia.
Qed.

Lemma digit_cell_digit b i j :
  digit_cell b i j = String (digit_char (touching b i j)) "H".
Proof. unfold digit_cell. by rewrite str_Z_digit by apply touching_le_8. Qed.

Lemma digit_cell_ok b i j : cell_ok (digit_cell b i j) = true.
Proof.
  rewrite digit_cell_digit.
  destruct (digit_char_validX (touching b i j) (touching_le_8 b i j)) as [Hx _].
  revert Hx. generalize (digit_char (touching b i j)). intros x Hx.
  unfold cell_ok. by rewrite (bool_decide_eq_true_2 _ Hx).
Qed.

(** One run of the body of the loops that update the digits. *)
Lemma update_digit_valid b i j :
  valid_board b → in_bounds b i j →
  update_digit i j b
  = (Ok tt, if decide (mine_at b (i, j)) then b
            else set_cell b i j (digit_cell b i j)).
Proof.
  intros Hv Hb. destruct (valid_board_cell b i j Hv Hb) as (x & y & Hc & _).
  pose proof Hb as [? ?]. unfold update_digit, bind at 1, query at 1.
  rewrite (board_item_lookup b i j _ ltac:(lia) ltac:(lia) Hc).
  unfold bind at 1, query at 1.
  change (str_index (String x (String y EmptyString)) 0) with (Ok x).
  cbv iota beta.
  assert (Hm : mine_at b (i, j) ↔ x = "*"%char).
  { unfold mine_at, value_at. simpl. by rewrite Hc. }
  case_bool_decide as Hx; case_decide as Hx'; try tauto.
  unfold bind at 1, query at 1. unfold bind at 1, query at 1.
  fold (surrounding b i j).
  rewrite count_touching_valid by (done || apply surrounding_in_bounds).
  rewrite Z.add_0_l. by rewrite board_setitem_valid.
Qed.

Lemma touching_ext b b' i j :
  rows b' = rows b → columns b' = columns b →
  (∀ p, in_bounds b p.1 p.2 → (mine_at b' p ↔ mine_at b p)) →
  touching b' i j = touching b i j.
Proof.
  intros Hr Hc Hm. unfold touching, surrounding. rewrite Hr, Hc.
  f_equal. apply filter_ext_elem. intros p Hp. apply Hm.
  apply list_elem_of_filter in Hp as [Hp _]. unfold in_bounds. lia.
Qed.

Lemma mine_at_set_digit b i j q :
  valid_board b → in_bounds b i j → in_bounds b q.1 q.2 → ¬ mine_at b (i, j) →
  mine_at (set_cell b i j (digit_cell b i j)) q ↔ mine_at b q.
Proof.
  intros Hv Hb Hq Hm. destruct q as [i' j']. simpl in Hq.
  pose proof Hb as [? ?]. pose proof Hq as [? ?]. unfold mine_at. simpl.
  destruct (decide ((i, j) = (i', j'))) as [Heq|Hne].
  - inversion Heq; subst. rewrite digit_cell_digit, value_at_set_cell_eq by done.
    destruct (digit_char_validX _ (touching_le_8 b i' j')) as [_ Hd]. tauto.
  - by rewrite value_at_set_cell_ne by (done || lia).
Qed.

(** The loops that update the digits: mines stay where they are, every
    other cell visited gets its count, cells not visited keep their
    content. *)
Lemma update_digits_loop cells :
  NoDup cells →
  ∀ b, valid_board b → Forall (λ p, in_bounds b p.1 p.2) cells →
    ∃ b2, for_each cells (λ ij, update_digit ij.1 ij.2) b = (Ok tt, b2)
      ∧ valid_board b2 ∧ rows b2 = rows b ∧ columns b2 = columns b
      ∧ (∀ p, in_bounds b p.1 p.2 → (mine_at b2 p ↔ mine_at b p))
      ∧ (∀ p, p ∈ cells → ¬ mine_at b p →
              cell_at b2 p.1 p.2 = Some (digit_cell b p.1 p.2))
      ∧ (∀ p, in_bounds b p.1 p.2 → p ∉ cells →
              cell_at b2 p.1 p.2 = cell_at b p.1 p.2).
Proof.
  induction 1 as [|p cells Hp Hnd IH]; intros b Hv Hin.
  - exists b. split_and!; try done. intros p Hp. by apply elem_of_nil in Hp.
  - apply Forall_cons in Hin as [Hpin Hin]. pose proof Hpin as [? ?].
    set (b' := if decide (mine_at b p) then b
               else set_cell b p.1 p.2 (digit_cell b p.1 p.2)).
    assert (Hb' : valid_board b' ∧ rows b' = rows b ∧ columns b' = columns b
                  ∧ (∀ q, in_bounds b q.1 q.2 → (mine_at b' q ↔ mine_at b q))
                  ∧ (¬ mine_at b p →
                       cell_at b' p.1 p.2 = Some (digit_cell b p.1 p.2))
                  ∧ (∀ q, in_bounds b q.1 q.2 → q ≠ p →
                          cell_at b' q.1 q.2 = cell_at b q.1 q.2)).
    { unfold b'. destruct (decide (mine_at b p)) as [Hm|Hm].
      - split_and!; done.
      - split_and!; try done.
        + apply valid_board_set_cell; [done|apply digit_cell_ok].
        + intros q Hq. by apply mine_at_set_digit.
        + intros _. by apply cell_at_set_cell_eq.
        + intros q [? ?] Hne. apply cell_at_set_cell_ne; try lia.
          destruct p, q. simpl. by intros Heq; apply Hne; rewrite Heq. }
    destruct Hb' as (Hv' & Hr' & Hc' & Hm' & Hp' & Hq').
    destruct (IH b' Hv') as (b2 & Hrun & Hv2 & Hr2 & Hc2 & Hm2 & Hd2 & Hk2).
    { eapply Forall_impl; [exact Hin|]. intros q Hq. unfold in_bounds.
      by rewrite Hr', Hc'. }
    assert (Hinb : ∀ q, in_bounds b q.1 q.2 → in_bounds b' q.1 q.2).
    { intros q Hq. unfold in_bounds. by rewrite Hr', Hc'. }
    exists b2. split_and!.
    + cbn [for_each]. unfold bind at 1.
      replace (p.1, p.2) with p in * by (by destruct p).
      rewrite update_digit_valid by done.
      replace (p.1, p.2) with p by (by destruct p). exact Hrun.
    + done.
    + by rewrite Hr2.
    + by rewrite Hc2.
    + intros q Hq. rewrite Hm2 by (by apply Hinb). by apply Hm'.
    + intros q Hq Hm. apply elem_of_cons in Hq as [->|Hq].
      * rewrite Hk2 by (done || by apply Hinb). by apply Hp'.
      * rewrite Hd2; [|done|].
        -- unfold digit_cell. by rewrite (touching_ext b b').
        -- rewrite Hm'; [done|]. rewrite Forall_forall in Hin. by apply Hin.
    + intros q Hq Hnot. apply not_elem_of_cons in Hnot as [Hne Hnot].
      rewrite Hk2 by (done || by apply Hinb). by apply Hq'.
Qed.

Lemma mine_cells_length b : valid_board b → length (mine_cells b) = mines_on b.
Proof.
  intros Hv. unfold mine_cells, mines_on. f_equal. apply filter_ext_elem.
  intros [i j] Hp%elem_of_grid_cells. unfold mine_at. simpl.
  by apply get_value_eq.
Qed.

Lemma neighbours_Permutation b i j : clockwise_neighbours b (i, j) ≡ₚ surrounding b i j.
Proof.
  apply NoDup_Permutation.
  - apply clockwise_neighbours_NoDup.
  - apply surrounding_NoDup.
  - intros [x y]. unfold clockwise_neighbours, surrounding, clockwise_offsets.
    rewrite !list_elem_of_filter. cbn [fmap list_fmap fst snd].
    rewrite !elem_of_cons, !elem_of_nil, !pair_equal_spec.
    unfold in_bounds. simpl. lia.
Qed.

Lemma adjacent_mines_touching b i j :
  valid_board b → adjacent_mines b i j = touching b i j.
Proof.
  intros Hv. unfold adjacent_mines, touching.
  rewrite <- (Permutation_length
    (filter_Permutation (mine_at b) _ _ (neighbours_Permutation b i j))).
  f_equal. apply filter_ext_elem. intros p Hp.
  apply list_elem_of_filter in Hp as [Hp _]. unfold mine_at.
  by apply get_value_eq.
Qed.

Lemma mines_on_start b : valid_board b → start_state b → mines_on b = 0%nat.
Proof.
  intros Hv Hstart. unfold mines_on.
  destruct (filter _ _) as [|[i j] l] eqn:Hfilter; [done|].
  assert (Hin : (i, j) ∈ filter (mine_at b) (grid_cells (rows b) (columns b))).
  { rewrite Hfilter. apply list_elem_of_here. }
  apply list_elem_of_filter in Hin as [Hm Hp%elem_of_grid_cells].
  destruct (Hstart i j Hp) as [Hval _]. apply get_value_eq in Hval; [|done|done].
  unfold mine_at in Hm. simpl in Hm. by rewrite Hval in Hm.
Qed.

Lemma check_start_state_Ok b :
  valid_board b → check_start_state b = Ok tt ↔ start_state b.
Proof.
  intros Hv. unfold check_start_state.
  rewrite check_start_loop by (done || by apply grid_cells_in_bounds).
  rewrite <- start_state_forallb by done. by destruct (forallb _ _).
Qed.

Lemma check_start_state_cases b :
  valid_board b →
  check_start_state b = Ok tt ∨ check_start_state b = Raise ScatterException.
Proof.
  intros Hv. unfold check_start_state.
  rewrite check_start_loop by (done || by apply grid_cells_in_bounds).
  destruct (forallb _ _); tauto.
Qed.

(** What a returning run of [put_mines] has checked and done. *)
Lemma put_mines_run b k tape b2 :
  valid_board b → put_mines k tape b = (Ok tt, b2) →
  1 ≤ k ≤ rows b * columns b - 1 ∧ start_state b
  ∧ valid_board b2 ∧ rows b2 = rows b ∧ columns b2 = columns b
  ∧ Z.of_nat (mines_on b2) = k
  ∧ (∀ i j, in_bounds b2 i j → ¬ mine_at b2 (i, j) →
            cell_at b2 i j = Some (digit_cell b2 i j)).
Proof.
  intros Hv Hrun. unfold put_mines in Hrun. cbv zeta in Hrun.
  destruct (bool_decide (k < 1) || bool_decide (rows b * columns b - 1 < k))
    eqn:Hrange; [done|].
  apply orb_false_elim in Hrange as [Hlo Hhi].
  apply bool_decide_eq_false in Hlo, Hhi.
  unfold bind at 1, query at 1 in Hrun.
  destruct (check_start_state_cases b Hv) as [Hchk|Hchk];
    rewrite Hchk in Hrun; [|done].
  apply check_start_state_Ok in Hchk; [|done].
  unfold bind at 1 in Hrun.
  destruct (place_mines_loop tape k 0 b) as [[[]|e|] b1] eqn:Hplace; try done.
  apply place_mines_loop_ok in Hplace as (Hv1 & Hr1 & Hc1 & Hcount); [|done|lia].
  rewrite (mines_on_start b) in Hcount by done.
  destruct (update_digits_loop (grid_cells (rows b) (columns b))
              (NoDup_grid_cells _ _) b1 Hv1)
    as (b2' & Hdigits & Hv2 & Hr2 & Hc2 & Hm2 & Hd2 & _).
  { rewrite <- Hr1, <- Hc1. apply grid_cells_in_bounds. }
  rewrite Hdigits in Hrun. simplify_eq.
  assert (Hin12 : ∀ i j, in_bounds b2 i j ↔ in_bounds b1 i j).
  { intros i j. unfold in_bounds. by rewrite Hr2, Hc2. }
  split_and!; [lia|lia|done|done|congruence|congruence| |].
  - assert (Hsame : mines_on b2 = mines_on b1).
    { unfold mines_on. rewrite Hr2, Hc2.
      f_equal. apply filter_ext_elem. intros [i j] Hp. apply Hm2.
      apply elem_of_grid_cells in Hp. done. }
    rewrite Hsame, Hcount. simpl. lia.
  - intros i j Hb Hm. apply Hin12 in Hb.
    pose proof (Hd2 (i, j)) as Hcell. simpl in Hcell. rewrite Hcell.
    + unfold digit_cell. by rewrite (touching_ext b1 b2).
    + apply elem_of_grid_cells. by rewrite <- Hr1, <- Hc1.
    + by rewrite <- (Hm2 (i, j)).
Qed.

(** C7. When [put_mines k] returns on a well-formed board in its start
    state, with [k] in the allowed range and whatever the random draws
    were, the board holds exactly [k] mines, on different cells, and every
    other cell holds the digit of the number of mines among its
    neighbours on the grid. *)
Theorem put_mines_spec (b : Board) (k : Z) (tape : list (Z * Z)) (b2 : Board) :
  valid_board b → start_state b → 1 ≤ k ≤ rows b * columns b - 1 →
  put_mines k tape b = (Ok tt, b2) →
  Z.of_nat (length (mine_cells b2)) = k
  ∧ NoDup (mine_cells b2)
  ∧ ∀ i j, in_bounds b2 i j → get_value b2 i j ≠ Ok "*"%char →
      (adjacent_mines b2 i j ≤ 8)%nat
      ∧ get_value b2 i j = Ok (digit_char (adjacent_mines b2 i j)).
Proof.
  intros Hv _ _ Hrun.
  apply put_mines_run in Hrun as (_ & _ & Hv2 & _ & _ & Hcount & Hdigits); [|done].
  split_and!.
  - by rewrite mine_cells_length.
  - apply NoDup_filter, NoDup_grid_cells.
  - intros i j Hb Hval. rewrite adjacent_mines_touching by done.
    split; [apply touching_le_8|].
    apply get_value_eq; [done|done|]. unfold value_at.
    rewrite Hdigits, digit_cell_digit; [done|done|].
    unfold mine_at. simpl. intros Hm. apply Hval. by apply get_value_eq.
Qed.

Lemma put_mines_spec_witness :
  valid_board empty_2x2 ∧ start_state empty_2x2
  ∧ 1 ≤ 1 ≤ rows empty_2x2 * columns empty_2x2 - 1
  ∧ put_mines 1 [(0, 1)] empty_2x2 = (Ok tt, one_mine_2x2)
  ∧ Z.of_nat (length (mine_cells one_mine_2x2)) = 1
  ∧ NoDup (mine_cells one_mine_2x2)
  ∧ ∀ i j, in_bounds one_mine_2x2 i j →
      get_value one_mine_2x2 i j ≠ Ok "*"%char →
      (adjacent_mines one_mine_2x2 i j ≤ 8)%nat
      ∧ get_value one_mine_2x2 i j
        = Ok (digit_char (adjacent_mines one_mine_2x2 i j)).
Proof.
  assert (Hk : 1 ≤ 1 ≤ rows empty_2x2 * columns empty_2x2 - 1) by (simpl; lia).
  assert (Hstart : start_state empty_2x2).
  { apply (start_state_forallb empty_2x2); reflexivity. }
  split; [reflexivity|]. split; [exact Hstart|]. split; [exact Hk|].
  split; [reflexivity|].
  apply (put_mines_spec empty_2x2 1 [(0, 1)] one_mine_2x2);
    [reflexivity|exact Hstart|exact Hk|reflexivity].
Defined.

Example Board_init_2x2 : Board_init 2 2 = Ok empty_2x2.
Proof. reflexivity. Qed.

Example put_mines_twice_draws :
  put_mines 2 [(0, 0); (0, 0); (1, 1)] empty_2x2
  = (Ok tt, {| rows := 2; columns := 2;
               board := [["*H"; "2H"]; ["2H"; "*H"]]%string |}).
Proof. reflexivity. Qed.

(** A run of [put_mines] does return for some draws: the cells of the
    grid, drawn one after the other, are enough. *)
Lemma place_mines_loop_returns tape k :
  NoDup tape →
  ∀ m b, valid_board b → Forall (λ p, in_bounds b p.1 p.2) tape →
    (∀ p, p ∈ tape → ¬ mine_at b p) → k - m ≤ Z.of_nat (length tape) →
    ∃ b1, place_mines_loop tape k m b = (Ok tt, b1).
Proof.
  induction 1 as [|p tape Hp Hnd IH]; intros m b Hv Hin Hfree Hlen.
  - simpl in *. rewrite bool_decide_eq_false_2 by lia. by eexists.
  - apply Forall_cons in Hin as [Hpin Hin]. pose proof Hpin as [? ?].
    cbn [place_mines_loop]. case_bool_decide; [|by eexists].
    unfold bind at 1, query. rewrite get_value_valid by done.
    assert (Hval : value_at b p.1 p.2 ≠ "*"%char).
    { apply (Hfree p), list_elem_of_here. }
    rewrite bool_decide_eq_false_2 by done.
    change (negb false) with true. cbv iota.
    unfold bind. rewrite board_setitem_valid by done.
    apply IH.
    + by apply valid_board_set_cell.
    + done.
    + intros q Hq. unfold mine_at.
      rewrite Forall_forall in Hin. destruct (Hin q Hq) as [? ?].
      rewrite value_at_set_cell_ne; [|lia|lia|lia|lia|].
      * apply Hfree. by apply list_elem_of_further.
      * destruct p, q. simpl. intros Heq. apply Hp. by rewrite Heq.
    + simpl in Hlen. lia.
Qed.

Lemma put_mines_returns b k :
  valid_board b → 1 ≤ rows b → 1 ≤ columns b → start_state b →
  1 ≤ k ≤ rows b * columns b - 1 →
  ∃ tape b2, put_mines k tape b = (Ok tt, b2).
Proof.
  intros Hv Hrows Hcols Hstart Hk. exists (grid_cells (rows b) (columns b)).
  destruct (place_mines_loop_returns (grid_cells (rows b) (columns b)) k
              (NoDup_grid_cells _ _) 0 b Hv) as [b1 Hplace].
  { apply grid_cells_in_bounds. }
  { intros [i j] Hp%elem_of_grid_cells. unfold mine_at. simpl.
    destruct (Hstart i j Hp) as [Hval _]. apply get_value_eq in Hval; [|done|done].
    by rewrite Hval. }
  { rewrite length_grid_cells, Nat2Z.inj_mul, !Z2Nat.id by lia. lia. }
  pose proof Hplace as (Hv1 & Hr1 & Hc1 & _)%place_mines_loop_ok; [|done|lia].
  destruct (update_digits_loop (grid_cells (rows b) (columns b))
              (NoDup_grid_cells _ _) b1 Hv1) as (b2 & Hdigits & _).
  { rewrite <- Hr1, <- Hc1. apply grid_cells_in_bounds. }
  exists b2. unfold put_mines. cbv zeta.
  rewrite !bool_decide_eq_false_2 by lia. simpl orb. cbv iota.
  unfold bind at 1, query at 1.
  rewrite (proj2 (check_start_state_Ok b Hv) Hstart).
  unfold bind at 1. by rewrite Hplace.
Qed.

(** C8. On a well-formed board [put_mines] raises the scatter exception,
    and leaves the board as it is, when the number of mines is below 1 or
    above rows*columns - 1 or when the board is not in its start state;
    so after a call that returned, every further call raises it. *)
Theorem put_mines_refuses (b : Board) :
  valid_board b →
  (∀ k tape,
     k < 1 ∨ rows b * columns b - 1 < k ∨ ¬ start_state b →
     put_mines k tape b = (Raise ScatterException, b))
  ∧ (∀ k tape b1,
       put_mines k tape b = (Ok tt, b1) →
       ∀ k' tape', put_mines k' tape' b1 = (Raise ScatterException, b1)).
Proof.
  intros Hv.
  assert (Hfirst : ∀ b, valid_board b → ∀ k tape,
    k < 1 ∨ rows b * columns b - 1 < k ∨ ¬ start_state b →
    put_mines k tape b = (Raise ScatterException, b)).
  { clear b Hv. intros b Hv k tape Hbad. unfold put_mines. cbv zeta.
    destruct (bool_decide (k < 1) || bool_decide (rows b * columns b - 1 < k))
      eqn:Hrange; [done|].
    apply orb_false_elim in Hrange as [Hlo Hhi].
    apply bool_decide_eq_false in Hlo, Hhi.
    destruct Hbad as [?|[?|Hns]]; [lia|lia|].
    unfold bind at 1, query at 1.
    destruct (check_start_state_cases b Hv) as [Hchk|Hchk]; rewrite Hchk; [|done].
    by apply check_start_state_Ok in Hchk. }
  split; [by apply Hfirst|].
  intros k tape b1 Hrun k' tape'.
  apply put_mines_run in Hrun as (Hk & _ & Hv1 & _ & _ & Hcount & _); [|done].
  apply Hfirst; [done|]. right; right. intros Hstart.
  rewrite mines_on_start in Hcount by done. simpl in Hcount. lia.
Qed.

Lemma put_mines_refuses_witness :
  valid_board empty_2x2
  ∧ (∀ k tape,
       k < 1 ∨ rows empty_2x2 * columns empty_2x2 - 1 < k
       ∨ ¬ start_state empty_2x2 →
       put_mines k tape empty_2x2 = (Raise ScatterException, empty_2x2))
  ∧ (∀ k tape b1,
       put_mines k tape empty_2x2 = (Ok tt, b1) →
       ∀ k' tape', put_mines k' tape' b1 = (Raise ScatterException, b1)).
Proof.
  split; [reflexivity|]. apply (put_mines_refuses empty_2x2). reflexivity.
Defined.

Example put_mines_second_call :
  put_mines 1 [(0, 1)] empty_2x2 = (Ok tt, one_mine_2x2)
  ∧ put_mines 1 [(1, 1)] one_mine_2x2 = (Raise ScatterException, one_mine_2x2)
  ∧ put_mines 4 [(0, 0)] empty_2x2 = (Raise ScatterException, empty_2x2)
  ∧ put_mines 0 [(0, 0)] empty_2x2 = (Raise ScatterException, empty_2x2).
Proof. repeat split. Qed.

(** ** Well-formed boards are the boards the program builds *)

Lemma Board_init_valid nr nc b :
  Board_init nr nc = Ok b →
  valid_board b ∧ start_state b ∧ rows b = nr ∧ columns b = nc
  ∧ 1 ≤ nr ≤ 20 ∧ 2 ≤ nc ≤ 50.
Proof.
  unfold Board_init. cbv zeta.
  destruct (bool_decide (nr < 1) || bool_decide (20 < nr)
            || bool_decide (nc < 2) || bool_decide (50 < nc)) eqn:Hsize; [done|].
  repeat (apply orb_false_elim in Hsize as [Hsize ?]).
  repeat match goal with H : bool_decide _ = false |- _ =>
    apply bool_decide_eq_false in H end.
  intros [= <-].
  set (b := {| rows := nr; columns := nc;
               board := (λ _, (λ _, "0H") <$> range nc) <$> range nr |}).
  assert (Hv : valid_board b).
  { apply valid_board_Forall. simpl. split.
    - unfold range. by rewrite length_fmap, length_seqZ.
    - apply Forall_fmap, Forall_forall. intros i _. simpl. split.
      + unfold range. by rewrite length_fmap, length_seqZ.
      + apply Forall_fmap, Forall_forall. by intros j _. }
  split_and!; [done| |done|done|lia|lia|lia|lia].
  intros i j Hb. pose proof Hb as [Hi Hj]. unfold b in Hi, Hj. simpl in Hi, Hj.
  assert (Hc : cell_at b i j = Some "0H").
  { unfold cell_at, b, range. simpl.
    rewrite list_lookup_fmap, lookup_seqZ_lt by lia. simpl.
    by rewrite list_lookup_fmap, lookup_seqZ_lt by lia. }
  rewrite get_value_valid, is_hidden_valid by done.
  unfold value_at, seen_at. by rewrite Hc.
Qed.

Lemma load_lines_Ok lines :
  ∀ nRows b n b',
    load_lines lines nRows b = (Ok n, b') →
    rows b' = rows b ∧ columns b' = columns b
    ∧ board b' = board b ++ omap line_row lines
    ∧ n = nRows + Z.of_nat (length (omap line_row lines))
    ∧ Forall (line_accepted (columns b)) lines.
Proof.
  induction lines as [|line lines IH]; intros nRows b n b' Hrun.
  - simpl in Hrun. unfold ret in Hrun. simplify_eq. simpl.
    rewrite app_nil_r. split_and!; try done. lia.
  - rewrite load_lines_cons in Hrun.
    cbn [omap list_omap]. rewrite Forall_cons. unfold line_accepted at 1.
    destruct (line_row line) as [row|].
    + destruct (forallb cell_ok row) eqn:Hcells; [|done]. simpl in Hrun.
      case_bool_decide as Hlen; [done|].
      apply IH in Hrun as (Hr & Hc & Hb & Hn & Hall). simpl in *.
      rewrite <- (assoc_L (++)) in Hb. split_and!; try done.
      unfold omap in *. lia.
    + apply IH in Hrun as (Hr & Hc & Hb & Hn & Hall). by split_and!.
Qed.

Lemma load_board_valid lines b b' :
  load_board lines b = (Ok tt, b') →
  valid_board b' ∧ rows b' = rows b ∧ columns b' = columns b.
Proof.
  unfold load_board, bind at 1, set_board. unfold bind at 1.
  destruct (load_lines lines 0 _) as [[n|e|] b1] eqn:Hrun; try done.
  apply load_lines_Ok in Hrun as (Hr & Hc & Hb & Hn & Hall). simpl in *.
  case_bool_decide; [done|]. unfold bind, query, ret.
  case_bool_decide as Hrows; [done|].
  intros [= <-]. split_and!; [|done|done].
  apply valid_board_Forall. rewrite Hb, Hc. split.
  - rewrite <- Hrows, Hn. unfold omap. lia.
  - clear Hb Hn. induction Hall as [|line lines Hline Hall IH]; [done|].
    cbn [omap list_omap]. unfold line_accepted in Hline.
    destruct (line_row line) as [row|]; [|done]. destruct Hline as [Hcells Hlen].
    apply Forall_cons. split; [|done]. split; [lia|].
    apply Forall_forall. intros cell Hcell. rewrite forallb_forall in Hcells.
    by apply Hcells, list_elem_of_In.
Qed.

(** * Further properties of the code *)

(** ** Neighbours and bounds *)

(** X1. The neighbours of a cell are exactly the cells of the grid at
    distance one from it, in a row, a column or a diagonal: never the cell
    itself, never a cell off the grid, no wrap-around at the edges.  So
    being a neighbour is symmetric between cells of the grid, and no cell
    is listed twice. *)
Theorem get_neighbours_spec (b : Board) (p q : Z * Z) :
  (q ∈ get_neighbours b p
   ↔ in_bounds b q.1 q.2 ∧ q ≠ p
     ∧ -1 ≤ q.1 - p.1 ≤ 1 ∧ -1 ≤ q.2 - p.2 ≤ 1)
  ∧ (in_bounds b p.1 p.2 → q ∈ get_neighbours b p → p ∈ get_neighbours b q)
  ∧ NoDup (get_neighbours b p)
  ∧ (length (get_neighbours b p) ≤ 8)%nat.
Proof.
  assert (Hchar : ∀ p q, q ∈ get_neighbours b p
    ↔ in_bounds b q.1 q.2 ∧ q ≠ p
      ∧ -1 ≤ q.1 - p.1 ≤ 1 ∧ -1 ≤ q.2 - p.2 ≤ 1).
  { clear p q. intros [r c] [x y]. unfold get_neighbours, in_bounds.
    rewrite list_elem_of_filter. cbn [fst snd].
    rewrite !elem_of_cons, elem_of_nil, !pair_equal_spec. lia. }
  split_and!.
  - apply Hchar.
  - intros Hp Hq. apply Hchar in Hq as (Hqb & Hne & Hr & Hc).
    apply Hchar. split_and!; [done|by intros ->|lia..].
  - rewrite get_neighbours_clockwise. apply clockwise_neighbours_NoDup.
  - unfold get_neighbours. etrans; [apply length_filter|]. done.
Qed.

(** X2. Indices off the grid, negative ones included, are refused with the
    illegal-indices exception by every accessor and by a move, whatever the
    board holds, and the board is left as it is. *)
Theorem off_grid_indices_refused (b : Board) (r c : Z) :
  ¬ in_bounds b r c →
  get_value b r c = Raise IllegalIndicesException
  ∧ is_hidden b r c = Raise IllegalIndicesException
  ∧ ripple_sequence b r c = Raise IllegalIndicesException
  ∧ uncover r c b = (Raise IllegalIndicesException, b)
  ∧ make_move r c b = (Raise IllegalIndicesException, b).
Proof.
  intros Hn. split_and!.
  - by apply get_value_out.
  - by apply is_hidden_out.
  - unfold ripple_sequence. by rewrite checkIndices_raise.
  - by apply uncover_out.
  - by apply make_move_out.
Qed.

Lemma off_grid_indices_refused_witness :
  ¬ in_bounds corner_3x3 (-1) 0
  ∧ get_value corner_3x3 (-1) 0 = Raise IllegalIndicesException
  ∧ is_hidden corner_3x3 (-1) 0 = Raise IllegalIndicesException
  ∧ ripple_sequence corner_3x3 (-1) 0 = Raise IllegalIndicesException
  ∧ uncover (-1) 0 corner_3x3 = (Raise IllegalIndicesException, corner_3x3)
  ∧ make_move (-1) 0 corner_3x3 = (Raise IllegalIndicesException, corner_3x3).
Proof.
  assert (Hn : ¬ in_bounds corner_3x3 (-1) 0) by (unfold in_bounds; simpl; lia).
  split; [exact Hn|]. apply (off_grid_indices_refused corner_3x3 (-1) 0 Hn).
Defined.

(** ** Construction *)

(** X3. The constructor accepts exactly the sizes from 1x2 to 20x50; the
    board it builds has these dimensions, every cell is "0H", and the game
    on it is not started.  Every other size raises the size exception. *)
Theorem Board_init_spec (nr nc : Z) :
  (1 ≤ nr ≤ 20 ∧ 2 ≤ nc ≤ 50 →
     ∃ b, Board_init nr nc = Ok b ∧ rows b = nr ∧ columns b = nc
       ∧ valid_board b
       ∧ (∀ i j, in_bounds b i j → board_item b i j = Ok "0H"%string)
       ∧ get_status b = Ok NotStarted)
  ∧ (¬ (1 ≤ nr ≤ 20 ∧ 2 ≤ nc ≤ 50) →
     Board_init nr nc = Raise SizeOutOfBoundException).
Proof.
  split.
  - intros [Hr Hc].
    destruct (Board_init nr nc) as [b|e|] eqn:Hinit.
    + destruct (Board_init_valid nr nc b Hinit) as (Hv & Hstart & Hrows & Hcols & _).
      exists b. split_and!; try done.
      * intros i j Hb. pose proof Hb as [? ?].
        destruct (valid_board_cell b i j Hv Hb) as (x & y & Hcell & _).
        rewrite (board_item_lookup b i j _ ltac:(lia) ltac:(lia) Hcell).
        destruct (Hstart i j Hb) as [Hval Hhid].
        apply get_value_eq in Hval; [|done|done].
        apply is_hidden_H in Hhid; [|done|done].
        unfold value_at, seen_at in *. rewrite Hcell in Hval, Hhid.
        apply bool_decide_eq_false in Hhid. apply dec_stable in Hhid.
        by subst.
      * rewrite get_status_views by done.
        assert (Hno : no_cell_revealed b) by (intros i j Hb; by apply Hstart).
        assert (Hnm : ¬ mine_revealed b).
        { intros (i & j & Hb & _ & Hs). rewrite (Hno i j Hb) in Hs. done. }
        apply seen_cell_grid in Hno; [|done].
        rewrite <- lost_cell_grid in Hnm by done.
        apply not_true_is_false in Hnm. by rewrite Hnm, Hno.
    + exfalso. revert Hinit. unfold Board_init. cbv zeta.
      rewrite !bool_decide_eq_false_2 by lia. done.
    + exfalso. revert Hinit. unfold Board_init. cbv zeta.
      rewrite !bool_decide_eq_false_2 by lia. done.
  - intros Hn. unfold Board_init. cbv zeta.
    repeat case_bool_decide; simpl; try done. lia.
Qed.

(** ** Uncovering and moving *)

(** X4. A call of [uncover] that returns was made on a hidden cell of the
    grid; it makes this one cell seen and changes nothing else: no value,
    no other cell's visibility, not the dimensions.  Uncovering the same
    cell again raises the illegal-move exception. *)
Theorem uncover_frame (b : Board) (r c : Z) (b' : Board) :
  valid_board b → uncover r c b = (Ok tt, b') →
  valid_board b' ∧ rows b' = rows b ∧ columns b' = columns b
  ∧ in_bounds b r c
  ∧ is_hidden b r c = Ok "H"%char ∧ is_hidden b' r c = Ok "S"%char
  ∧ (∀ i j, in_bounds b i j →
       get_value b' i j = get_value b i j
       ∧ ((i, j) ≠ (r, c) → is_hidden b' i j = is_hidden b i j))
  ∧ uncover r c b' = (Raise IllegalMoveException, b').
Proof.
  intros Hv Hrun.
  destruct (decide (in_bounds b r c)) as [Hb|Hb]; [|by rewrite uncover_out in Hrun].
  destruct (seen_at b r c) eqn:Hs; [by rewrite uncover_seen in Hrun|].
  rewrite uncover_hidden in Hrun by done. simplify_eq.
  pose proof (valid_board_reveal b Hv r c Hb) as Hv'.
  split_and!; try done.
  - by apply is_hidden_H.
  - apply is_hidden_S; [done|done|]. by apply seen_at_reveal_eq.
  - intros i j Hij. pose proof Hij as [? ?].
    rewrite !get_value_valid, !is_hidden_valid by done.
    rewrite value_at_reveal by (done || lia). split; [done|].
    intros Hne. rewrite seen_at_reveal_ne; [done|done|lia|lia|].
    by intros Heq; apply Hne.
  - apply uncover_seen; [done|done|]. by apply seen_at_reveal_eq.
Qed.

Lemma uncover_frame_witness :
  valid_board corner_3x3
  ∧ uncover 1 1 corner_3x3 = (Ok tt, reveal corner_3x3 1 1)
  ∧ uncover 1 1 (reveal corner_3x3 1 1)
    = (Raise IllegalMoveException, reveal corner_3x3 1 1).
Proof.
  split; [reflexivity|]. split; [reflexivity|].
  apply (uncover_frame corner_3x3 1 1 (reveal corner_3x3 1 1));
    reflexivity.
Defined.

(** X5. Whatever [make_move] does, it returns or raises, the board it
    leaves is well-formed with the same dimensions, no cell has changed
    its value, and every cell that was seen is still seen. *)
Theorem make_move_monotone (b : Board) (r c : Z) :
  valid_board b →
  valid_board (make_move r c b).2
  ∧ rows (make_move r c b).2 = rows b
  ∧ columns (make_move r c b).2 = columns b
  ∧ ∀ i j, in_bounds b i j →
      get_value (make_move r c b).2 i j = get_value b i j
      ∧ (is_hidden b i j = Ok "S"%char →
         is_hidden (make_move r c b).2 i j = Ok "S"%char).
Proof.
  intros Hv. destruct (make_move_board b Hv r c) as (cells & Hin & ->).
  pose proof (valid_board_reveal_all b cells Hv Hin) as Hv'.
  split_and!.
  - done.
  - apply reveal_all_rows.
  - apply reveal_all_columns.
  - intros i j Hb. pose proof Hb as [? ?].
    assert (Hb' : in_bounds (reveal_all b cells) i j)
      by (by apply in_bounds_reveal_all).
    rewrite !get_value_valid by done.
    rewrite value_at_reveal_all by (done || lia). split; [done|].
    rewrite !is_hidden_S by done. intros Hs.
    apply seen_at_reveal_all; [done|done|lia|lia|by left].
Qed.

Lemma make_move_monotone_witness :
  valid_board corner_3x3
  ∧ rows (make_move 2 2 corner_3x3).2 = rows corner_3x3
  ∧ valid_board (make_move 2 2 corner_3x3).2.
Proof.
  split; [reflexivity|]. split.
  - apply (make_move_monotone corner_3x3 2 2). reflexivity.
  - apply (make_move_monotone corner_3x3 2 2). reflexivity.
Defined.

(** X6. A move that returns has uncovered the chosen cell and returns its
    value, so after it the game is no longer in the not-started status. *)
Theorem make_move_starts_game (b : Board) (r c : Z) (v : ascii) (b' : Board) :
  valid_board b → make_move r c b = (Ok v, b') →
  in_bounds b r c ∧ is_hidden b r c = Ok "H"%char
  ∧ get_value b r c = Ok v
  ∧ is_hidden b' r c = Ok "S"%char
  ∧ get_status b' ≠ Ok NotStarted.
Proof.
  intros Hv Hrun.
  destruct (decide (in_bounds b r c)) as [Hb|Hb]; [|by rewrite make_move_out in Hrun].
  destruct (seen_at b r c) eqn:Hs; [by rewrite make_move_seen in Hrun|].
  pose proof Hb as [? ?].
  assert (Hres : ∃ cells, Forall (λ p, in_bounds b p.1 p.2) cells
                   ∧ b' = reveal_all b ((r, c) :: cells) ∧ v = value_at b r c).
  { destruct (decide (value_at b r c = "0"%char)) as [Hval|Hval].
    - destruct (make_move_zero b Hv r c Hb Hs Hval) as (seq & _ & Hin & _ & Hmove).
      rewrite Hmove in Hrun. simplify_eq. exists seq. by rewrite Hval.
    - rewrite make_move_count in Hrun by done. simplify_eq. by exists []. }
  destruct Hres as (cells & Hin & -> & ->).
  assert (Hall : Forall (λ p, in_bounds b p.1 p.2) ((r, c) :: cells))
    by (by apply Forall_cons).
  pose proof (valid_board_reveal_all b _ Hv Hall) as Hv'.
  assert (Hseen : is_hidden (reveal_all b ((r, c) :: cells)) r c = Ok "S"%char).
  { apply is_hidden_S; [done|by apply in_bounds_reveal_all|].
    apply seen_at_reveal_all; [done|done|lia|lia|]. right. apply list_elem_of_here. }
  split_and!; [done|by apply is_hidden_H|by apply get_value_valid|done|].
  intros Hst.
  pose proof (get_status_views _ Hv') as Hviews. rewrite Hst in Hviews.
  destruct (existsb (lost_cell _) _); [done|].
  destruct (existsb (seen_cell _) _) eqn:Hany.
  - unfold status_of_flags in Hviews. simpl in Hviews.
    by destruct (existsb (covered_safe_cell _) _).
  - apply seen_cell_grid in Hany; [|done].
    rewrite (Hany r c) in Hseen; [done|by apply in_bounds_reveal_all].
Qed.

Lemma make_move_starts_game_witness :
  valid_board corner_3x3
  ∧ make_move 1 1 corner_3x3 = (Ok "1"%char, reveal corner_3x3 1 1)
  ∧ get_status (reveal corner_3x3 1 1) ≠ Ok NotStarted.
Proof.
  split; [reflexivity|]. split; [reflexivity|].
  apply (make_move_starts_game corner_3x3 1 1 "1"%char (reveal corner_3x3 1 1));
    reflexivity.
Defined.

(** ** The ripple sequence *)

(** X7. Every cell of a ripple sequence is a hidden cell of the grid other
    than the start cell, so there are fewer of them than cells on the
    board and uncovering them one after the other cannot fail. *)
Theorem ripple_sequence_cells_hidden (b : Board) (r c : Z) (seq : list (Z * Z)) :
  valid_board b → ripple_sequence b r c = Ok seq →
  in_bounds b r c ∧ ((r, c) ∉ seq)
  ∧ Forall (λ p, in_bounds b p.1 p.2 ∧ is_hidden b p.1 p.2 = Ok "H"%char) seq
  ∧ Z.of_nat (length seq) < rows b * columns b
  ∧ ∃ b', for_each seq (λ xy, uncover xy.1 xy.2) b = (Ok tt, b').
Proof.
  intros Hv Hrun.
  destruct (decide (in_bounds b r c)) as [Hb|Hb];
    [|unfold ripple_sequence in Hrun; by rewrite checkIndices_raise in Hrun].
  destruct (ripple_sequence_cells b r c Hv Hb) as (seq' & Hrun' & Hnd & Hstart & Hall).
  rewrite Hrun in Hrun'. simplify_eq.
  split_and!; [done|done| | |].
  - eapply Forall_impl; [exact Hall|]. intros p [Hp Hs]. split; [done|].
    by apply is_hidden_H.
  - assert (Hlen : (length ((r, c) :: seq') ≤ length (grid_cells (rows b) (columns b)))%nat).
    { apply submseteq_length, NoDup_submseteq; [by apply NoDup_cons|].
      intros [i j] [->|Hp]%elem_of_cons; apply elem_of_grid_cells; [done|].
      rewrite Forall_forall in Hall. by apply (Hall (i, j)). }
    rewrite length_grid_cells in Hlen. simpl in Hlen. destruct Hb as [? ?].
    rewrite <- (Z2Nat.id (rows b)), <- (Z2Nat.id (columns b)) by lia.
    rewrite <- Nat2Z.inj_mul. lia.
  - destruct (uncover_each b seq' Hv Hnd Hall) as [Hfor _]. eauto.
Qed.

Lemma ripple_sequence_cells_hidden_witness :
  valid_board corner_3x3
  ∧ ripple_sequence corner_3x3 2 2
    = Ok [(1, 2); (2, 1); (1, 1); (0, 2); (0, 1); (2, 0); (1, 0)]
  ∧ ((2, 2) ∉ [(1, 2); (2, 1); (1, 1); (0, 2); (0, 1); (2, 0); (1, 0)]).
Proof.
  split; [reflexivity|]. split; [reflexivity|].
  apply (ripple_sequence_cells_hidden corner_3x3 2 2); reflexivity.
Defined.

Lemma cascade_rtc_invariant b (I : list (Z * Z) * list (Z * Z) → Prop) s s' :
  (∀ s1 s2, I s1 → cascade_step b s1 s2 → I s2) →
  rtc (cascade_step b) s s' → I s → I s'.
Proof.
  intros Hstep Hrtc. induction Hrtc as [|s s1 s2 Hs _ IH]; [done|].
  intros HI. by eapply IH, Hstep.
Qed.

Lemma cascade_reaches_only b start s s' :
  rtc (cascade_step b) s s' →
  (∀ x, x ∈ s.1 ++ s.2 → rtc (ripples_to b) start x) →
  ∀ x, x ∈ s'.1 ++ s'.2 → rtc (ripples_to b) start x.
Proof.
  apply (cascade_rtc_invariant b
    (λ s, ∀ x, x ∈ s.1 ++ s.2 → rtc (ripples_to b) start x)).
  clear s s'. intros s1 s2 HI Hstep.
  inversion Hstep as [cell v q Hval|cell v q Hval]; subst; simpl in *.
  - intros x Hx. rewrite (assoc_L (++)) in Hx.
    apply elem_of_app in Hx as [Hx|Hx].
    + apply HI. by rewrite <- (assoc_L (++)) in Hx.
    + apply list_elem_of_filter in Hx as [(Hh & _) Hn].
      eapply rtc_r.
      * apply (HI cell). apply elem_of_app. right. apply list_elem_of_here.
      * split_and!; [done| |done]. by rewrite get_neighbours_clockwise.
  - intros x Hx. apply HI. by rewrite <- (assoc_L (++)) in Hx.
Qed.

Lemma cascade_closes b s s' :
  rtc (cascade_step b) s s' →
  (∀ x y, x ∈ s.1 → ripples_to b x y → y ∈ s.1 ++ s.2) →
  ∀ x y, x ∈ s'.1 → ripples_to b x y → y ∈ s'.1 ++ s'.2.
Proof.
  apply (cascade_rtc_invariant b
    (λ s, ∀ x y, x ∈ s.1 → ripples_to b x y → y ∈ s.1 ++ s.2)).
  clear s s'. intros s1 s2 HI Hstep.
  inversion Hstep as [cell v q Hval|cell v q Hval]; subst; simpl in *.
  - intros x y Hx Hxy. apply elem_of_app in Hx as [Hx|Hx].
    + specialize (HI x y Hx Hxy). rewrite (assoc_L (++)).
      apply elem_of_app. left. by rewrite <- (assoc_L (++)).
    + apply list_elem_of_singleton in Hx as ->.
      destruct Hxy as (_ & Hn & Hh).
      destruct (decide (y ∈ v ++ [cell])) as [Hv|Hv];
        [apply elem_of_app; by left|].
      destruct (decide (y ∈ q)) as [Hq|Hq];
        [apply elem_of_app; right; apply elem_of_app; by left|].
      apply elem_of_app. right. apply elem_of_app. right.
      apply list_elem_of_filter. split; [done|].
      by rewrite <- get_neighbours_clockwise.
  - intros x y Hx Hxy. apply elem_of_app in Hx as [Hx|Hx].
    + specialize (HI x y Hx Hxy). by rewrite <- (assoc_L (++)).
    + apply list_elem_of_singleton in Hx as ->. by destruct Hxy as (Hz & _).
Qed.

(** X8. The ripple sequence is a flood fill: a cell is in it exactly when
    it is not the start cell and the ripple can reach it from the start
    cell, going from a cell that holds '0' to a hidden neighbour at every
    step. *)
Theorem ripple_sequence_flood (b : Board) (r c : Z) (seq : list (Z * Z)) :
  valid_board b → ripple_sequence b r c = Ok seq →
  ∀ q, q ∈ seq ↔ q ≠ (r, c) ∧ rtc (ripples_to b) (r, c) q.
Proof.
  intros Hv Hrun.
  destruct (decide (in_bounds b r c)) as [Hb|Hb];
    [|unfold ripple_sequence in Hrun; by rewrite checkIndices_raise in Hrun].
  destruct (ripple_sequence_runs b r c Hv Hb) as (visited & Hrun' & Hrtc & Hnd).
  rewrite Hrun in Hrun'. simplify_eq.
  destruct (cascade_visits_start_first _ _ _ Hrtc) as [rest ->].
  apply NoDup_cons in Hnd as [Hstart _]. simpl.
  pose proof (cascade_reaches_only b (r, c) _ _ Hrtc) as Hsound.
  pose proof (cascade_closes b _ _ Hrtc) as Hclosed. simpl in *.
  rewrite app_nil_r in Hsound.
  assert (Hsound' : ∀ x, x ∈ (r, c) :: rest → rtc (ripples_to b) (r, c) x).
  { apply Hsound. intros x ->%list_elem_of_singleton. done. }
  assert (Hclosed' : ∀ x y, x ∈ (r, c) :: rest → ripples_to b x y →
                            y ∈ (r, c) :: rest).
  { intros x y Hx Hxy. specialize (Hclosed ltac:(by intros ? ? ?%elem_of_nil) x y Hx Hxy).
    by rewrite app_nil_r in Hclosed. }
  intros q. split.
  - intros Hq. split; [by intros ->|]. apply Hsound'. by apply list_elem_of_further.
  - intros [Hne Hreach].
    assert (Hin : q ∈ (r, c) :: rest).
    { clear Hne. revert q Hreach. apply rtc_ind_r; [apply list_elem_of_here|].
      intros y z _ Hyz Hy. by eapply Hclosed'. }
    by apply elem_of_cons in Hin as [->|Hin].
Qed.

Lemma ripple_sequence_flood_witness :
  valid_board corner_3x3
  ∧ ripple_sequence corner_3x3 2 2
    = Ok [(1, 2); (2, 1); (1, 1); (0, 2); (0, 1); (2, 0); (1, 0)]
  ∧ ∀ q, q ∈ [(1, 2); (2, 1); (1, 1); (0, 2); (0, 1); (2, 0); (1, 0)]
         ↔ q ≠ (2, 2) ∧ rtc (ripples_to corner_3x3) (2, 2) q.
Proof.
  split; [reflexivity|]. split; [reflexivity|].
  apply (ripple_sequence_flood corner_3x3 2 2); reflexivity.
Defined.

(** ** Loading *)

Lemma load_lines_skip_blank lines :
  ∀ nRows b,
    load_lines (filter (λ l, String.length (strip l) ≠ 0%nat) lines) nRows b
    = load_lines lines nRows b.
Proof.
  induction lines as [|line lines IH]; intros nRows b; [done|].
  rewrite filter_cons. rewrite (load_lines_cons line lines).
  unfold line_row at 1. case_decide as Hblank.
  - rewrite bool_decide_eq_false_2 by done. rewrite load_lines_cons.
    unfold line_row. rewrite bool_decide_eq_false_2 by done.
    destruct (negb _); [done|]. case_bool_decide; [done|]. apply IH.
  - rewrite bool_decide_eq_true_2 by done. apply IH.
Qed.

(** X9. Lines that are empty or hold only whitespace play no part in
    loading: with or without them, wherever they stand, [load_board] gives
    the same outcome and leaves the same board. *)
Theorem load_board_ignores_blank_lines (lines : list string) (b : Board) :
  load_board (filter (λ l, String.length (strip l) ≠ 0%nat) lines) b
  = load_board lines b.
Proof.
  unfold load_board, bind at 1 3, set_board. unfold bind at 1 2.
  by rewrite load_lines_skip_blank.
Qed.

(** X10. [load_board] returns exactly when every line that is not blank
    splits on single spaces into as many cells as the board has columns,
    each two characters from "012345678*" and "HS", and there are as many
    such lines as the board has rows, at least one.  The board then holds
    these rows in order, whatever it held before. *)
Theorem load_board_accepts (lines : list string) (b b' : Board) :
  load_board lines b = (Ok tt, b')
  ↔ Forall (line_accepted (columns b)) lines
    ∧ Z.of_nat (length (omap line_row lines)) = rows b
    ∧ rows b ≠ 0
    ∧ b' = {| rows := rows b; columns := columns b;
              board := omap line_row lines |}.
Proof.
  unfold load_board, bind at 1, set_board. unfold bind at 1. split.
  - destruct (load_lines lines 0 _) as [[n|e|] b1] eqn:Hrun; try done.
    apply load_lines_Ok in Hrun as (Hr & Hc & Hb & Hn & Hall). simpl in *.
    case_bool_decide as Hzero; [done|]. unfold bind, query, ret.
    case_bool_decide as Hrows; [done|]. intros [= <-].
    split_and!; [done| | |].
    + rewrite <- Hr, <- Hrows, Hn. unfold omap. lia.
    + by rewrite <- Hr, <- Hrows.
    + destruct b1. simpl in *. by subst.
  - intros (Hall & Hlen & Hne & ->).
    rewrite load_lines_accepted by done. simpl.
    rewrite bool_decide_eq_false_2 by (unfold omap in *; lia).
    unfold bind, query, ret. cbn [rows].
    by rewrite bool_decide_eq_false_2 by (unfold omap in *; lia).
Qed.

(** The loop over the lines either reads them all, or stops at the first
    line that is not accepted, with the rows read before it. *)
Lemma load_lines_outcome lines :
  ∀ nRows b,
    (Forall (line_accepted (columns b)) lines
     ∧ load_lines lines nRows b
       = (Ok (nRows + Z.of_nat (length (omap line_row lines))),
          {| rows := rows b; columns := columns b;
             board := board b ++ omap line_row lines |}))
    ∨ ∃ pre bad row post,
        lines = pre ++ bad :: post
        ∧ Forall (line_accepted (columns b)) pre
        ∧ line_row bad = Some row
        ∧ ∃ e,
            load_lines lines nRows b
            = (Raise e, {| rows := rows b; columns := columns b;
                           board := board b ++ omap line_row pre |})
            ∧ (forallb cell_ok row = false ∧ e = BoardFormatException
               ∨ forallb cell_ok row = true
                 ∧ Z.of_nat (length row) ≠ columns b
                 ∧ e = DimensionsMismatchException).
Proof.
  induction lines as [|line lines IH]; intros nRows b.
  - left. split; [done|]. by apply load_lines_accepted.
  - rewrite load_lines_cons.
    destruct (line_row line) as [row|] eqn:Hrow.
    + destruct (forallb cell_ok row) eqn:Hcells; simpl.
      * case_bool_decide as Hlen.
        -- right. exists [], line, row, lines. split_and!; [done|done|done|].
           exists DimensionsMismatchException. simpl. rewrite app_nil_r.
           split; [by destruct b|]. by right.
        -- destruct (IH (nRows + 1)
                       {| rows := rows b; columns := columns b;
                          board := board b ++ [row] |})
             as [[Hall Hrun]|(pre & bad & row' & post & -> & Hpre & Hbad
                              & e & Hrun & He)]; simpl in *.
           ++ left. split.
              ** apply Forall_cons. split; [|done].
                 unfold line_accepted. by rewrite Hrow.
              ** rewrite Hrun. cbn [omap list_omap]. rewrite Hrow. simpl.
                 rewrite <- (assoc_L (++)). simpl.
                 unfold omap. do 2 f_equal. lia.
           ++ right. exists (line :: pre), bad, row', post.
              split_and!; [done| |done|].
              ** apply Forall_cons. split; [|done].
                 unfold line_accepted. by rewrite Hrow.
              ** exists e. split; [|done]. rewrite Hrun.
                 cbn [omap list_omap]. rewrite Hrow.
                 by rewrite <- (assoc_L (++)).
      * right. exists [], line, row, lines. split_and!; [done|done|done|].
        exists BoardFormatException. simpl. rewrite app_nil_r.
        split; [by destruct b|]. by left.
    + destruct (IH nRows b)
        as [[Hall Hrun]|(pre & bad & row' & post & -> & Hpre & Hbad
                         & e & Hrun & He)].
      * left. split.
        -- apply Forall_cons. split; [|done].
           unfold line_accepted. by rewrite Hrow.
        -- rewrite Hrun. cbn [omap list_omap]. by rewrite Hrow.
      * right. exists (line :: pre), bad, row', post.
        split_and!; [done| |done|].
        -- apply Forall_cons. split; [|done].
           unfold line_accepted. by rewrite Hrow.
        -- exists e. split; [|done]. rewrite Hrun.
           cbn [omap list_omap]. by rewrite Hrow.
Qed.

(** X11. [load_board] returns or raises one of its two exceptions, the
    format exception or the dimensions exception, and nothing else.  The
    dimensions of the board are kept, but what the board held before is
    always discarded.  When every line is accepted the board holds the
    rows of all the lines, and the number of rows decides: the format
    exception for none, the dimensions exception for a number other than
    [rows], and a normal return otherwise.  When some line is not accepted,
    the board holds exactly the rows of the lines before the first such
    line, and the exception is that of this line: the format exception for
    a bad cell, the dimensions exception for a width other than
    [columns]. *)
Theorem load_board_outcome (lines : list string) (b : Board) :
  ∃ o b', load_board lines b = (o, b')
    ∧ (o = Ok tt ∨ o = Raise BoardFormatException
       ∨ o = Raise DimensionsMismatchException)
    ∧ rows b' = rows b ∧ columns b' = columns b
    ∧ (Forall (line_accepted (columns b)) lines
       ∧ board b' = omap line_row lines
       ∧ o = (if bool_decide (length (omap line_row lines) = 0%nat)
              then Raise BoardFormatException
              else if bool_decide
                        (Z.of_nat (length (omap line_row lines)) ≠ rows b)
                   then Raise DimensionsMismatchException
                   else Ok tt)
       ∨ ∃ pre bad row post,
           lines = pre ++ bad :: post
           ∧ Forall (line_accepted (columns b)) pre
           ∧ line_row bad = Some row
           ∧ board b' = omap line_row pre
           ∧ (forallb cell_ok row = false ∧ o = Raise BoardFormatException
              ∨ forallb cell_ok row = true
                ∧ Z.of_nat (length row) ≠ columns b
                ∧ o = Raise DimensionsMismatchException)).
Proof.
  unfold load_board, bind at 1, set_board. unfold bind at 1.
  destruct (load_lines_outcome lines 0
              {| rows := rows b; columns := columns b; board := [] |})
    as [[Hall Hrun]|(pre & bad & row & post & Hlines & Hpre & Hbad
                     & e & Hrun & He)]; rewrite Hrun; simpl in *.
  - case_bool_decide as Hnone.
    + eexists _, _. split; [done|].
      split_and!; [by right; left|done|done|]. left.
      split_and!; [done|done|]. by rewrite bool_decide_eq_true_2 by lia.
    + unfold bind, query, ret. cbn [rows]. case_bool_decide as Hcount.
      * eexists _, _. split; [done|].
        split_and!; [by right; right|done|done|]. left.
        split_and!; [done|done|]. rewrite bool_decide_eq_false_2 by lia.
        by rewrite bool_decide_eq_true_2 by lia.
      * eexists _, _. split; [done|].
        split_and!; [by left|done|done|]. left.
        split_and!; [done|done|]. rewrite bool_decide_eq_false_2 by lia.
        by rewrite bool_decide_eq_false_2 by lia.
  - eexists _, _. split; [done|].
    split_and!; [|done|done|].
    + destruct He as [[_ ->]|(_ & _ & ->)]; [by right; left|by right; right].
    + right. exists pre, bad, row, post.
      split_and!; [done|done|done|done|].
      destruct He as [[? ->]|(? & ? & ->)]; [by left|by right].
Qed.

(** X12. When the lines hold no row at all, none or only blank ones,
    [load_board] raises the format exception, whatever the dimensions, and
    the board is left without rows. *)
Theorem load_board_no_rows (lines : list string) (b : Board) :
  Forall (λ l, String.length (strip l) = 0%nat) lines →
  load_board lines b
  = (Raise BoardFormatException,
     {| rows := rows b; columns := columns b; board := [] |}).
Proof.
  intros Hblank.
  assert (Hrows : omap line_row lines = []).
  { induction Hblank as [|l lines Hl _ IH]; [done|].
    cbn [omap list_omap]. unfold line_row at 1.
    by rewrite bool_decide_eq_true_2 by done. }
  unfold load_board, bind at 1, set_board. unfold bind at 1.
  rewrite load_lines_accepted.
  - simpl. by rewrite Hrows.
  - simpl. eapply Forall_impl; [exact Hblank|]. intros l Hl.
    unfold line_accepted, line_row. by rewrite bool_decide_eq_true_2 by done.
Qed.

Lemma load_board_no_rows_witness :
  Forall (λ l, String.length (strip l) = 0%nat) [" "; newline]
  ∧ load_board [" "; newline] corner_3x3
  = (Raise BoardFormatException,
     {| rows := 3; columns := 3; board := [] |}).
Proof.
  assert (Hblank : Forall (λ l, String.length (strip l) = 0%nat) [" "; newline]).
  { repeat constructor. }
  split; [exact Hblank|]. apply (load_board_no_rows [" "; newline] corner_3x3 Hblank).
Defined.

(** ** After the mines are scattered *)

Lemma all_hidden_set_cell b i j x :
  valid_board b → in_bounds b i j → all_hidden b →
  all_hidden (set_cell b i j (String x "H")).
Proof.
  intros Hv Hb Hall i' j' Hb'. pose proof Hb as [? ?]. pose proof Hb' as [? ?].
  destruct (decide ((i, j) = (i', j'))) as [Heq|Hne].
  - inversion Heq; subst. unfold seen_at. by rewrite cell_at_set_cell_eq.
  - rewrite seen_at_set_cell_ne by (done || lia). by apply Hall.
Qed.

Lemma place_mines_loop_hidden tape k :
  ∀ m b b1,
    valid_board b → all_hidden b →
    place_mines_loop tape k m b = (Ok tt, b1) → all_hidden b1.
Proof.
  induction tape as [|ij tape IH]; intros m b b1 Hv Hall Hrun; simpl in Hrun.
  - case_bool_decide; [done|]. unfold ret in Hrun. by simplify_eq.
  - case_bool_decide as Hlt; [|unfold ret in Hrun; by simplify_eq].
    unfold bind at 1, query in Hrun.
    destruct (decide (in_bounds b ij.1 ij.2)) as [Hb|Hb];
      [|by rewrite get_value_out in Hrun].
    rewrite get_value_valid in Hrun by done.
    destruct (decide (value_at b ij.1 ij.2 = "*"%char)) as [Hval|Hval].
    + rewrite bool_decide_eq_true_2 in Hrun by done. simpl in Hrun.
      by eapply IH.
    + rewrite bool_decide_eq_false_2 in Hrun by done. simpl in Hrun.
      unfold bind in Hrun. rewrite board_setitem_valid in Hrun by done.
      eapply IH; [| |exact Hrun].
      * by apply valid_board_set_cell.
      * by apply all_hidden_set_cell.
Qed.

Lemma update_digits_hidden cells :
  ∀ b b2,
    valid_board b → Forall (λ p, in_bounds b p.1 p.2) cells → all_hidden b →
    for_each cells (λ ij, update_digit ij.1 ij.2) b = (Ok tt, b2) →
    all_hidden b2.
Proof.
  induction cells as [|p cells IH]; intros b b2 Hv Hin Hall Hrun.
  - simpl in Hrun. unfold ret in Hrun. by simplify_eq.
  - apply Forall_cons in Hin as [Hp Hin]. cbn [for_each] in Hrun.
    unfold bind at 1 in Hrun. rewrite update_digit_valid in Hrun by done.
    case_decide as Hm; [by eapply IH|].
    eapply IH; [| | |exact Hrun].
    + apply valid_board_set_cell; [done|apply digit_cell_ok].
    + done.
    + rewrite digit_cell_digit. by apply all_hidden_set_cell.
Qed.

Lemma put_mines_stages b k tape b2 :
  valid_board b → put_mines k tape b = (Ok tt, b2) →
  ∃ b1, start_state b
    ∧ place_mines_loop tape k 0 b = (Ok tt, b1)
    ∧ for_each (grid_cells (rows b) (columns b))
               (λ ij, update_digit ij.1 ij.2) b1 = (Ok tt, b2).
Proof.
  intros Hv Hrun. unfold put_mines in Hrun. cbv zeta in Hrun.
  destruct (bool_decide (k < 1) || bool_decide (rows b * columns b - 1 < k));
    [done|].
  unfold bind at 1, query at 1 in Hrun.
  destruct (check_start_state_cases b Hv) as [Hchk|Hchk];
    rewrite Hchk in Hrun; [|done].
  apply check_start_state_Ok in Hchk; [|done].
  unfold bind at 1 in Hrun.
  destruct (place_mines_loop tape k 0 b) as [[[]|e|] b1] eqn:Hplace; try done.
  by exists b1.
Qed.

(** X13. After a call of [put_mines] that returned, the dimensions are
    the same, every cell of the board is hidden, and the status of the game
    is not started. *)
Theorem put_mines_fresh_game (b : Board) (k : Z) (tape : list (Z * Z)) (b2 : Board) :
  valid_board b → put_mines k tape b = (Ok tt, b2) →
  valid_board b2 ∧ rows b2 = rows b ∧ columns b2 = columns b
  ∧ no_cell_revealed b2
  ∧ get_status b2 = Ok NotStarted.
Proof.
  intros Hv Hrun.
  destruct (put_mines_stages b k tape b2 Hv Hrun) as (b1 & Hstart & Hplace & Hdigits).
  apply put_mines_run in Hrun as (Hk & _ & Hv2 & Hr2 & Hc2 & _); [|done].
  assert (Hall : all_hidden b).
  { intros i j Hb. destruct (Hstart i j Hb) as [_ Hh]. by apply is_hidden_H in Hh. }
  pose proof Hplace as (Hv1 & Hr1 & Hc1 & _)%place_mines_loop_ok; [|done|lia].
  apply (place_mines_loop_hidden _ _ _ _ _ Hv Hall) in Hplace.
  apply update_digits_hidden in Hdigits; [|done| |done].
  2:{ rewrite <- Hr1, <- Hc1. apply grid_cells_in_bounds. }
  assert (Hno : no_cell_revealed b2).
  { intros i j Hb. apply is_hidden_H; [done|done|]. by apply Hdigits. }
  split_and!; [done|done|done|done|].
  assert (Hnm : ¬ mine_revealed b2).
  { intros (i & j & Hb & _ & Hs). rewrite (Hno i j Hb) in Hs. done. }
  rewrite get_status_views by done.
  apply seen_cell_grid in Hno; [|done].
  rewrite <- lost_cell_grid in Hnm by done.
  apply not_true_is_false in Hnm. by rewrite Hnm, Hno.
Qed.

Lemma put_mines_fresh_game_witness :
  valid_board empty_2x2
  ∧ put_mines 1 [(0, 1)] empty_2x2 = (Ok tt, one_mine_2x2)
  ∧ get_status one_mine_2x2 = Ok NotStarted.
Proof.
  split; [reflexivity|]. split; [reflexivity|].
  apply (put_mines_fresh_game empty_2x2 1 [(0, 1)] one_mine_2x2); reflexivity.
Defined.

(** ** Moves on boards with the right counts *)

Lemma digit_char_zero n : (n ≤ 8)%nat → digit_char n = "0"%char → n = 0%nat.
Proof. intros Hn. do 9 (destruct n as [|n]; [done|]). lia. Qed.

Lemma adjacent_mines_le_8 b i j : (adjacent_mines b i j ≤ 8)%nat.
Proof.
  unfold adjacent_mines, clockwise_neighbours.
  etrans; [apply length_filter|]. etrans; [apply length_filter|]. done.
Qed.

Lemma zero_cell_neighbours_safe b p q :
  counts_right b → in_bounds b p.1 p.2 →
  get_value b p.1 p.2 = Ok "0"%char → q ∈ get_neighbours b p →
  get_value b q.1 q.2 ≠ Ok "*"%char.
Proof.
  intros Hcounts Hp Hzero Hq Hmine.
  pose proof (Hcounts p.1 p.2 Hp) as Hdigit. rewrite Hzero in Hdigit.
  specialize (Hdigit ltac:(done)). injection Hdigit as Hdigit.
  symmetry in Hdigit. apply digit_char_zero in Hdigit; [|apply adjacent_mines_le_8].
  unfold adjacent_mines in Hdigit. apply length_zero_iff_nil in Hdigit.
  assert (Hin : q ∈ filter (λ x, get_value b x.1 x.2 = Ok "*"%char)
                      (clockwise_neighbours b (p.1, p.2))).
  { apply list_elem_of_filter. split; [done|].
    rewrite <- get_neighbours_clockwise. by destruct p. }
  rewrite Hdigit in Hin. by apply elem_of_nil in Hin.
Qed.

Lemma counts_right_ext b b' :
  rows b' = rows b → columns b' = columns b →
  (∀ i j, in_bounds b i j → get_value b' i j = get_value b i j) →
  counts_right b → counts_right b'.
Proof.
  intros Hr Hc Hval Hcounts i j Hb'.
  assert (Hb : in_bounds b i j) by (unfold in_bounds in *; by rewrite <- Hr, <- Hc).
  rewrite Hval by done. intros Hne. rewrite Hcounts by done. do 2 f_equal.
  assert (Hnb : clockwise_neighbours b' (i, j) = clockwise_neighbours b (i, j)).
  { apply list_filter_iff. intros x. unfold in_bounds. by rewrite Hr, Hc. }
  unfold adjacent_mines. rewrite Hnb.
  f_equal. apply filter_ext_elem. intros x Hx.
  apply list_elem_of_filter in Hx as [Hx _]. by rewrite Hval.
Qed.

Lemma ripple_sequence_reached b r c seq :
  valid_board b → ripple_sequence b r c = Ok seq →
  ∀ q, q ∈ seq → ∃ x, ripples_to b x q.
Proof.
  intros Hv Hrun q Hq.
  destruct (decide (in_bounds b r c)) as [Hb|Hb];
    [|unfold ripple_sequence in Hrun; by rewrite checkIndices_raise in Hrun].
  destruct (ripple_sequence_runs b r c Hv Hb) as (visited & Hrun' & Hrtc & Hnd).
  rewrite Hrun in Hrun'. simplify_eq.
  destruct (cascade_visits_start_first _ _ _ Hrtc) as [rest ->].
  apply NoDup_cons in Hnd as [Hstart _]. simpl in Hq.
  pose proof (cascade_reaches_only b (r, c) _ _ Hrtc) as Hsound. simpl in Hsound.
  rewrite app_nil_r in Hsound.
  assert (Hreach : rtc (ripples_to b) (r, c) q).
  { apply Hsound; [|by apply list_elem_of_further].
    by intros x ->%list_elem_of_singleton. }
  apply rtc_inv_r in Hreach as [<-|(x & _ & Hx)]; [done|by exists x].
Qed.

(** What a move uncovers when the chosen cell is not a mine: cells of the
    grid that are not mines. *)
Lemma safe_move_cells b r c :
  valid_board b → counts_right b → get_value b r c ≠ Ok "*"%char →
  ∃ cells, Forall (λ p, in_bounds b p.1 p.2 ∧ value_at b p.1 p.2 ≠ "*"%char) cells
           ∧ (make_move r c b).2 = reveal_all b cells.
Proof.
  intros Hv Hcounts Hsafe.
  destruct (decide (in_bounds b r c)) as [Hb|Hn];
    [|exists []; by rewrite make_move_out].
  destruct (seen_at b r c) eqn:Hs; [exists []; by rewrite make_move_seen|].
  assert (Hrc : value_at b r c ≠ "*"%char).
  { intros Hval. apply Hsafe. by apply get_value_eq. }
  pose proof Hb as [? ?].
  destruct (decide (value_at b r c = "0"%char)) as [Hval|Hval].
  - destruct (make_move_zero b Hv r c Hb Hs Hval) as (seq & Hseq & Hin & _ & ->).
    exists ((r, c) :: seq). split; [|done]. apply Forall_cons. split; [done|].
    pose proof (valid_board_reveal b Hv r c Hb) as Hv1.
    assert (Hvals : ∀ i j, in_bounds b i j →
                      get_value (reveal b r c) i j = get_value b i j).
    { intros i j Hij. pose proof Hij as [? ?].
      rewrite !get_value_valid by done. by rewrite value_at_reveal by (done || lia). }
    assert (Hcounts1 : counts_right (reveal b r c)).
    { by apply (counts_right_ext b). }
    rewrite Forall_forall in Hin. apply Forall_forall. intros q Hq.
    split; [by apply Hin|].
    destruct (ripple_sequence_reached _ _ _ _ Hv1 Hseq q Hq) as (x & Hzero & Hnb & _).
    assert (Hx : in_bounds (reveal b r c) x.1 x.2).
    { destruct (decide (in_bounds (reveal b r c) x.1 x.2)) as [|Hout]; [done|].
      by rewrite get_value_out in Hzero. }
    pose proof (zero_cell_neighbours_safe _ x q Hcounts1 Hx Hzero Hnb) as Hq1.
    rewrite Hvals in Hq1 by (by apply Hin). intros Hm. apply Hq1.
    apply get_value_eq; [done|by apply Hin|done].
  - exists [(r, c)]. rewrite make_move_count by done.
    split; [by apply Forall_singleton|done].
Qed.

(** X14. On a board whose counts are right and on which no mine is seen, a
    move on a cell that is not a mine never uncovers a mine: afterwards the
    counts are still right, no mine is seen and the status is not lost.
    The game can only be lost by choosing a mine. *)
Theorem safe_move_never_loses (b : Board) (r c : Z) :
  valid_board b → counts_right b → ¬ mine_revealed b →
  get_value b r c ≠ Ok "*"%char →
  counts_right (make_move r c b).2
  ∧ ¬ mine_revealed (make_move r c b).2
  ∧ get_status (make_move r c b).2 ≠ Ok Lose.
Proof.
  intros Hv Hcounts Hnone Hsafe.
  destruct (safe_move_cells b r c Hv Hcounts Hsafe) as (cells & Hcells & ->).
  assert (Hin : Forall (λ p, in_bounds b p.1 p.2) cells).
  { eapply Forall_impl; [exact Hcells|]. by intros p [? _]. }
  pose proof (valid_board_reveal_all b cells Hv Hin) as Hv'.
  assert (Hnone' : ¬ mine_revealed (reveal_all b cells)).
  { rewrite mine_revealed_views by done. intros (i & j & Hb & Hval & Hs).
    apply (proj1 (in_bounds_reveal_all b cells i j)) in Hb.
    pose proof Hb as [? ?].
    rewrite value_at_reveal_all in Hval by (done || lia).
    assert (Hi : 0 ≤ i) by lia. assert (Hj : 0 ≤ j) by lia.
    destruct (proj1 (seen_at_reveal_all b cells i j Hv Hin Hi Hj) Hs) as [Hs'|Hs'].
    - apply Hnone, mine_revealed_views; [done|]. by exists i, j.
    - rewrite Forall_forall in Hcells. by destruct (Hcells (i, j) Hs') as [_ Hne]. }
  split_and!; [|done|].
  - apply (counts_right_ext b); [apply reveal_all_rows|apply reveal_all_columns| |done].
    intros i j Hb. pose proof Hb as [? ?].
    rewrite !get_value_valid by (done || by apply in_bounds_reveal_all).
    by rewrite value_at_reveal_all by (done || lia).
  - intros Hlose. by apply get_status_Lose in Hlose.
Qed.

Lemma safe_move_never_loses_witness :
  valid_board corner_3x3 ∧ counts_right corner_3x3
  ∧ ¬ mine_revealed corner_3x3 ∧ get_value corner_3x3 2 2 ≠ Ok "*"%char
  ∧ get_status (make_move 2 2 corner_3x3).2 ≠ Ok Lose.
Proof.
  assert (Hcounts : counts_right corner_3x3).
  { intros i j [Hi Hj] Hne. simpl in Hi, Hj.
    assert (Hi' : i = 0 ∨ i = 1 ∨ i = 2) by lia.
    assert (Hj' : j = 0 ∨ j = 1 ∨ j = 2) by lia.
    destruct Hi' as [-> | [-> | ->]], Hj' as [-> | [-> | ->]];
      first [reflexivity | by destruct Hne]. }
  assert (Hnone : ¬ mine_revealed corner_3x3).
  { rewrite (mine_revealed_views corner_3x3) by reflexivity.
    intros (i & j & [Hi Hj] & _ & Hs). simpl in Hi, Hj.
    assert (Hi' : i = 0 ∨ i = 1 ∨ i = 2) by lia.
    assert (Hj' : j = 0 ∨ j = 1 ∨ j = 2) by lia.
    destruct Hi' as [-> | [-> | ->]], Hj' as [-> | [-> | ->]]; discriminate Hs. }
  assert (Hsafe : get_value corner_3x3 2 2 ≠ Ok "*"%char) by discriminate.
  split; [reflexivity|]. split; [exact Hcounts|]. split; [exact Hnone|].
  split; [exact Hsafe|].
  apply (safe_move_never_loses corner_3x3 2 2);
    [reflexivity|exact Hcounts|exact Hnone|exact Hsafe].
Defined.

(** The boards [put_mines] leaves have the right counts. *)
Lemma put_mines_counts_right b k tape b2 :
  valid_board b → put_mines k tape b = (Ok tt, b2) → counts_right b2.
Proof.
  intros Hv Hrun.
  apply put_mines_run in Hrun as (_ & _ & Hv2 & _ & _ & _ & Hdigits); [|done].
  intros i j Hb Hval. rewrite adjacent_mines_touching by done.
  apply get_value_eq; [done|done|]. unfold value_at.
  rewrite Hdigits, digit_cell_digit; [done|done|].
  unfold mine_at. simpl. intros Hm. apply Hval. by apply get_value_eq.
Qed.

(** ** Display *)

Lemma str_cells_same b1 b2 i js :
  valid_board b1 → valid_board b2 →
  rows b1 = rows b2 → columns b1 = columns b2 →
  (∀ i j, in_bounds b1 i j →
     is_hidden b1 i j = is_hidden b2 i j
     ∧ (is_hidden b1 i j = Ok "S"%char → get_value b1 i j = get_value b2 i j)) →
  0 ≤ i < rows b1 → Forall (λ j, 0 ≤ j < columns b1) js →
  ∀ text, ∃ t, str_cells b1 i js text = Ok t ∧ str_cells b2 i js text = Ok t.
Proof.
  intros Hv1 Hv2 Hr Hc Hsame Hi Hjs.
  induction Hjs as [|j js Hj Hjs IH]; intros text; [by eexists|].
  assert (Hb1 : in_bounds b1 i j) by done.
  assert (Hb2 : in_bounds b2 i j) by (unfold in_bounds; by rewrite <- Hr, <- Hc).
  destruct (Hsame i j Hb1) as [Hh Hval]. cbn [str_cells]. rewrite <- Hh.
  rewrite is_hidden_valid in * by done. simpl obind.
  destruct (seen_at b1 i j); simpl vis in *.
  - rewrite bool_decide_eq_false_2 by done. rewrite <- Hval by done.
    rewrite get_value_valid by done. simpl obind. apply IH.
  - rewrite bool_decide_eq_true_2 by done. apply IH.
Qed.

Lemma str_rows_same b1 b2 ks :
  valid_board b1 → valid_board b2 →
  rows b1 = rows b2 → columns b1 = columns b2 →
  (∀ i j, in_bounds b1 i j →
     is_hidden b1 i j = is_hidden b2 i j
     ∧ (is_hidden b1 i j = Ok "S"%char → get_value b1 i j = get_value b2 i j)) →
  Forall (λ i, 0 ≤ i < rows b1) ks →
  ∀ text, ∃ t, str_rows b1 ks text = Ok t ∧ str_rows b2 ks text = Ok t.
Proof.
  intros Hv1 Hv2 Hr Hc Hsame Hks.
  induction Hks as [|i ks Hi Hks IH]; intros text; [by eexists|].
  cbn [str_rows]. cbv zeta. rewrite <- Hc.
  destruct (str_cells_same b1 b2 i (range (columns b1)) Hv1 Hv2 Hr Hc Hsame Hi)
    with (text := text +:+ pad2 (str_Z i)) as (t & -> & ->).
  { apply Forall_seqZ. lia. }
  simpl obind. apply IH.
Qed.

(** X15. The text that displays a board shows nothing of what lies under
    a hidden cell: two well-formed boards of the same dimensions that agree
    on which cells are seen and on the values of the seen cells have the
    same display, and the display of a well-formed board never raises. *)
Theorem Board_str_hides (b1 b2 : Board) :
  valid_board b1 → valid_board b2 →
  rows b1 = rows b2 → columns b1 = columns b2 →
  (∀ i j, in_bounds b1 i j →
     is_hidden b1 i j = is_hidden b2 i j
     ∧ (is_hidden b1 i j = Ok "S"%char → get_value b1 i j = get_value b2 i j)) →
  ∃ text, Board_str b1 = Ok text ∧ Board_str b2 = Ok text.
Proof.
  intros Hv1 Hv2 Hr Hc Hsame. unfold Board_str. cbv zeta. rewrite <- Hr.
  edestruct (str_rows_same b1 b2 (range (rows b1)) Hv1 Hv2 Hr Hc Hsame)
    as (t & -> & ->).
  { apply Forall_seqZ. lia. }
  by eexists.
Qed.

Lemma Board_str_hides_witness :
  valid_board corner_3x3
  ∧ ∃ text, Board_str corner_3x3 = Ok text
      ∧ Board_str {| rows := 3; columns := 3;
                     board := [["0H"; "0H"; "0H"]; ["0H"; "*H"; "0H"];
                               ["0H"; "0H"; "0H"]]%string |} = Ok text.
Proof.
  split; [reflexivity|].
  apply (Board_str_hides corner_3x3
           {| rows := 3; columns := 3;
              board := [["0H"; "0H"; "0H"]; ["0H"; "*H"; "0H"];
                        ["0H"; "0H"; "0H"]]%string |});
    [reflexivity|reflexivity|reflexivity|reflexivity|].
  intros i j [Hi Hj]. simpl in Hi, Hj.
  assert (Hi' : i = 0 ∨ i = 1 ∨ i = 2) by lia.
  assert (Hj' : j = 0 ∨ j = 1 ∨ j = 2) by lia.
  destruct Hi' as [-> | [-> | ->]], Hj' as [-> | [-> | ->]];
    (split; [reflexivity|discriminate]).
Defined.

(** ** The game loop *)

Lemma Board_str_valid b : valid_board b → ∃ text, Board_str b = Ok text.
Proof.
  intros Hv. unfold Board_str. cbv zeta.
  assert (Hks : Forall (λ i, 0 ≤ i < rows b) (range (rows b))).
  { apply Forall_seqZ. lia. }
  pose proof (str_rows_same b b (range (rows b)) Hv Hv eq_refl eq_refl
                (λ i j _, conj eq_refl (λ _, eq_refl)) Hks) as Hrows.
  match goal with |- context [str_rows b _ ?text] =>
    destruct (Hrows text) as (t & -> & _) end.
  by eexists.
Qed.

Lemma get_status_valid b : valid_board b → ∃ status, get_status b = Ok status.
Proof.
  intros Hv. rewrite get_status_views by done.
  destruct (existsb _ _); by eexists.
Qed.

Lemma save_board_valid b :
  valid_board b → save_board b = Ok (concat_text (saved_lines b)).
Proof. intros Hv. unfold save_board. by rewrite save_text_valid. Qed.

Lemma make_move_returns b r c :
  valid_board b → attempt_of (make_move r c b).1 ≠ NoResult.
Proof.
  intros Hv.
  destruct (decide (in_bounds b r c)) as [Hb|Hb]; [|by rewrite make_move_out].
  destruct (seen_at b r c) eqn:Hs; [by rewrite make_move_seen|].
  destruct (decide (value_at b r c = "0"%char)) as [Hz|Hz].
  - destruct (make_move_zero b Hv r c Hb Hs Hz) as (seq & _ & _ & _ & ->). done.
  - by rewrite make_move_count.
Qed.

Section RunFacts.
Context (py_int : string → option Z) (can_write : string → bool).

Lemma try_move_board move b :
  valid_board b →
  (try_move py_int move b).1 ≠ NoResult
  ∧ ∃ cells, Forall (λ p, in_bounds b p.1 p.2) cells
             ∧ (try_move py_int move b).2 = reveal_all b cells.
Proof.
  intros Hv. unfold try_move.
  assert (Hsame : ∃ cells, Forall (λ p, in_bounds b p.1 p.2) cells
                           ∧ b = reveal_all b cells) by (by exists []).
  destruct (split_space move) as [|r [|c [|? ?]]]; try done.
  destruct (py_int r) as [row|]; [|done].
  destruct (py_int c) as [column|]; [|done].
  cbv zeta. cbn [fst snd]. split.
  - by apply make_move_returns.
  - by apply make_move_board.
Qed.

Lemma save_to_file_valid b filename :
  valid_board b → attempt_of (save_to_file can_write b filename).1 ≠ NoResult.
Proof.
  intros Hv. unfold save_to_file. rewrite save_board_valid by done.
  by destruct (can_write filename).
Qed.

(** One turn of the loop on a board that can be displayed. *)
Lemma run_turn inputs b shown status :
  Board_str b = Ok shown → get_status b = Ok status →
  run py_int can_write inputs b =
    let head :=
      [Print shown;
       Print ("Game status: " +:+ status_name status);
       Print (if can_move status
              then "Available actions: (1) Save | (2) Exit | (3) Move"
              else "Available actions: (1) Save | (2) Exit");
       Prompt "Enter selection: "] in
    match inputs with
    | [] => (head, b, EndOfInput)
    | ch :: inputs =>
        if bool_decide (ch = "1") then
          match inputs with
          | [] => (head ++ [Prompt "Enter filename: "], b, EndOfInput)
          | filename :: inputs =>
              let saved := save_to_file can_write b filename in
              match attempt_of saved.1 with
              | Done =>
                  after (head ++ [Prompt "Enter filename: "] ++ saved.2
                         ++ [Print "Save operation done"])
                        (run py_int can_write inputs b)
              | Failed =>
                  after (head ++ [Prompt "Enter filename: "] ++ saved.2
                         ++ [Print "Save operation failed";
                             Print "Save operation done"])
                        (run py_int can_write inputs b)
              | NoResult =>
                  (head ++ [Prompt "Enter filename: "], b, Unfinished)
              end
          end
        else if bool_decide (ch = "2") then
          (head ++ [Print "Goodbye :)"], b, Returned)
        else if bool_decide (ch = "3") then
          if can_move status then
            match inputs with
            | [] => (head ++ [move_prompt], b, EndOfInput)
            | move :: inputs =>
                let tried := try_move py_int move b in
                match tried.1 with
                | Done =>
                    after (head ++ [move_prompt])
                          (run py_int can_write inputs tried.2)
                | Failed =>
                    after (head ++ [move_prompt; Print "Illegal move values"])
                          (run py_int can_write inputs tried.2)
                | NoResult => (head ++ [move_prompt], tried.2, Unfinished)
                end
            end
          else after (head ++ [Print "Illegal choice"])
                     (run py_int can_write inputs b)
        else after (head ++ [Print "Illegal choice"])
                   (run py_int can_write inputs b)
    end.
Proof.
  intros Hshown Hstatus.
  destruct inputs as [|ch inputs]; simpl; rewrite Hshown, Hstatus; [done|].
  destruct inputs; reflexivity.
Qed.

Lemma after_events evs rest : (after evs rest).1.1 = evs ++ rest.1.1.
Proof. done. Qed.

Lemma after_board evs rest : (after evs rest).1.2 = rest.1.2.
Proof. done. Qed.

Lemma after_end evs rest : (after evs rest).2 = rest.2.
Proof. done. Qed.

Lemma run_ends_well_after b b' cells evs played :
  valid_board b → Forall (λ p, in_bounds b p.1 p.2) cells →
  b' = reveal_all b cells →
  run_ends_well b' played → run_ends_well b (after evs played).
Proof.
  intros Hv Hcells -> [(cells' & Hcells' & Hboard) Hend]. split.
  - exists (cells ++ cells'). split.
    + apply Forall_app. split; [done|].
      eapply Forall_impl; [exact Hcells'|]. intros p Hp.
      exact (proj1 (in_bounds_reveal_all b cells p.1 p.2) Hp).
    + rewrite after_board, Hboard. unfold reveal_all. by rewrite foldl_app.
  - rewrite after_end, after_events.
    destruct Hend as [[-> Hlast]|[-> [text Hlast]]]; [left|right]; split;
      try done; [|exists text]; by rewrite last_app, Hlast.
Qed.

Lemma run_valid inputs b :
  valid_board b → run_ends_well b (run py_int can_write inputs b).
Proof.
  revert b. induction inputs as [inputs IH] using (induction_ltof1 _ length).
  unfold ltof in IH. intros b Hv.
  assert (Hstay : ∀ evs inputs', (length inputs' < length inputs)%nat →
            run_ends_well b (after evs (run py_int can_write inputs' b))).
  { intros evs inputs' Hlt.
    apply (run_ends_well_after b b [] evs); [done|done|done|by apply IH]. }
  assert (Hstop : ∀ evs text,
            run_ends_well b (evs ++ [Prompt text], b, EndOfInput)).
  { intros evs text. split; [by exists []|]. right. split; [done|].
    exists text. cbn [fst snd]. by rewrite last_snoc. }
  destruct (Board_str_valid b Hv) as [shown Hshown].
  destruct (get_status_valid b Hv) as [status Hstatus].
  rewrite (run_turn inputs b shown status Hshown Hstatus). cbv zeta.
  destruct inputs as [|ch inputs].
  { apply (Hstop [_; _; _]). }
  case_bool_decide.
  { destruct inputs as [|filename inputs]; [apply (Hstop [_; _; _; _])|].
    pose proof (save_to_file_valid b filename Hv) as Hsave.
    destruct (attempt_of _); [| |done]; apply Hstay; simpl; lia. }
  case_bool_decide.
  { split; [by exists []|]. left. split; [done|]. cbn [fst snd].
    by rewrite last_snoc. }
  case_bool_decide; [|apply Hstay; simpl; lia].
  destruct (can_move status); [|apply Hstay; simpl; lia].
  destruct inputs as [|move inputs]; [apply (Hstop [_; _; _; _])|].
  destruct (try_move_board move b Hv) as (Hres & cells & Hcells & Hboard).
  destruct (try_move py_int move b).1; [| |done].
  - eapply run_ends_well_after; [done|exact Hcells|exact Hboard|].
    apply IH; [simpl; lia|]. rewrite Hboard. by apply valid_board_reveal_all.
  - eapply run_ends_well_after; [done|exact Hcells|exact Hboard|].
    apply IH; [simpl; lia|]. rewrite Hboard. by apply valid_board_reveal_all.
Qed.

(** A finished game: the board stays as it is and no move is asked for. *)
Lemma run_finished inputs b status :
  get_status b = Ok status → can_move status = false →
  (run py_int can_write inputs b).1.2 = b
  ∧ move_prompt ∉ (run py_int can_write inputs b).1.1.
Proof.
  intros Hstatus Hfinished.
  induction inputs as [inputs IH] using (induction_ltof1 _ length).
  unfold ltof in IH.
  destruct (Board_str b) as [shown| |] eqn:Hshown;
    [|destruct inputs; simpl; rewrite Hshown;
      (split; [done|apply not_elem_of_nil])..].
  rewrite (run_turn inputs b shown status Hshown Hstatus). cbv zeta.
  rewrite Hfinished.
  assert (Hstay : ∀ evs inputs', (length inputs' < length inputs)%nat →
            move_prompt ∉ evs →
            (after evs (run py_int can_write inputs' b)).1.2 = b
            ∧ move_prompt ∉ (after evs (run py_int can_write inputs' b)).1.1).
  { intros evs inputs' Hlt Hevs. destruct (IH inputs' Hlt) as [Hb Hno].
    rewrite after_board, after_events. split; [done|].
    rewrite elem_of_app. tauto. }
  assert (Hhead : ∀ evs, move_prompt ∉ evs →
    move_prompt ∉
      [Print shown; Print ("Game status: " +:+ status_name status);
       Print "Available actions: (1) Save | (2) Exit";
       Prompt "Enter selection: "] ++ evs).
  { intros evs Hevs. rewrite !elem_of_app, !elem_of_cons, elem_of_nil in *.
    unfold move_prompt in *. intuition congruence. }
  destruct inputs as [|ch inputs].
  { split; [done|]. rewrite <- (app_nil_r [_; _; _; _]). apply Hhead, not_elem_of_nil. }
  case_bool_decide.
  { destruct inputs as [|filename inputs].
    - split; [done|]. apply Hhead. by rewrite list_elem_of_singleton.
    - assert (Hsaved : move_prompt ∉ (save_to_file can_write b filename).2).
      { unfold save_to_file. destruct (can_write filename); [|apply not_elem_of_nil].
        destruct (save_board b); cbn [snd];
          rewrite ?list_elem_of_singleton; try done.
        apply not_elem_of_nil. }
      destruct (attempt_of _).
      + apply Hstay; [simpl; lia|]. apply Hhead.
        rewrite !elem_of_app, !elem_of_cons, elem_of_nil.
        unfold move_prompt in *. intuition congruence.
      + apply Hstay; [simpl; lia|]. apply Hhead.
        rewrite !elem_of_app, !elem_of_cons, elem_of_nil.
        unfold move_prompt in *. intuition congruence.
      + split; [done|]. apply Hhead. by rewrite list_elem_of_singleton. }
  case_bool_decide.
  { split; [done|]. apply Hhead. by rewrite list_elem_of_singleton. }
  case_bool_decide.
  - apply Hstay; [simpl; lia|]. apply Hhead. by rewrite list_elem_of_singleton.
  - apply Hstay; [simpl; lia|]. apply Hhead. by rewrite list_elem_of_singleton.
Qed.

End RunFacts.

Lemma reveal_all_later b cells :
  valid_board b → Forall (λ p, in_bounds b p.1 p.2) cells →
  valid_board (reveal_all b cells)
  ∧ rows (reveal_all b cells) = rows b
  ∧ columns (reveal_all b cells) = columns b
  ∧ ∀ i j, in_bounds b i j →
      get_value (reveal_all b cells) i j = get_value b i j
      ∧ (is_hidden b i j = Ok "S"%char →
         is_hidden (reveal_all b cells) i j = Ok "S"%char).
Proof.
  intros Hv Hin. pose proof (valid_board_reveal_all b cells Hv Hin) as Hv'.
  split_and!; [done|apply reveal_all_rows|apply reveal_all_columns|].
  intros i j Hb. pose proof Hb as [? ?].
  assert (Hb' : in_bounds (reveal_all b cells) i j)
    by (by apply in_bounds_reveal_all).
  rewrite !get_value_valid by done.
  rewrite value_at_reveal_all by (done || lia). split; [done|].
  rewrite !is_hidden_S by done. intros Hs.
  apply seen_at_reveal_all; [done|done|lia|lia|by left].
Qed.

(** X16. Once the game is won or lost the loop leaves the board as it is,
    whatever is typed, and it never asks for a move. *)
Theorem run_finished_game_frozen (py_int : string → option Z)
    (can_write : string → bool) (b : Board) (inputs : list string) :
  get_status b = Ok Win ∨ get_status b = Ok Lose →
  (run py_int can_write inputs b).1.2 = b
  ∧ move_prompt ∉ (run py_int can_write inputs b).1.1.
Proof.
  intros [Hstatus|Hstatus]; by eapply run_finished.
Qed.

Lemma run_finished_game_frozen_witness :
  get_status won_1x2 = Ok Win
  ∧ (run decimal_int (λ _, true) ["3"; "0 0"; "2"]%string won_1x2).1.2 = won_1x2.
Proof.
  split; [reflexivity|].
  apply (run_finished_game_frozen decimal_int (λ _, true) won_1x2).
  left. reflexivity.
Defined.

(** X17. On a well-formed board the loop raises nothing of its own: it
    ends with choice 2, after printing its goodbye, or at a prompt when
    the input ends.  The board it leaves is well-formed, has the same
    dimensions and the same values, and every cell that was seen is still
    seen. *)
Theorem run_keeps_game (py_int : string → option Z)
    (can_write : string → bool) (b : Board) (inputs : list string) :
  valid_board b →
  valid_board (run py_int can_write inputs b).1.2
  ∧ rows (run py_int can_write inputs b).1.2 = rows b
  ∧ columns (run py_int can_write inputs b).1.2 = columns b
  ∧ (∀ i j, in_bounds b i j →
       get_value (run py_int can_write inputs b).1.2 i j = get_value b i j
       ∧ (is_hidden b i j = Ok "S"%char →
          is_hidden (run py_int can_write inputs b).1.2 i j = Ok "S"%char))
  ∧ ((run py_int can_write inputs b).2 = Returned
     ∧ last (run py_int can_write inputs b).1.1 = Some (Print "Goodbye :)")
     ∨ (run py_int can_write inputs b).2 = EndOfInput
       ∧ ∃ text, last (run py_int can_write inputs b).1.1 = Some (Prompt text)).
Proof.
  intros Hv.
  destruct (run_valid py_int can_write inputs b Hv)
    as [(cells & Hcells & ->) Hend].
  destruct (reveal_all_later b cells Hv Hcells) as (? & ? & ? & ?).
  by split_and!.
Qed.

Lemma run_keeps_game_witness :
  valid_board corner_3x3
  ∧ valid_board
      (run decimal_int (λ _, true) ["3"; "2 2"; "1"; "f"; "2"]%string
           corner_3x3).1.2
  ∧ rows (run decimal_int (λ _, true) ["3"; "2 2"; "1"; "f"; "2"]%string
              corner_3x3).1.2 = 3.
Proof.
  assert (Hv : valid_board corner_3x3) by reflexivity.
  split; [exact Hv|].
  pose proof (run_keeps_game decimal_int (λ _, true) corner_3x3
                ["3"; "2 2"; "1"; "f"; "2"]%string Hv) as (Hv' & Hr & _).
  split; [exact Hv'|exact Hr].
Defined.

(** ** The program: files and arguments *)

Lemma rstrip_uint d :
  rstrip (NilEmpty.string_of_uint d +:+ newline) = NilEmpty.string_of_uint d.
Proof.
  induction d; [reflexivity|..]; cbn [NilEmpty.string_of_uint String.append rstrip];
    rewrite IHd; by destruct (NilEmpty.string_of_uint d).
Qed.

Lemma rstrip_uint_zero d :
  rstrip (NilZero.string_of_uint d +:+ newline) = NilZero.string_of_uint d.
Proof. destruct d; try apply (rstrip_uint (_ d)). reflexivity. Qed.

Lemma str_Z_nonempty n : String.length (str_Z n) ≠ 0%nat.
Proof. unfold str_Z. by destruct (Z.to_int n) as [[]|[]]. Qed.

Lemma strip_number_line n : strip (str_Z n +:+ newline) = str_Z n.
Proof.
  unfold strip, str_Z. destruct (Z.to_int n) as [d|d].
  - cbn [NilZero.string_of_int].
    replace (lstrip (NilZero.string_of_uint d +:+ newline))
      with (NilZero.string_of_uint d +:+ newline) by (by destruct d).
    apply rstrip_uint_zero.
  - cbn [NilZero.string_of_int String.append lstrip].
    change (is_space "-") with false. cbv iota. cbn [rstrip].
    rewrite rstrip_uint_zero. by destruct d.
Qed.

Lemma load_board_row_lines g b0 :
  valid_board g → 1 ≤ rows g → 1 ≤ columns g →
  rows b0 = rows g → columns b0 = columns g →
  load_board (row_line <$> board g) b0 = (Ok tt, g).
Proof.
  intros Hv Hrows Hcols Hr0 Hc0.
  unfold load_board, bind at 1, set_board.
  unfold bind at 1. rewrite load_lines_accepted
    by (simpl; rewrite Hc0; by apply row_lines_accepted).
  simpl. rewrite omap_line_row_row_lines.
  - rewrite valid_board_length by done.
    rewrite bool_decide_eq_false_2 by lia.
    unfold bind, query. cbn [rows].
    rewrite bool_decide_eq_false_2 by lia.
    unfold ret. rewrite Hr0, Hc0. by destruct g.
  - apply Forall_forall. intros r Hr.
    apply list_elem_of_lookup in Hr as [k Hk].
    destruct (valid_board_row g _ _ Hv Hk) as [Hlen Hcells].
    split; [|done]. intros ->. simpl in Hlen. lia.
Qed.

Lemma save_board_lines g text :
  valid_board g → save_board g = Ok text → file_lines text = saved_lines g.
Proof.
  intros Hv Hsave. rewrite save_board_valid in Hsave by done.
  assert (text = concat_text (saved_lines g)) as -> by congruence.
  by apply file_lines_concat_text, saved_lines_newlines.
Qed.



Lemma Board_init_Ok nr nc :
  1 ≤ nr ≤ 20 → 2 ≤ nc ≤ 50 → ∃ b, Board_init nr nc = Ok b.
Proof.
  intros Hr Hc. unfold Board_init. cbv zeta.
  rewrite !bool_decide_eq_false_2 by lia. by eexists.
Qed.



Section MainFacts.
Context (py_int : string → option Z) (can_write : string → bool).

Lemma read_dimensions_saved nr nc rest :
  nr ≠ 0 → py_int (str_Z nr) = Some nr → py_int (str_Z nc) = Some nc →
  read_dimensions py_int
    ((str_Z nr +:+ newline) :: (str_Z nc +:+ newline) :: rest) None
  = Some (Some nr, Some nc, rest).
Proof.
  intros Hnr Hr Hc. cbn [read_dimensions]. cbv zeta.
  rewrite !strip_number_line.
  rewrite !bool_decide_eq_false_2 by apply str_Z_nonempty.
  rewrite Hr, Hc. by destruct nr.
Qed.

Lemma load_file_saved g :
  valid_board g → 1 ≤ rows g ≤ 20 → 2 ≤ columns g ≤ 50 →
  py_int (str_Z (rows g)) = Some (rows g) →
  py_int (str_Z (columns g)) = Some (columns g) →
  load_file py_int (saved_lines g) = Some g.
Proof.
  intros Hv Hrows Hcols Hr Hc. unfold load_file, saved_lines.
  rewrite read_dimensions_saved by (done || lia).
  destruct (Board_init_Ok (rows g) (columns g) Hrows Hcols) as [b0 Hinit].
  rewrite Hinit.
  apply Board_init_valid in Hinit as (_ & _ & Hr0 & Hc0 & _).
  by rewrite load_board_row_lines by (done || lia).
Qed.

Lemma load_file_valid lines b :
  load_file py_int lines = Some b →
  valid_board b ∧ 1 ≤ rows b ≤ 20 ∧ 2 ≤ columns b ≤ 50.
Proof.
  unfold load_file.
  destruct (read_dimensions py_int lines None) as [[[[nr|] [nc|]] rest]|]; try done.
  destruct (Board_init nr nc) as [b0| |] eqn:Hinit; try done.
  apply Board_init_valid in Hinit as (_ & _ & Hr0 & Hc0 & ? & ?).
  destruct (load_board rest b0) as [[[]| |] b'] eqn:Hload; try done.
  intros [= ->]. apply load_board_valid in Hload as (? & -> & ->).
  rewrite Hr0, Hc0. done.
Qed.

Lemma read_dimensions_skip_blank lines :
  ∀ nrows,
    read_dimensions py_int
      (filter (λ l, String.length (strip l) ≠ 0%nat) lines) nrows
    = match read_dimensions py_int lines nrows with
      | Some (nr, nc, rest) =>
          Some (nr, nc, filter (λ l, String.length (strip l) ≠ 0%nat) rest)
      | None => None
      end.
Proof.
  induction lines as [|line lines IH]; intros nrows; [done|].
  rewrite filter_cons. case_decide as Hblank.
  - cbn [read_dimensions]. cbv zeta.
    rewrite !bool_decide_eq_false_2 by done.
    destruct nrows as [[| |]|]; destruct (py_int (strip line)); try done;
      apply IH.
  - cbn [read_dimensions]. cbv zeta.
    rewrite bool_decide_eq_true_2 by done. apply IH.
Qed.

Lemma load_file_skip_blank lines :
  load_file py_int (filter (λ l, String.length (strip l) ≠ 0%nat) lines)
  = load_file py_int lines.
Proof.
  unfold load_file. rewrite read_dimensions_skip_blank.
  destruct (read_dimensions py_int lines None) as [[[[nr|] [nc|]] rest]|]; try done.
  destruct (Board_init nr nc) as [b0| |]; try done.
  unfold load_board, bind at 1 3, set_board. unfold bind at 1 2.
  by rewrite load_lines_skip_blank.
Qed.

End MainFacts.

(** X18. A saved game resumes: when [save_board] has written a well-formed
    board of a legal size, the program started on that file plays the game
    loop on exactly this board, provided [int] reads the two dimensions
    back.  The other arguments and the random draws play no part. *)
Theorem saved_game_resumes (py_int : string → option Z)
    (can_write : string → bool) (g : Board) (text : string)
    (args : arguments) (tape : list (Z * Z)) (inputs : list string) :
  valid_board g → 1 ≤ rows g ≤ 20 → 2 ≤ columns g ≤ 50 →
  py_int (str_Z (rows g)) = Some (rows g) →
  py_int (str_Z (columns g)) = Some (columns g) →
  save_board g = Ok text →
  arg_input args = Some (file_lines text) →
  main py_int can_write args tape inputs
  = ((run py_int can_write inputs g).1.1,
     Some (run py_int can_write inputs g).1.2,
     (run py_int can_write inputs g).2).
Proof.
  intros Hv Hrows Hcols Hr Hc Hsave Hargs. unfold main. rewrite Hargs.
  rewrite (save_board_lines g text Hv Hsave).
  by rewrite load_file_saved.
Qed.

Lemma saved_game_resumes_witness :
  valid_board one_mine_2x2
  ∧ save_board one_mine_2x2 = Ok (concat_text (saved_lines one_mine_2x2))
  ∧ main decimal_int (λ _, true)
      {| arg_input := Some (file_lines (concat_text (saved_lines one_mine_2x2)));
         arg_rows := 1; arg_columns := 2; arg_mines := 1 |}
      [] ["3"; "1 1"; "2"]%string
    = ((run decimal_int (λ _, true) ["3"; "1 1"; "2"]%string one_mine_2x2).1.1,
       Some (run decimal_int (λ _, true) ["3"; "1 1"; "2"]%string one_mine_2x2).1.2,
       (run decimal_int (λ _, true) ["3"; "1 1"; "2"]%string one_mine_2x2).2).
Proof.
  split; [reflexivity|]. split; [reflexivity|].
  apply (saved_game_resumes decimal_int (λ _, true) one_mine_2x2
           (concat_text (saved_lines one_mine_2x2)));
    [reflexivity|simpl; lia|simpl; lia|reflexivity|reflexivity|reflexivity
    |reflexivity].
Defined.



(** X20. With an input file, whatever it holds, the program either prints
    that the file is badly formatted and returns, or plays the game loop
    on a well-formed board of a legal size.  It ends by returning or at
    the end of the input: no exception of the board escapes. *)
Theorem main_input_file (py_int : string → option Z)
    (can_write : string → bool) (args : arguments) (lines : list string)
    (tape : list (Z * Z)) (inputs : list string) :
  arg_input args = Some lines →
  ((main py_int can_write args tape inputs).2 = Returned
   ∨ (main py_int can_write args tape inputs).2 = EndOfInput)
  ∧ match (main py_int can_write args tape inputs).1.2 with
    | Some b => valid_board b ∧ 1 ≤ rows b ≤ 20 ∧ 2 ≤ columns b ≤ 50
    | None => (main py_int can_write args tape inputs).1.1
              = [Print "Badly-formatted input file"]
    end.
Proof.
  intros Hargs. unfold main. rewrite Hargs.
  destruct (load_file py_int lines) as [b|] eqn:Hload; [|by split; [left|]].
  apply load_file_valid in Hload as (Hv & Hrows & Hcols).
  destruct (run_valid py_int can_write inputs b Hv)
    as [(cells & Hcells & Hboard) Hend].
  cbn [fst snd]. split; [destruct Hend as [[? _]|[? _]]; tauto|].
  rewrite Hboard.
  destruct (reveal_all_later b cells Hv Hcells) as (? & -> & -> & _). done.
Qed.

Lemma main_input_file_witness :
  (main decimal_int (λ _, true)
     {| arg_input := Some ["1"; "2"; "*H 1H"]%string;
        arg_rows := 1; arg_columns := 2; arg_mines := 1 |}
     [] ["2"]%string).2 = Returned
  ∨ (main decimal_int (λ _, true)
       {| arg_input := Some ["1"; "2"; "*H 1H"]%string;
          arg_rows := 1; arg_columns := 2; arg_mines := 1 |}
       [] ["2"]%string).2 = EndOfInput.
Proof.
  pose proof (main_input_file decimal_int (λ _, true)
                {| arg_input := Some ["1"; "2"; "*H 1H"]%string;
                   arg_rows := 1; arg_columns := 2; arg_mines := 1 |}
                ["1"; "2"; "*H 1H"]%string [] ["2"]%string eq_refl)
    as [Hend _].
  exact Hend.
Defined.

(** X21. Empty lines and lines of white space play no part anywhere in the
    input file, before, between or after the dimensions and the rows: the
    program behaves the same with and without them. *)
Theorem main_ignores_blank_lines (py_int : string → option Z)
    (can_write : string → bool) (lines : list string) (nrows ncolumns mines : Z)
    (tape : list (Z * Z)) (inputs : list string) :
  main py_int can_write
    {| arg_input := Some (filter (λ l, String.length (strip l) ≠ 0%nat) lines);
       arg_rows := nrows; arg_columns := ncolumns; arg_mines := mines |}
    tape inputs
  = main py_int can_write
      {| arg_input := Some lines;
         arg_rows := nrows; arg_columns := ncolumns; arg_mines := mines |}
      tape inputs.
Proof. unfold main. cbn [arg_input]. by rewrite load_file_skip_blank. Qed.

(** X22. Every file the loop writes on a well-formed board holds the text
    [save_board] gives for a state of this game: a well-formed board of
    the same dimensions and values on which the cells seen at the start
    are seen.  It is written only under a name that can be written. *)
Theorem run_saves_game_states (py_int : string → option Z)
    (can_write : string → bool) (b : Board) (inputs : list string)
    (filename text : string) :
  valid_board b →
  FileWrite filename text ∈ (run py_int can_write inputs b).1.1 →
  can_write filename = true
  ∧ ∃ g, save_board g = Ok text
      ∧ valid_board g ∧ rows g = rows b ∧ columns g = columns b
      ∧ ∀ i j, in_bounds b i j →
          get_value g i j = get_value b i j
          ∧ (is_hidden b i j = Ok "S"%char → is_hidden g i j = Ok "S"%char).
Proof.
  intros Hv Hwritten.
  assert (Hstate : can_write filename = true
    ∧ ∃ cells, Forall (λ p, in_bounds b p.1 p.2) cells
               ∧ save_board (reveal_all b cells) = Ok text).
  { revert b Hv Hwritten.
    induction inputs as [inputs IH] using (induction_ltof1 _ length).
    unfold ltof in IH. intros b Hv.
    destruct (Board_str_valid b Hv) as [shown Hshown].
    destruct (get_status_valid b Hv) as [status Hstatus].
    rewrite (run_turn py_int can_write inputs b shown status Hshown Hstatus).
    cbv zeta.
    assert (Hnone : ∀ evs : list event,
      Forall (λ ev, ∀ f t, ev ≠ FileWrite f t) evs →
      FileWrite filename text ∉ evs).
    { intros evs Hall Hin. rewrite Forall_forall in Hall.
      by apply (Hall _ Hin filename text). }
    assert (Hplain : ∀ evs (inputs' : list string) cells,
      (length inputs' < length inputs)%nat →
      Forall (λ ev, ∀ f t, ev ≠ FileWrite f t) evs →
      Forall (λ p, in_bounds b p.1 p.2) cells →
      FileWrite filename text
        ∈ (after evs (run py_int can_write inputs' (reveal_all b cells))).1.1 →
      can_write filename = true
      ∧ ∃ cells, Forall (λ p, in_bounds b p.1 p.2) cells
                 ∧ save_board (reveal_all b cells) = Ok text).
    { intros evs inputs' cells Hlt Hevs Hcells.
      rewrite after_events, elem_of_app. intros [Hin|Hin];
        [by apply Hnone in Hin|].
      apply IH in Hin as (Hcan & cells' & Hcells' & Hsave);
        [|done|by apply valid_board_reveal_all].
      split; [done|]. exists (cells ++ cells'). split.
      - apply Forall_app. split; [done|].
        eapply Forall_impl; [exact Hcells'|]. intros p Hp.
        exact (proj1 (in_bounds_reveal_all b cells p.1 p.2) Hp).
      - unfold reveal_all in *. by rewrite foldl_app. }
    destruct inputs as [|ch inputs].
    { intros Hin. apply Hnone in Hin; [done|]. by repeat constructor. }
    case_bool_decide.
    { destruct inputs as [|filename' inputs].
      { intros Hin. apply Hnone in Hin; [done|]. by repeat constructor. }
      unfold save_to_file. rewrite save_board_valid by done.
      destruct (can_write filename') eqn:Hcan; cbn [attempt_of fst snd].
      - rewrite after_events, !elem_of_app, !elem_of_cons, !elem_of_nil.
        intros Hin.
        assert (Hcase :
          FileWrite filename text
          = FileWrite filename' (concat_text (saved_lines b))
          ∨ FileWrite filename text ∈ (run py_int can_write inputs b).1.1)
          by (intuition discriminate).
        destruct Hcase as [[= -> ->]|Hrest].
        + split; [done|]. exists []. split; [done|].
          by apply save_board_valid.
        + apply (Hplain [] inputs []); [simpl; lia|done|done|done].
      - apply (Hplain _ inputs []); [simpl; lia|by repeat constructor|done]. }
    case_bool_decide.
    { intros Hin. apply Hnone in Hin; [done|]. by repeat constructor. }
    case_bool_decide;
      [|apply (Hplain _ inputs []); [simpl; lia|by repeat constructor|done]].
    destruct (can_move status);
      [|apply (Hplain _ inputs []); [simpl; lia|by repeat constructor|done]].
    destruct inputs as [|move inputs].
    { intros Hin. apply Hnone in Hin; [done|]. by repeat constructor. }
    destruct (try_move_board py_int move b Hv) as (_ & cells & Hcells & ->).
    destruct (try_move py_int move b).1.
    - apply (Hplain _ inputs cells); [simpl; lia|by repeat constructor|done].
    - apply (Hplain _ inputs cells); [simpl; lia|by repeat constructor|done].
    - intros Hin. apply Hnone in Hin; [done|]. by repeat constructor. }
  destruct Hstate as (Hcan & cells & Hcells & Hsave). split; [done|].
  exists (reveal_all b cells). split; [done|].
  by apply reveal_all_later.
Qed.

Lemma run_saves_game_states_witness :
  valid_board corner_3x3
  ∧ FileWrite "f" (concat_text (saved_lines corner_3x3))
    ∈ (run decimal_int (λ _, true) ["1"; "f"; "2"]%string corner_3x3).1.1
  ∧ ∃ g, save_board g = Ok (concat_text (saved_lines corner_3x3))
      ∧ valid_board g ∧ rows g = rows corner_3x3
      ∧ columns g = columns corner_3x3
      ∧ ∀ i j, in_bounds corner_3x3 i j →
          get_value g i j = get_value corner_3x3 i j
          ∧ (is_hidden corner_3x3 i j = Ok "S"%char
             → is_hidden g i j = Ok "S"%char).
Proof.
  assert (Hv : valid_board corner_3x3) by reflexivity.
  assert (Hin : FileWrite "f" (concat_text (saved_lines corner_3x3))
    ∈ (run decimal_int (λ _, true) ["1"; "f"; "2"]%string corner_3x3).1.1).
  { vm_compute. do 5 apply list_elem_of_further. apply list_elem_of_here. }
  split; [exact Hv|]. split; [exact Hin|].
  apply (run_saves_game_states decimal_int (λ _, true) corner_3x3
           ["1"; "f"; "2"]%string "f" (concat_text (saved_lines corner_3x3))
           Hv Hin).
Defined.

(** ** The display *)

Lemma str_cells_shown b i js :
  valid_board b → 0 ≤ i < rows b → Forall (λ j, 0 ≤ j < columns b) js →
  ∀ text, str_cells b i js text
          = Ok (text +:+ concat_text ((λ j, String (shown_cell b i j) " ") <$> js)).
Proof.
  intros Hv Hi Hjs. induction Hjs as [|j js Hj Hjs IH]; intros text.
  - simpl. by rewrite append_nil_r.
  - assert (Hb : in_bounds b i j) by done.
    cbn [str_cells fmap list_fmap concat_text].
    rewrite is_hidden_valid, get_value_valid by done. cbn [obind].
    unfold shown_cell. destruct (seen_at b i j); cbn [vis].
    + rewrite bool_decide_eq_false_2 by done. rewrite IH.
      by rewrite append_assoc.
    + rewrite bool_decide_eq_true_2 by done. rewrite IH.
      by rewrite append_assoc.
Qed.

Lemma str_rows_shown b ks :
  valid_board b → Forall (λ i, 0 ≤ i < rows b) ks →
  ∀ text, str_rows b ks text = Ok (text +:+ concat_text (shown_row b <$> ks)).
Proof.
  intros Hv Hks. induction Hks as [|i ks Hi Hks IH]; intros text.
  - simpl. by rewrite append_nil_r.
  - cbn [str_rows fmap list_fmap concat_text]. cbv zeta.
    rewrite str_cells_shown by (done || apply Forall_seqZ; lia).
    cbn [obind]. rewrite IH. unfold shown_row.
    by rewrite !append_assoc.
Qed.

(** X23. The display of a well-formed board is a first line of two spaces
    and the numbers of the rows (one for every row, whatever the number
    of columns), then a line for every row: its number, then for every
    cell 'H' when it is hidden and its value when it is seen, each followed
    by a space.  The last two characters are cut. *)
Theorem Board_str_layout (b : Board) :
  valid_board b →
  Board_str b
  = Ok (drop_last2
          (shown_header b +:+ concat_text (shown_row b <$> range (rows b)))).
Proof.
  intros Hv. unfold Board_str. cbv zeta.
  rewrite str_rows_shown by (done || apply Forall_seqZ; lia).
  cbn [obind]. unfold shown_header. cbn [concat_text].
  by rewrite !append_assoc.
Qed.

Lemma Board_str_layout_witness :
  valid_board won_1x2
  ∧ Board_str won_1x2
    = Ok (drop_last2
            (shown_header won_1x2
             +:+ concat_text (shown_row won_1x2 <$> range (rows won_1x2)))).
Proof.
  split; [reflexivity|]. apply (Board_str_layout won_1x2). reflexivity.
Defined.

Lemma append_cancel s1 s2 t1 t2 :
  String.length s1 = String.length s2 → s1 +:+ t1 = s2 +:+ t2 →
  s1 = s2 ∧ t1 = t2.
Proof.
  revert s2. induction s1 as [|ch s1 IH]; intros [|ch2 s2] Hlen Heq;
    try done.
  simpl in *. injection Heq as -> Heq.
  destruct (IH s2) as [-> ->]; [lia|done|done].
Qed.

Lemma length_append s1 s2 :
  String.length (s1 +:+ s2) = (String.length s1 + String.length s2)%nat.
Proof. induction s1 as [|ch s1 IH]; [done|]. simpl. by rewrite IH. Qed.

Lemma list_ascii_append s1 s2 :
  list_ascii_of_string (s1 +:+ s2)
  = list_ascii_of_string s1 ++ list_ascii_of_string s2.
Proof. induction s1 as [|ch s1 IH]; [done|]. simpl. by rewrite IH. Qed.

Lemma length_list_ascii s : length (list_ascii_of_string s) = String.length s.
Proof. induction s as [|ch s IH]; [done|]. simpl. by rewrite IH. Qed.

Lemma drop_last2_snoc s x y :
  drop_last2 (s +:+ String x (String y EmptyString)) = s.
Proof.
  unfold drop_last2. rewrite length_append, list_ascii_append. simpl.
  replace (String.length s + 2 - 2)%nat with (length (list_ascii_of_string s))
    by (rewrite length_list_ascii; lia).
  rewrite take_app_length. apply string_of_list_ascii_of_string.
Qed.

Lemma length_shown_cells b i js :
  String.length (concat_text ((λ j, String (shown_cell b i j) " ") <$> js))
  = (2 * length js)%nat.
Proof.
  induction js as [|j js IH]; [done|]. cbn [fmap list_fmap concat_text].
  rewrite length_append, IH. simpl. lia.
Qed.

Lemma length_shown_row b1 b2 i :
  columns b1 = columns b2 →
  String.length (shown_row b1 i) = String.length (shown_row b2 i).
Proof.
  intros Hc. unfold shown_row.
  by rewrite !length_append, !length_shown_cells, Hc.
Qed.

Lemma shown_cells_inj b1 b2 i js t1 t2 :
  concat_text ((λ j, String (shown_cell b1 i j) " ") <$> js) +:+ t1
  = concat_text ((λ j, String (shown_cell b2 i j) " ") <$> js) +:+ t2 →
  ∀ j, j ∈ js → shown_cell b1 i j = shown_cell b2 i j.
Proof.
  induction js as [|j js IH]; intros Heq j' Hj'; [by apply elem_of_nil in Hj'|].
  cbn [fmap list_fmap concat_text] in Heq. simpl in Heq.
  injection Heq as Hcell Heq.
  apply elem_of_cons in Hj' as [->|Hj']; [done|by apply IH].
Qed.

Lemma shown_rows_inj b1 b2 ks :
  columns b1 = columns b2 →
  concat_text (shown_row b1 <$> ks) = concat_text (shown_row b2 <$> ks) →
  ∀ i, i ∈ ks → shown_row b1 i = shown_row b2 i.
Proof.
  intros Hc. induction ks as [|k ks IH]; intros Heq i Hi;
    [by apply elem_of_nil in Hi|].
  cbn [fmap list_fmap concat_text] in Heq.
  apply append_cancel in Heq as [Hrow Hrest]; [|by apply length_shown_row].
  apply elem_of_cons in Hi as [->|Hi]; [done|by apply IH].
Qed.

(** The text before the cut ends with the space after the last cell and
    the newline of the last row. *)
Lemma shown_text_end b :
  1 ≤ rows b → 1 ≤ columns b →
  ∃ s, shown_header b +:+ concat_text (shown_row b <$> range (rows b))
       = s +:+ String " " newline.
Proof.
  intros Hrows Hcols.
  assert (Hsnoc : ∀ n, 1 ≤ n → range n = range (n - 1) ++ [n - 1]).
  { intros n Hn. unfold range.
    replace n with ((n - 1) + 1) at 1 by lia.
    rewrite seqZ_app by lia. simpl. by rewrite Z.add_0_l. }
  assert (Hconcat : ∀ (l : list string) s, concat_text (l ++ [s])
                                           = concat_text l +:+ s).
  { induction l as [|x l IH]; intros s; simpl; [by rewrite append_nil_r|].
    by rewrite IH, append_assoc. }
  rewrite (Hsnoc (rows b)) by done. rewrite fmap_app. cbn [fmap list_fmap].
  rewrite Hconcat. unfold shown_row at 2.
  rewrite (Hsnoc (columns b)) by done. rewrite fmap_app. cbn [fmap list_fmap].
  rewrite Hconcat.
  assert (Hend : ∀ a c, (a +:+ String c " ") +:+ newline
                        = (a +:+ String c EmptyString) +:+ String " " newline).
  { intros a c. by rewrite !append_assoc. }
  rewrite Hend.
  exists (shown_header b
          +:+ concat_text (shown_row b <$> range (rows b - 1))
          +:+ pad2 (str_Z (rows b - 1))
          +:+ concat_text ((λ j, String (shown_cell b (rows b - 1) j) " ")
                           <$> range (columns b - 1))
          +:+ String (shown_cell b (rows b - 1) (columns b - 1)) EmptyString).
  by rewrite !append_assoc.
Qed.

Lemma shown_cell_views b1 b2 i j :
  valid_board b1 → valid_board b2 → in_bounds b1 i j → in_bounds b2 i j →
  shown_cell b1 i j = shown_cell b2 i j →
  seen_at b1 i j = seen_at b2 i j
  ∧ (seen_at b1 i j = true → value_at b1 i j = value_at b2 i j).
Proof.
  intros Hv1 Hv2 Hb1 Hb2. unfold shown_cell.
  pose proof (value_at_validX b1 i j Hv1 Hb1) as Hx1.
  pose proof (value_at_validX b2 i j Hv2 Hb2) as Hx2.
  assert (HH : "H"%char ∉ validX).
  { unfold validX. rewrite !elem_of_cons, elem_of_nil. intuition discriminate. }
  destruct (seen_at b1 i j), (seen_at b2 i j); intros Heq; try done.
  - by rewrite Heq in Hx1.
  - by rewrite <- Heq in Hx2.
Qed.

(** X24. The display shows all there is to see: two well-formed boards of
    the same dimensions with the same display agree on which cells are
    seen and on the value of every seen cell. *)
Theorem Board_str_shows (b1 b2 : Board) :
  valid_board b1 → valid_board b2 →
  rows b1 = rows b2 → columns b1 = columns b2 →
  Board_str b1 = Board_str b2 →
  ∀ i j, in_bounds b1 i j →
    is_hidden b1 i j = is_hidden b2 i j
    ∧ (is_hidden b1 i j = Ok "S"%char → get_value b1 i j = get_value b2 i j).
Proof.
  intros Hv1 Hv2 Hr Hc Hsame i j Hb1.
  assert (Hb2 : in_bounds b2 i j) by (unfold in_bounds; by rewrite <- Hr, <- Hc).
  pose proof Hb1 as [Hi Hj].
  rewrite !Board_str_layout in Hsame by done.
  destruct (shown_text_end b1) as [s1 Hs1]; [lia|lia|].
  destruct (shown_text_end b2) as [s2 Hs2]; [lia|lia|].
  assert (Htext : shown_header b1 +:+ concat_text (shown_row b1 <$> range (rows b1))
                  = shown_header b2 +:+ concat_text (shown_row b2 <$> range (rows b2))).
  { rewrite Hs1, Hs2. rewrite Hs1, Hs2 in Hsame. unfold newline in Hsame.
    rewrite !drop_last2_snoc in Hsame. by injection Hsame as ->. }
  assert (Hhead : shown_header b1 = shown_header b2).
  { unfold shown_header. by rewrite Hr. }
  rewrite Hhead in Htext.
  apply append_cancel in Htext as [_ Hrows]; [|done].
  rewrite <- Hr in Hrows.
  pose proof (shown_rows_inj b1 b2 (range (rows b1)) Hc Hrows i) as Hrow.
  unfold shown_row in Hrow.
  apply append_cancel in Hrow as [_ Hcells];
    [|done|apply elem_of_seqZ; lia].
  rewrite <- Hc in Hcells.
  pose proof (shown_cells_inj b1 b2 i (range (columns b1)) _ _ Hcells j) as Hcell.
  destruct (shown_cell_views b1 b2 i j Hv1 Hv2 Hb1 Hb2) as [Hseen Hval].
  { apply Hcell, elem_of_seqZ. lia. }
  rewrite !is_hidden_valid, !get_value_valid by done. rewrite Hseen.
  split; [done|]. intros Hs. rewrite Hval; [done|].
  apply (is_hidden_S b1); [done|done|]. by rewrite is_hidden_valid, Hseen.
Qed.

Lemma Board_str_shows_witness :
  valid_board corner_3x3
  ∧ Board_str corner_3x3
    = Board_str {| rows := 3; columns := 3;
                   board := [["0H"; "0H"; "0H"]; ["0H"; "*H"; "0H"];
                             ["0H"; "0H"; "0H"]]%string |}
  ∧ is_hidden corner_3x3 1 1
    = is_hidden {| rows := 3; columns := 3;
                   board := [["0H"; "0H"; "0H"]; ["0H"; "*H"; "0H"];
                             ["0H"; "0H"; "0H"]]%string |} 1 1.
Proof.
  split; [reflexivity|]. split; [reflexivity|].
  apply (Board_str_shows corner_3x3
           {| rows := 3; columns := 3;
              board := [["0H"; "0H"; "0H"]; ["0H"; "*H"; "0H"];
                        ["0H"; "0H"; "0H"]]%string |});
    [reflexivity|reflexivity|reflexivity|reflexivity|reflexivity
    |unfold in_bounds; simpl; lia].
Defined.

Lemma read_dimensions_zero (py_int : string → option Z) lines :
  read_dimensions py_int lines (Some 0) = read_dimensions py_int lines None
  ∨ ∃ nrows nrows',
      read_dimensions py_int lines (Some 0) = Some (nrows, None, [])
      ∧ read_dimensions py_int lines None = Some (nrows', None, []).
Proof.
  induction lines as [|line lines IH]; [right; by eexists _, _|].
  cbn [read_dimensions]. cbv zeta. case_bool_decide; [done|by left].
Qed.

(** X25. A first number 0 in the input file is not taken as the number
    of rows: the line is passed over like a blank one and the next number
    is read as the rows, so the program behaves as if the line were not
    there. *)
Theorem main_skips_zero_rows (py_int : string → option Z)
    (can_write : string → bool) (zero : string) (lines : list string)
    (nrows ncolumns mines : Z) (tape : list (Z * Z)) (inputs : list string) :
  py_int (strip zero) = Some 0 →
  main py_int can_write
    {| arg_input := Some (zero :: lines);
       arg_rows := nrows; arg_columns := ncolumns; arg_mines := mines |}
    tape inputs
  = main py_int can_write
      {| arg_input := Some lines;
         arg_rows := nrows; arg_columns := ncolumns; arg_mines := mines |}
      tape inputs.
Proof.
  intros Hzero. unfold main. cbn [arg_input].
  assert (Hload : load_file py_int (zero :: lines) = load_file py_int lines);
    [|by rewrite Hload].
  unfold load_file. cbn [read_dimensions]. cbv zeta.
  case_bool_decide; [done|]. rewrite Hzero.
  destruct (read_dimensions_zero py_int lines)
    as [->|(nr & nr' & -> & ->)]; [done|].
  by destruct nr, nr'.
Qed.

Lemma main_skips_zero_rows_witness :
  decimal_int (strip "0") = Some 0
  ∧ main decimal_int (λ _, true)
      {| arg_input := Some ["0"; "1"; "2"; "*H 1H"]%string;
         arg_rows := 1; arg_columns := 2; arg_mines := 1 |}
      [] ["2"]%string
    = main decimal_int (λ _, true)
        {| arg_input := Some ["1"; "2"; "*H 1H"]%string;
           arg_rows := 1; arg_columns := 2; arg_mines := 1 |}
        [] ["2"]%string.
Proof.
  split; [reflexivity|].
  apply (main_skips_zero_rows decimal_int (λ _, true) "0"). reflexivity.
Defined.
